(** * Citation resolution and verification pipeline

    A shallow embedding of the verification core of the citation audit:
    [execution/citation_audit_verify_nap.py], [execution/verify_url.py],
    [execution/discover_profile_url.py],
    [execution/citation_audit_discovery.py] and [execution/find_urls.py].

    Python functions become Rocq functions of the same name.  A function
    body is a sequence of statements in a small monad that threads the
    list of collaborator calls made so far and distinguishes falling
    through to the next statement, [return] and a propagating exception.
    What the network answers (the three fetchers of a page, HTTP
    requests, the search and research services) and the library
    functions the code calls ([urlparse], [fuzz.partial_ratio],
    [json.loads]) are parameters of the embedding, so that every
    statement below holds for all their behaviours.

    Text is modelled as strings of 8-bit characters; the character
    classes and case mappings are those of Python on ASCII.  Scores are
    rationals: the rounding of floating point is not modelled. *)

From Stdlib Require Import ZArith QArith Qround List Bool Ascii String Lia Lqa.
From Stdlib Require Import Numbers.DecimalString.
Import ListNotations.
Local Open Scope string_scope.
Local Open Scope Z_scope.

(* ================================================================== *)
(** * Python text primitives *)
(* ================================================================== *)

Module Py.

Definition code (c : ascii) : nat := nat_of_ascii c.

Definition between (lo hi : nat) (c : ascii) : bool :=
  (Nat.leb lo (code c)) && (Nat.leb (code c) hi).

(** [str.isspace], also the class [\s]: tab, LF, VT, FF, CR, the four
    separators FS GS RS US, and the space. *)
Definition isspace (c : ascii) : bool := between 9 13 c || between 28 32 c.

(** The class [\d]. *)
Definition isdigit (c : ascii) : bool := between 48 57 c.

Definition isupper (c : ascii) : bool := between 65 90 c.
Definition islower (c : ascii) : bool := between 97 122 c.
Definition isalpha (c : ascii) : bool := isupper c || islower c.

(** The class [\w]. *)
Definition isword (c : ascii) : bool :=
  isalpha c || isdigit c || Ascii.eqb c "_"%char.

Definition lower_char (c : ascii) : ascii :=
  if isupper c then ascii_of_nat (code c + 32) else c.

Definition upper_char (c : ascii) : ascii :=
  if islower c then ascii_of_nat (code c - 32) else c.

Fixpoint map (f : ascii -> ascii) (s : string) : string :=
  match s with
  | EmptyString => EmptyString
  | String c s' => String (f c) (map f s')
  end.

Fixpoint filter (f : ascii -> bool) (s : string) : string :=
  match s with
  | EmptyString => EmptyString
  | String c s' => if f c then String c (filter f s') else filter f s'
  end.

(** [s.lower()] *)
Definition lower (s : string) : string := map lower_char s.

(** [s.startswith(p)] *)
Definition startswith (p s : string) : bool := String.prefix p s.

(** [sub in s] *)
Fixpoint contains (sub s : string) : bool :=
  String.prefix sub s ||
  match s with
  | EmptyString => false
  | String _ s' => contains sub s'
  end.

Fixpoint rev_onto (s acc : string) : string :=
  match s with
  | EmptyString => acc
  | String c s' => rev_onto s' (String c acc)
  end.

Definition rev (s : string) : string := rev_onto s EmptyString.

(** [s.endswith(p)] *)
Definition endswith (p s : string) : bool := String.prefix (rev p) (rev s).

(** [s.lstrip()], [s.rstrip()], [s.strip()] *)
Fixpoint lstrip (s : string) : string :=
  match s with
  | EmptyString => EmptyString
  | String c s' => if isspace c then lstrip s' else s
  end.

Fixpoint rstrip (s : string) : string :=
  match s with
  | EmptyString => EmptyString
  | String c s' =>
      let r := rstrip s' in
      if isspace c && String.eqb r EmptyString then EmptyString
      else String c r
  end.

Definition strip (s : string) : string := rstrip (lstrip s).

(** [re.sub(r'\s+', ' ', s)]: every maximal run of white space becomes
    one space.  [in_run] records that the previous character was white
    space already replaced. *)
Fixpoint collapse_spaces (in_run : bool) (s : string) : string :=
  match s with
  | EmptyString => EmptyString
  | String c s' =>
      if isspace c
      then (if in_run then collapse_spaces true s'
            else String " "%char (collapse_spaces true s'))
      else String c (collapse_spaces false s')
  end.

(** [s.replace(old, new)] for a non-empty [old]; [fuel] bounds the
    scan and is the length of [s] at the call. *)
Fixpoint drop (n : nat) (s : string) : string :=
  match n, s with
  | O, _ => s
  | S n', String _ s' => drop n' s'
  | S _, EmptyString => EmptyString
  end.

Fixpoint replace_fuel (fuel : nat) (old new s : string) : string :=
  match fuel with
  | O => s
  | S fuel' =>
      match s with
      | EmptyString => EmptyString
      | String c s' =>
          if String.prefix old s
          then new ++ replace_fuel fuel' old new (drop (String.length old) s)
          else String c (replace_fuel fuel' old new s')
      end
  end.

Definition replace (old new s : string) : string :=
  replace_fuel (String.length s) old new s.

(** [s.split(sep)] for a one-character separator. *)
Fixpoint split_char (sep : ascii -> bool) (cur : string) (s : string)
  : list string :=
  match s with
  | EmptyString => [rev cur]
  | String c s' =>
      if sep c then rev cur :: split_char sep EmptyString s'
      else split_char sep (String c cur) s'
  end.

(** [s.split()]: the maximal runs of characters that are not white space. *)
Definition split (s : string) : list string :=
  List.filter (fun w => negb (String.eqb w EmptyString))
              (split_char isspace EmptyString s).

(** [sep.join(l)] *)
Fixpoint join (sep : string) (l : list string) : string :=
  match l with
  | [] => EmptyString
  | [w] => w
  | w :: l' => w ++ sep ++ join sep l'
  end.

(** [s.title()]: a letter is upper-cased when the character before it
    is not a letter, and lower-cased otherwise. *)
Fixpoint title_from (prev_cased : bool) (s : string) : string :=
  match s with
  | EmptyString => EmptyString
  | String c s' =>
      String (if prev_cased then lower_char c else upper_char c)
             (title_from (isalpha c) s')
  end.

Definition title (s : string) : string := title_from false s.

(** Truth value of an optional string: [None] and [''] are false. *)
Definition truthy (o : option string) : bool :=
  match o with
  | Some s => negb (String.eqb s EmptyString)
  | None => false
  end.

(** [str(o)] where [o] is known to be a string. *)
Definition str (o : option string) : string :=
  match o with Some s => s | None => EmptyString end.

(** [any(k in s for k in keys)] *)
Definition any_in (keys : list string) (s : string) : bool :=
  existsb (fun k => contains k s) keys.

(** Decimal text of an integer, as in an f-string. *)
Definition of_Z (z : Z) : string := NilZero.string_of_int (Z.to_int z).

(** [int(q)]: truncation towards zero. *)
Definition int (q : Q) : Z :=
  if Qle_bool 0 q then Qfloor q else Qceiling q.

End Py.

(* ================================================================== *)
(** * Values, dictionaries and control flow *)
(* ================================================================== *)

(** The values that the result dictionaries of the pipeline hold. *)
#[local] Set Warnings "-register-all".
Inductive value : Type :=
| VNone
| VBool (b : bool)
| VInt (n : Z)
| VFloat (q : Q)
| VStr (s : string)
| VList (l : list value)
| VDict (d : list (string * value)).
#[local] Set Warnings "register-all".

Definition dict := list (string * value).

(** [d.get(k)], with [None] of the option type for a missing key. *)
Fixpoint dict_get (k : string) (d : dict) : option value :=
  match d with
  | [] => None
  | (k', v) :: d' => if String.eqb k k' then Some v else dict_get k d'
  end.

(** A call made to a collaborator, in the order the calls happen. *)
Inductive http_result : Type :=
| HttpError (msg : string)                 (* the request raised *)
| HttpResponse (status : Z) (text : string).

Inductive event : Type :=
| EvScrape (url : string)                       (* scrape_content(url) *)
| EvGet (url : string) (r : http_result)        (* requests.get(url) *)
| EvPost (url : string) (r : http_result)       (* requests.post(url) *)
| EvSerper (query gl : string)                  (* search_serper *)
| EvValidate (url : string)           (* validate_and_extract_profile *)
| EvDirectSearch (domain : string)        (* search_directory_directly *)
| EvReachable (url : string)                    (* verify_url_exists *)
| EvCorrection (name : string)                  (* search_correct_domain *)
| EvSlugMatch.       (* marks that the slug comparison of verify_url ran *)

Definition trace := list event.

(** How a statement ends. *)
Inductive flow (R A : Type) : Type :=
| Next (a : A)          (* control reaches the next statement *)
| Return (r : R)        (* a [return r] was executed *)
| Raise (e : string).   (* an exception propagates *)

Arguments Next {R A} a.
Arguments Return {R A} r.
Arguments Raise {R A} e.

(** A statement of a function whose result type is [R]: it extends the
    trace of collaborator calls and ends in one of the three ways. *)
Definition stmt (R A : Type) : Type := trace -> flow R A * trace.

Definition ret {R A} (a : A) : stmt R A := fun t => (Next a, t).
Definition return_ {R A} (r : R) : stmt R A := fun t => (Return r, t).
Definition raise {R A} (e : string) : stmt R A := fun t => (Raise e, t).
Definition emit {R} (ev : event) : stmt R unit :=
  fun t => (Next tt, (t ++ [ev])%list).

Definition bind {R A B} (c : stmt R A) (k : A -> stmt R B) : stmt R B :=
  fun t =>
    match c t with
    | (Next a, t') => k a t'
    | (Return r, t') => (Return r, t')
    | (Raise e, t') => (Raise e, t')
    end.

Declare Scope stmt_scope.
Delimit Scope stmt_scope with stmt.
Notation "x <- c ;; k" := (bind c (fun x => k))
  (at level 61, c at next level, right associativity) : stmt_scope.
Notation "c ;; k" := (bind c (fun _ => k))
  (at level 61, right associativity) : stmt_scope.
Local Open Scope stmt_scope.

(** [if b: body] *)
Definition when {R} (b : bool) (body : stmt R unit) : stmt R unit :=
  if b then body else ret tt.

(** [try: body / except: handler] catching every exception. *)
Definition try_ {R A} (body : stmt R A) (handler : string -> stmt R A)
  : stmt R A :=
  fun t =>
    match body t with
    | (Raise e, t') => handler e t'
    | other => other
    end.

(** The result of a call: the function returned a value or raised. *)
Inductive outcome (R : Type) : Type :=
| Returned (r : R)
| Raised (e : string).

Arguments Returned {R} r.
Arguments Raised {R} e.

(** A library call that may raise, used as a statement. *)
Definition lift {R A} (o : outcome A) : stmt R A :=
  match o with
  | Returned a => ret a
  | Raised e => raise e
  end.

(** Calling a function body on an empty trace.  Every body below ends
    in [return_]; falling off the end returns [dflt] (Python's [None]). *)
Definition call {R} (dflt : R) (body : stmt R unit) : outcome R * trace :=
  match body [] with
  | (Next _, t) => (Returned dflt, t)
  | (Return r, t) => (Returned r, t)
  | (Raise e, t) => (Raised e, t)
  end.

(* ================================================================== *)
(** * NapMatcher: [citation_audit_verify_nap.py] *)
(* ================================================================== *)

Definition normalize_text (text : option string) : string :=
  if negb (Py.truthy text) then ""
  else Py.collapse_spaces false (Py.strip (Py.lower (Py.str text))).

Definition normalize_phone (phone : option string) : string :=
  if negb (Py.truthy phone) then ""
  else Py.filter Py.isdigit (Py.str phone).

Definition BLOCK_KEYWORDS : list string :=
  ["403 forbidden"; "access denied"; "you are blocked"; "captcha required";
   "verify you are human"; "just a moment"; "enable javascript"].

Definition website_phrases : list string :=
  ["visit website"; "view website"; "go to website"; "website:";
   "visit site"; "view site"; "go to site"; "official website";
   "click to visit"; "click here to visit"; "click to view";
   "visit their website"; "view their website"; "their website";
   "visit our website"; "our website"; "my website";
   "business website"; "practice website"; "clinic website";
   "office website"; "company website"; "doctor website";
   "dentist website";
   "www."; "http://"; "https://";
   "homepage"; "home page"; "main site";
   "learn more at"; "find us at"; "see us at";
   "get directions"; "contact us online"; "book online";
   "schedule online"; "request appointment"; "online booking";
   "external link"; "opens in new"; "new window"; "new tab";
   "[website]"; "(website)"; "web:"; "url:";
   "visit now"; "go now"; "click here"].

(** The tri-state flag as a dictionary value. *)
Definition tri (o : option bool) : value :=
  match o with Some b => VBool b | None => VNone end.

(** [generate_detailed_description]: the four-line summary.  The
    arguments the Python function receives and never reads
    ([business_name], [phone], [address_parts], [content]) are left out. *)
Definition generate_detailed_description
  (phone_found : bool) (name_score : Q) (address_score : Z)
  (website_ok : option bool) : string :=
  let l1 :=
    if Qle_bool 90 name_score then "✓ Name: Found exactly"
    else if Qle_bool 80 name_score then "✓ Name: Partial match"
    else if Qle_bool 70 name_score then "⚠ Name: Weak match"
    else "✗ Name: Not found" in
  let l2 :=
    if 80 <=? address_score then "✓ Address: Found"
    else if 60 <=? address_score then "⚠ Address: Partial"
    else "✗ Address: Not found" in
  let l3 :=
    if phone_found then "✓ Phone: Verified" else "✗ Phone: Not found" in
  let l4 :=
    match website_ok with
    | Some true => "✓ Website: Link found"
    | Some false => "✗ Website: Not found"
    | None => "— Website: Not checked"
    end in
  Py.join " | " [l1; l2; l3; l4].

(** The address loop of [verify_nap]: [(hits, total)] over the parts
    that are not empty. *)
Fixpoint address_hits (content_norm : string) (parts : list (option string))
  : Z * Z :=
  match parts with
  | [] => (0, 0)
  | part :: rest =>
      let '(hits, total) := address_hits content_norm rest in
      if negb (Py.truthy part) then (hits, total)
      else if Py.contains (normalize_text part) content_norm
           then (hits + 1, total + 1)
           else (hits, total + 1)
  end.

(** The first guard of [verify_nap]: [not url or not url.startswith('http')]. *)
Definition invalid_url (url : option string) : bool :=
  negb (Py.truthy url) || negb (Py.startswith "http" (Py.str url)).

(** Soft block: only short content that has a block keyword. *)
Definition is_blocked (content_norm : string) : bool :=
  Py.any_in BLOCK_KEYWORDS content_norm
  && (Z.of_nat (String.length content_norm) <? 2000).

(** [domain.split(".")[0].title()] *)
Definition directory_label (domain : string) : string :=
  Py.title (hd "" (Py.split_char (Ascii.eqb ".") "" domain)).

Definition blocked_result (domain : string) : dict :=
  [("status", VStr "found");      (* kept as found: the URL is valid *)
   ("confidence", VInt 0);
   ("details",
     VStr ("Scraper blocked by " ++ directory_label domain
           ++ ". NAP checks require manual verification."));
   ("nap_name_ok", VNone);
   ("nap_address_ok", VNone);
   ("nap_phone_ok", VNone);
   ("nap_website_ok", VNone)].

(** 1. Phone match: the local [phone_score], 0 or 100. *)
Definition phone_score (phone : option string) (content : string) : Z :=
  let phone_norm := normalize_phone phone in
  if negb (String.eqb phone_norm "")
     && (10 <=? Z.of_nat (String.length phone_norm))
  then
    let content_phones := Py.filter Py.isdigit content in
    if Py.contains phone_norm content_phones then 100 else 0
  else 0.

(** 3. Address match: the local [calc_address_score]. *)
Definition calc_address_score (address_parts : list (option string))
  (content_norm : string) : Z :=
  match address_parts with
  | [] => 0
  | _ =>
      let '(hits, total) := address_hits content_norm address_parts in
      if 0 <? total then Py.int ((inject_Z hits / inject_Z total) * 100)%Q
      else 0
  end.

(** The weighted score, with the boost of a phone match. *)
Definition final_score (phone_score : Z) (name_score : Q)
  (calc_address_score : Z) : Q :=
  let final_score :=
    (inject_Z phone_score * (5#10) + name_score * (3#10)
     + inject_Z calc_address_score * (2#10))%Q in
  if phone_score =? 100
  then (if Qle_bool 90 final_score then final_score else 90%Q)
  else final_score.

(** ** The cascading fetch: [scrape_content] *)

Definition CAMOUFOX_BLOCK_INDICATORS : list string :=
  ["verify you are human"; "access denied"; "enable javascript and cookies"].

Definition CLOUDSCRAPER_BLOCK_INDICATORS : list string :=
  ["verify you are human"; "captcha"; "access denied"; "please wait"].

Section PageFetcher.

(** The three fetchers.  [camoufox url] is the content of the rendered
    page, or the exception of the browser; [cloudscraper_get url] is the
    answer to the evasive request; [reader_get attempt url] is the
    answer of the reader service to the request number [attempt]. *)
Variable camoufox : string -> outcome string.
Variable cloudscraper_get : string -> http_result.
Variable reader_get : nat -> string -> http_result.

(** First tier: the rendered page is taken when it has more than 500
    characters and is not a short page with a block indicator. *)
Definition stealth_render (url : string) : option string :=
  match camoufox url with
  | Returned content =>
      if Nat.ltb 500 (String.length content) then
        let content_lower := Py.lower content in
        let is_short_blocked :=
          Nat.ltb (String.length content) 5000
          && Py.any_in CAMOUFOX_BLOCK_INDICATORS content_lower in
        if negb is_short_blocked then Some content else None
      else None
  | Raised _ => None
  end.

(** Second tier: a 200 answer of more than 200 characters without a
    block indicator. *)
Definition evasive_http (url : string) : option string :=
  match cloudscraper_get url with
  | HttpResponse status text =>
      if (status =? 200) && Nat.ltb 200 (String.length text) then
        let content_lower := Py.lower text in
        if negb (Py.any_in CLOUDSCRAPER_BLOCK_INDICATORS content_lower)
        then Some text else None
      else None
  | HttpError _ => None
  end.

(** Third tier: the loop [for attempt in range(max_retries)] on the
    reader service; [left] counts the attempts that remain. *)
Fixpoint reader (left attempt : nat) (url : string) : string :=
  match left with
  | O => ""
  | S left' =>
      let jina_url := "https://r.jina.ai/" ++ url in
      match reader_get attempt jina_url with
      | HttpResponse status text =>
          if (status =? 200) && Nat.ltb 100 (String.length text)
             && negb (Py.contains "verify you are human" (Py.lower text))
             && negb (Py.contains "just a moment" (Py.lower text))
          then text
          else reader left' (S attempt) url
      | HttpError _ => reader left' (S attempt) url
      end
  end.

(** [scrape_content(url)] with its default [max_retries=2]: the first
    tier that gives content wins, and [""] stands for no content. *)
Definition scrape_content (url : string) : string :=
  match stealth_render url with
  | Some content => content
  | None =>
      match evasive_http url with
      | Some content => content
      | None => reader 2 0 url
      end
  end.

End PageFetcher.

(** The dictionaries that [verify_nap] returns. *)
Definition invalid_url_result : dict :=
  [("status", VStr "not_found"); ("confidence", VInt 0);
   ("details", VStr "Invalid URL")].

Definition scrape_error_result : dict :=
  [("status", VStr "error"); ("confidence", VInt 0);
   ("details", VStr "Could not scrape page");
   ("nap_website_ok", VNone)].

Definition nap_result (phone_score : Z) (name_score : Q)
  (calc_address_score : Z) (website_ok : option bool) : dict :=
  let final_score := final_score phone_score name_score calc_address_score in
  let details :=
    generate_detailed_description
      (phone_score =? 100) name_score calc_address_score website_ok in
  [("status", VStr "found");
   ("confidence", VInt (Py.int final_score));
   ("details", VStr details);
   ("nap_name_ok", VBool (Qle_bool 80 name_score));
   ("nap_address_ok", VBool (60 <=? calc_address_score));
   ("nap_phone_ok", VBool (phone_score =? 100));
   ("nap_website_ok", tri website_ok)].

Section NapMatcher.

(** The fetchers of [scrape_content]. *)
Variable camoufox : string -> outcome string.
Variable cloudscraper_get : string -> http_result.
Variable reader_get : nat -> string -> http_result.

(** [fuzz.partial_ratio(a, b)], a score between 0 and 100. *)
Variable partial_ratio : string -> string -> Q.

(** [urlparse(url).netloc]; [urlparse] raises [ValueError] on some
    malformed URLs. *)
Variable urlparse_netloc : string -> outcome string.

(** The call [scrape_content(url)], recorded in the trace. *)
Definition scrape (url : string) : stmt dict string :=
  emit (EvScrape url) ;;
  ret (scrape_content camoufox cloudscraper_get reader_get url).

(** 4. Website match: the local [website_ok].  The domain must appear
    in the content; [phrase_found] is computed and not consulted. *)
Definition website_ok (website_url : option string) (content_norm : string)
  : stmt dict (option bool) :=
  if Py.truthy website_url then
    try_
      (netloc <- lift (urlparse_netloc (Py.str website_url)) ;;
       let website_domain := Py.replace "www." "" (Py.lower netloc) in
       let domain_found :=
         negb (String.eqb website_domain "")
         && Py.contains website_domain content_norm in
       let phrase_found := Py.any_in website_phrases content_norm in
       if domain_found then ret (Some true)
       else ret (Some false))
      (fun _ => ret None)
  else ret None.

Definition verify_nap_body
  (url business_name phone : option string)
  (address_parts : list (option string)) (website_url : option string)
  : stmt dict unit :=
  when (invalid_url url) (return_ invalid_url_result) ;;
  let url := Py.str url in
  content <- scrape url ;;
  when (String.eqb content "") (return_ scrape_error_result) ;;
  let content_norm := normalize_text (Some content) in
  when (is_blocked content_norm)
    (netloc <- lift (urlparse_netloc url) ;;
     let domain := Py.lower netloc in
     return_ (blocked_result domain)) ;;
  let phone_score := phone_score phone content in
  let name_score := partial_ratio (normalize_text business_name) content_norm in
  let calc_address_score := calc_address_score address_parts content_norm in
  website_ok <- website_ok website_url content_norm ;;
  return_ (nap_result phone_score name_score calc_address_score website_ok).

Definition verify_nap
  (url business_name phone : option string)
  (address_parts : list (option string)) (website_url : option string)
  : outcome dict * trace :=
  call [] (verify_nap_body url business_name phone address_parts website_url).

End NapMatcher.

(* ================================================================== *)
(** * URL verification: [verify_url.py] *)
(* ================================================================== *)

Definition newline : ascii := ascii_of_nat 10.

Fixpoint take (n : nat) (s : string) : string :=
  match n, s with
  | O, _ => EmptyString
  | S n', String c s' => String c (take n' s')
  | S _, EmptyString => EmptyString
  end.

Definition error_phrases : list string :=
  ["page not found"; "provider not found"; "we couldn't find";
   "we could not find"; "no results for"; "doesn't exist";
   "does not exist"; "error 404"; "404 error"; "page unavailable";
   "profile not found"; "find a doctor - doctor reviews"].

Definition is_soft_404 (content : string) : bool :=
  let content := Py.lower content in
  let lines := Py.split_char (Ascii.eqb newline) "" content in
  let filtered_lines :=
    List.filter
      (fun line => negb (Py.startswith "url source:" line)
                   && negb (Py.startswith "title:" line))
      lines in
  let content := Py.join (String newline "") filtered_lines in
  Py.any_in error_phrases content.

Definition search_indicators : list string :=
  ["search results for"; "results for"; "find a doctor"; "best doctors in";
   "top rated"; "list of"; "directory of"; "matching results";
   "providers found"].

Definition is_search_result_page (content title : string) : bool :=
  let content := Py.lower content in
  let title := Py.lower title in
  if Py.startswith "search" title || Py.startswith "find" title
     || Py.contains "search results" title
  then true
  else Py.any_in search_indicators (take 1000 content).

(** [all(part in text for part in name_parts if len(part) > 2)] *)
Definition all_parts_in (name_parts : list string) (text : string) : bool :=
  forallb (fun part => Py.contains part text)
          (List.filter (fun part => Nat.ltb 2 (String.length part)) name_parts).

Definition check_text (content required_text : string)
  (name_parts : list string) : bool :=
  if is_soft_404 content then false
  else if is_search_result_page content "" then false
  else
    let content := Py.lower content in
    let clean_req := Py.lower required_text in
    if Py.contains clean_req content then true
    else if all_parts_in name_parts content then true
    else false.

Definition is_dead (status : Z) : bool := (status =? 404) || (status =? 410).

Definition log_value (log : list string) : value := VList (List.map VStr log).

(** [log.append(msg)] *)
Definition append (log : list string) (msg : string) : list string :=
  (log ++ [msg])%list.

(** The record of a dead link. *)
Definition dead_link_result (log : list string) : dict :=
  [("verified", VBool false); ("reason", VStr "Dead Link (404/410)");
   ("log", log_value log)].

Section UrlVerifier.

(** [requests.get(url, ...)]: what the network answers to the request
    for [url] made after [n] earlier collaborator calls. *)
Variable http_get : nat -> string -> http_result.

Definition get {R} (url : string) : stmt R (Z * string) :=
  fun t =>
    let r := http_get (List.length t) url in
    let t' := (t ++ [EvGet url r])%list in
    match r with
    | HttpError msg => (Raise msg, t')
    | HttpResponse status text => (Next (status, text), t')
    end.

Definition verify_url_body (url required_text : option string)
  : stmt dict unit :=
  when (negb (Py.truthy url) || negb (Py.truthy required_text))
    (return_ [("verified", VBool false); ("reason", VStr "Missing input")]) ;;
  let url := Py.str url in
  let required_text := Py.str required_text in
  let clean_req :=
    Py.strip (Py.replace "dr " "" (Py.replace "dr." "" (Py.lower required_text))) in
  let name_parts := Py.split clean_req in
  let log : list string := [] in
  (* 0. pre-check of the status code *)
  log <-
    try_
      (pre_resp <- get url ;;
       when (is_dead (fst pre_resp))
         (let log := append log ("Pre-check: Status "
                                 ++ Py.of_Z (fst pre_resp)
                                 ++ " (Dead Link)") in
          return_ (dead_link_result log)) ;;
       ret log)
      (fun e => ret (append log ("Pre-check Warning: " ++ e))) ;;
  (* 1. Jina reader *)
  jina <-
    try_
      (let jina_url := "https://r.jina.ai/" ++ url in
       jina_response <- get jina_url ;;
       if fst jina_response =? 200 then
         if check_text (snd jina_response) clean_req name_parts
         then return_ [("verified", VBool true); ("method", VStr "jina");
                       ("log", log_value log)]
         else ret (append log "Jina: Text not found (Content fetched)", true)
       else ret (append log ("Jina: Status " ++ Py.of_Z (fst jina_response)),
                 false))
      (fun e => ret (append log ("Jina Error: " ++ e), false)) ;;
  let log := fst jina in
  let jina_success_but_failed_verify := snd jina in
  when jina_success_but_failed_verify
    (return_ [("verified", VBool false);
              ("reason", VStr "Text not found (Jina)");
              ("log", log_value log)]) ;;
  (* 2. plain request *)
  req <-
    try_
      (resp <- get url ;;
       if fst resp =? 200 then
         if check_text (snd resp) clean_req name_parts
         then return_ [("verified", VBool true); ("method", VStr "requests");
                       ("log", log_value log)]
         else ret (append log "Requests: Text not found", true)
       else if is_dead (fst resp) then
         let log := append log ("Requests: Status " ++ Py.of_Z (fst resp)
                                ++ " (Dead Link)") in
         return_ (dead_link_result log)
       else ret (append log ("Requests: Status " ++ Py.of_Z (fst resp)), true))
      (fun e => ret (append log ("Requests Error: " ++ e), true)) ;;
  let log := fst req in
  let request_failed_but_not_404 := snd req in
  (* 3. last resort: slug match *)
  log <-
    (if request_failed_but_not_404 then
       try_
         (emit EvSlugMatch ;;
          let slug := hd "" (Py.split_char (Ascii.eqb "?") "" (Py.lower url)) in
          when (Py.contains (Py.replace " " "-" clean_req) slug
                || Py.contains (Py.replace " " "" clean_req) slug)
            (return_ [("verified", VBool true); ("method", VStr "slug_match");
                      ("log", log_value log)]) ;;
          when (all_parts_in name_parts slug)
            (return_ [("verified", VBool true);
                      ("method", VStr "slug_parts_match");
                      ("log", log_value log)]) ;;
          ret (append log "Slug: No match"))
         (fun e => ret (append log ("Slug Error: " ++ e)))
     else ret log) ;;
  return_ [("verified", VBool false); ("reason", VStr "Verification failed");
           ("log", log_value log)].

Definition verify_url (url required_text : option string)
  : outcome dict * trace :=
  call [] (verify_url_body url required_text).

End UrlVerifier.

(* ================================================================== *)
(** * ProfileResolver: [discover_profile_url.py] *)
(* ================================================================== *)

(** [re.sub(r'^dr\.?\s*', '', name)] *)
Definition strip_dr_prefix (name : string) : string :=
  if Py.startswith "dr" name then
    let rest := Py.drop 2 name in
    let rest := if Py.startswith "." rest then Py.drop 1 rest else rest in
    Py.lstrip rest
  else name.

Definition credentials : list string :=
  ["md"; "dds"; "dmd"; "do"; "phd"; "facs"].

(** The match of [\s+(md|dds|dmd|do|phd|facs)\.?] that ends where the
    reversed text [r] starts: an optional dot, one of the credentials,
    and the whole run of white space in front of it.  The result is
    what is left of [r] in front of that run, when there is a match. *)
Definition follows_space (n : nat) (r : string) : bool :=
  match Py.drop n r with
  | String c _ => Py.isspace c
  | EmptyString => false
  end.

Definition credential_suffix (r : string) : option string :=
  let r := if Py.startswith "." r then Py.drop 1 r else r in
  match List.find
          (fun cr => Py.startswith (Py.rev cr) r
                     && follows_space (String.length cr) r)
          credentials with
  | Some cr => Some (Py.lstrip (Py.drop (String.length cr) r))
  | None => None
  end.

(** [re.sub(r'\s+(md|dds|dmd|do|phd|facs)\.?$', '', name)]; [$] also
    matches in front of a newline that ends the text. *)
Definition strip_credential (name : string) : string :=
  let r := Py.rev name in
  match credential_suffix r with
  | Some front => Py.rev front
  | None =>
      match r with
      | String c r' =>
          if Ascii.eqb c newline then
            match credential_suffix r' with
            | Some front => Py.rev (String newline front)
            | None => name
            end
          else name
      | EmptyString => name
      end
  end.

Definition normalize_name (name : string) : string :=
  if String.eqb name "" then ""
  else
    let name := Py.lower name in
    let name := strip_dr_prefix name in
    let name := strip_credential name in
    let name := Py.filter (fun c => Py.isword c || Py.isspace c) name in
    Py.strip name.

(** [p for p in name_norm.split() if len(p) > 2] *)
Definition significant_parts (name_norm : string) : list string :=
  List.filter (fun p => Nat.ltb 2 (String.length p)) (Py.split name_norm).

Definition name_in_text (name text : string) : bool :=
  if String.eqb name "" || String.eqb text "" then false
  else
    let name_norm := normalize_name name in
    let text_lower := Py.lower text in
    if Py.contains name_norm text_lower then true
    else
      let parts := significant_parts name_norm in
      if Nat.leb 2 (List.length parts) then
        let first_two := Py.join " " (firstn 2 parts) in
        if Py.contains first_two text_lower then true
        else if Nat.leb 3 (List.length parts)
                && Py.contains (Py.join " " (firstn 3 parts)) text_lower
        then true
        else false
      else if Nat.eqb (List.length parts) 1 then
        existsb (String.eqb (hd "" parts)) (Py.split text_lower)
      else false.

(** A search result: [{url, title, snippet}]. *)
Record result : Type := mkResult {
  r_url : string;
  r_title : string;
  r_snippet : string
}.

Definition result_value (r : result) : value :=
  VDict [("url", VStr (r_url r)); ("title", VStr (r_title r));
         ("snippet", VStr (r_snippet r))].

Definition results_value (rs : list result) : value :=
  VList (List.map result_value rs).

Definition skip_domains : list string :=
  ["google.com"; "business.google.com"; "google.com/maps"; "facebook.com";
   "caredash.com"].

Definition domain_corrections : list (string * string) :=
  [("american dental association", "ada.org");
   ("ada find-a-dentist", "ada.org");
   ("academy of general dentistry", "agd.org");
   ("american academy of cosmetic dentistry", "aacd.com");
   ("american academy of implant dentistry", "aaid.com");
   ("better business bureau", "bbb.org")].

Definition mem (s : string) (l : list string) : bool :=
  existsb (String.eqb s) l.

(** The correction loop: the first keyword found in the directory name
    decides, and the loop stops there. *)
Fixpoint correct_domain (table : list (string * string))
  (dir_name_lower directory_domain : string) : string :=
  match table with
  | [] => directory_domain
  | (keyword, correct) :: rest =>
      if Py.contains keyword dir_name_lower then
        (if negb (String.eqb directory_domain correct) then correct
         else directory_domain)
      else correct_domain rest dir_name_lower directory_domain
  end.

Definition gl_of_country (country : string) : string :=
  if negb (String.eqb country "") then
    let c_lower := Py.strip (Py.lower country) in
    if mem c_lower ["australia"; "au"] then "au"
    else if mem c_lower ["canada"; "ca"] then "ca"
    else if mem c_lower ["united kingdom"; "uk"; "gb"; "great britain"] then "uk"
    else if mem c_lower ["new zealand"; "nz"] then "nz"
    else if mem c_lower ["ireland"; "ie"] then "ie"
    else if mem c_lower ["india"; "in"] then "in"
    else "us"
  else "us".

(** The name between double quotes, as the search query has it. *)
Definition quoted (s : string) : string :=
  String (ascii_of_nat 34) (s ++ String (ascii_of_nat 34) "").

(** The locals of [discover_profile_url] that make the search. *)
Definition corrected_domain (directory_name directory_domain : string)
  : string :=
  let dir_name_lower := Py.lower directory_name in
  correct_domain domain_corrections dir_name_lower directory_domain.

Definition search_name (business_name doctor_name : string) : string :=
  if negb (String.eqb doctor_name "") then doctor_name else business_name.

Definition location_term (city state country : string) : string :=
  let is_us :=
    String.eqb country ""
    || mem (Py.strip (Py.lower country))
           ["united states"; "usa"; "us"; "united states of america"] in
  if is_us then city ++ " " ++ state else country.

Definition query
  (directory_name directory_domain business_name doctor_name
     city state country : string) : string :=
  let directory_domain := corrected_domain directory_name directory_domain in
  let query :=
    "site:" ++ directory_domain ++ " "
    ++ quoted (search_name business_name doctor_name) ++ " "
    ++ location_term city state country in
  Py.join " " (Py.split query).

Definition fallback_query (directory_domain search_name : string) : string :=
  "site:" ++ directory_domain ++ " " ++ quoted search_name.

Definition list_patterns : list string :=
  ["/top-"; "/best-"; "/list"; "/find-"; "-near-"; "-in-"].

(** How the categorising loop of [discover_profile_url] files one
    result. *)
Inductive category : Type := Profile | Doctor | ListPage | Uncertain.

Definition classify (business_name doctor_name : string) (r : result)
  : category :=
  let title := r_title r in
  let snippet := r_snippet r in
  let url_lower := Py.lower (r_url r) in
  let name_parts :=
    List.filter
      (fun p => Nat.ltb 2 (String.length p) && negb (mem p ["the"; "and"; "of"]))
      (Py.split (normalize_name business_name)) in
  let is_profile :=
    Nat.leb 2 (List.length name_parts)
    && Py.contains (Py.join "-" (firstn 2 name_parts)) url_lower in
  let is_profile := is_profile || name_in_text business_name title in
  let is_doctor :=
    negb (String.eqb doctor_name "")
    && (name_in_text doctor_name title || name_in_text doctor_name snippet) in
  let is_list := Py.any_in list_patterns url_lower in
  let is_profile :=
    is_profile
    || (is_list && (name_in_text business_name title
                    || name_in_text business_name snippet)) in
  if is_profile then Profile
  else if is_doctor then Doctor
  else if is_list
          && (name_in_text business_name title
              || name_in_text business_name snippet)
  then ListPage
  else Uncertain.

Definition category_eqb (a b : category) : bool :=
  match a, b with
  | Profile, Profile | Doctor, Doctor | ListPage, ListPage
  | Uncertain, Uncertain => true
  | _, _ => false
  end.

Definition matches_of (c : category) (business_name doctor_name : string)
  (results : list result) : list result :=
  List.filter (fun r => category_eqb (classify business_name doctor_name r) c)
              results.

(** What [validate_and_extract_profile] returns. *)
Record validation : Type := mkValidation {
  valid : bool;
  profile_url : option string
}.

Definition found (url title reason : string) (extra : dict) : dict :=
  ([("status", VStr "found"); ("url", VStr url); ("title", VStr title);
    ("match_reason", VStr reason)] ++ extra)%list.

Definition not_found (reason : string) (extra : dict) : dict :=
  ([("status", VStr "not_found"); ("url", VStr ""); ("title", VStr "");
    ("match_reason", VStr reason)] ++ extra)%list.

Section ProfileResolver.

(** [search_serper(query, gl)]: it catches every exception and
    returns a list, empty on failure. *)
Variable search_serper_results : string -> string -> list result.

(** [validate_and_extract_profile(url, business_name, directory_domain)]
    and [search_directory_directly(domain, business_name, city,
    country)]: both fetch a page and never raise. *)
Variable validate_page : string -> string -> string -> validation.
Variable direct_search : string -> string -> string -> string
                         -> option (string * string).

Definition search_serper (query gl : string) : stmt dict (list result) :=
  emit (EvSerper query gl) ;; ret (search_serper_results query gl).

Definition validate_and_extract_profile (url business_name domain : string)
  : stmt dict validation :=
  emit (EvValidate url) ;; ret (validate_page url business_name domain).

Definition search_directory_directly
  (domain business_name city country : string)
  : stmt dict (option (string * string)) :=
  emit (EvDirectSearch domain) ;;
  ret (direct_search domain business_name city country).

(** The loop over the top three uncertain results. *)
Fixpoint validate_top (business_name directory_domain : string)
  (results : list result) : stmt dict unit :=
  match results with
  | [] => ret tt
  | r :: rest =>
      validation <-
        validate_and_extract_profile (r_url r) business_name directory_domain ;;
      when (valid validation)
        (let profile_url :=
           match profile_url validation with
           | Some u => u
           | None => r_url r
           end in
         return_ (found profile_url (r_title r) "validated" [])) ;;
      validate_top business_name directory_domain rest
  end.

(** The statements of [discover_profile_url] that follow the search:
    the results are categorised and the best one is returned. *)
Definition prioritize
  (directory_domain business_name doctor_name city country : string)
  (results : list result) : stmt dict unit :=
  when (match results with [] => true | _ => false end)
    (return_ (not_found "no_results" [])) ;;
  let profile_matches := matches_of Profile business_name doctor_name results in
  let doctor_matches := matches_of Doctor business_name doctor_name results in
  let list_matches := matches_of ListPage business_name doctor_name results in
  let all_candidates :=
    (profile_matches ++ doctor_matches ++ list_matches)%list in
  match profile_matches with
  | best :: _ =>
      return_ (found (r_url best) (r_title best) "profile_match"
                     [("candidates", results_value all_candidates)])
  | [] => ret tt
  end ;;
  match doctor_matches with
  | best :: _ =>
      return_ (found (r_url best) (r_title best) "doctor_match"
                     [("candidates", results_value all_candidates)])
  | [] => ret tt
  end ;;
  match list_matches with
  | best :: _ =>
      return_ (found (r_url best) (r_title best) "list_match"
                     [("candidates", results_value all_candidates)])
  | [] => ret tt
  end ;;
  (* uncertain results: the raw results go back as candidates *)
  (return_ (not_found "uncertain_results"
                      [("candidates", results_value results)])
   : stmt dict unit) ;;
  (* the statements below follow the return above in the source *)
  match results with
  | [] => ret tt
  | _ => validate_top business_name directory_domain (firstn 3 results)
  end ;;
  direct_result <-
    search_directory_directly directory_domain business_name city country ;;
  match direct_result with
  | Some (url, title) => return_ (found url title "direct_search" [])
  | None => ret tt
  end ;;
  return_ (not_found "no_validated_results" []).

Definition discover_profile_url_body
  (directory_name directory_domain business_name doctor_name
     city state country : string) : stmt dict unit :=
  when (mem directory_domain skip_domains)
    (return_ [("status", VStr "not_searchable"); ("url", VStr "");
              ("title", VStr "");
              ("match_reason", VStr "gbp_not_searchable")]) ;;
  let query :=
    query directory_name directory_domain business_name doctor_name
          city state country in
  let directory_domain := corrected_domain directory_name directory_domain in
  let search_name := search_name business_name doctor_name in
  let location_term := location_term city state country in
  let gl_param := gl_of_country country in
  results <- search_serper query gl_param ;;
  results <-
    (match results with
     | [] =>
         if negb (String.eqb location_term "") then
           search_serper (fallback_query directory_domain search_name) gl_param
         else ret results
     | _ => ret results
     end) ;;
  prioritize directory_domain business_name doctor_name city country results.

Definition discover_profile_url
  (directory_name directory_domain business_name doctor_name
     city state country : string) : outcome dict * trace :=
  call [] (discover_profile_url_body directory_name directory_domain
             business_name doctor_name city state country).

End ProfileResolver.

(* ================================================================== *)
(** * DirectoryDiscoverer and DirectoryValidator:
      [citation_audit_discovery.py] *)
(* ================================================================== *)

Definition drop_last (n : nat) (s : string) : string :=
  Py.rev (Py.drop n (Py.rev s)).

Definition GENERIC_TLDS : list string :=
  [".com"; ".org"; ".net"; ".edu"; ".gov"; ".io"; ".co"; ".us"; ".uk"].

(** The loop that strips one TLD: the first suffix of the list that
    the domain ends with is removed, and the loop stops. *)
Fixpoint strip_tld (tlds : list string) (target_domain : string) : string :=
  match tlds with
  | [] => target_domain
  | tld :: rest =>
      if Py.endswith tld target_domain
      then drop_last (String.length tld) target_domain
      else strip_tld rest target_domain
  end.

Definition stop_words : list string :=
  ["the"; "and"; "or"; "of"; "for"; "in"; "a"; "an"; "at"; "to"; "by";
   "inc"; "llc"; "ltd"; "com"; "org"; "net"].

(** [w[0]] of a word, as text. *)
Definition first_char (w : string) : string :=
  match w with
  | String c _ => String c ""
  | EmptyString => ""
  end.

(** The locals of [domain_matches_name]. *)
Definition target_domain (domain : string) : string :=
  strip_tld GENERIC_TLDS (Py.lower domain).

Definition significant_words (name : string) : list string :=
  let clean_name :=
    Py.filter (fun c => Py.isword c || Py.isspace c) (Py.lower name) in
  let words := Py.split clean_name in
  List.filter (fun w => negb (mem w stop_words)) words.

Definition acronym (significant_words : list string) : string :=
  String.concat "" (List.map first_char significant_words).

(** [re.split(r'[.-]', target_domain)] *)
Definition tokens (target_domain : string) : list string :=
  Py.split_char (fun c => Ascii.eqb c "." || Ascii.eqb c "-") "" target_domain.

Definition matches (significant_words : list string) (target_domain : string)
  : nat :=
  List.length
    (List.filter
       (fun word => Nat.ltb 2 (String.length word)
                    && Py.contains word target_domain)
       significant_words).

Definition domain_matches_name (domain name : string) : bool :=
  if String.eqb domain "" || String.eqb name "" then false
  else
    let target_domain := target_domain domain in
    let significant_words := significant_words name in
    (* 1. acronym match *)
    if Nat.ltb 1 (List.length significant_words)
       && Nat.leb 2 (String.length (acronym significant_words))
       && (mem (acronym significant_words) (tokens target_domain)
           || Py.startswith (acronym significant_words) target_domain)
    then true
    else
      (* 2. significant keyword match *)
      let matches := matches significant_words target_domain in
      if Nat.leb (List.length significant_words) 2
      then Nat.leb 1 matches
      else Nat.leb 2 matches.

Definition EXCLUDED_DIRECTORIES : list string :=
  ["facebook"; "facebook business"; "facebook business pages";
   "google business profile"; "google business"; "google my business"; "gbp";
   "caredash"; "care dash"].

Definition BAD_DOMAINS : list string :=
  ["clutch.co"; "clutchco.com.au"; "sortlist.com"; "goodfirms.co";
   "upcity.com"; "yext.com"; "brightlocal.com"; "moz.com"; "semrush.com";
   "ahrefs.com"; "whitespark.ca"; "localviking.com"; "reddit.com";
   "quora.com"; "localstack.cloud"; "mojo.vision"; "provenexpert.com";
   "trustpilot.com"; "trustindex.io"].

Definition KNOWN_DIRECTORIES : list string :=
  ["healthgrades.com"; "zocdoc.com"; "vitals.com"; "ratemds.com"; "webmd.com";
   "yelp.com"; "yellowpages.com"; "bbb.org"; "manta.com"; "superpages.com";
   "findatopdoc.com"; "castleconnolly.com"; "sharecare.com"; "wellness.com";
   "usnews.com"; "superdoctors.com"; "hotfrog.com"; "brownbook.net";
   "cylex.us.com"; "foursquare.com"; "mapquest.com"; "nextdoor.com";
   "angi.com"; "thumbtack.com"; "chamberofcommerce.com"; "medifind.com";
   "dexknows.com"; "n49.com"; "threebestrated.com"; "opencare.com";
   "topratedlocal.com"].

Definition US_ONLY_DIRECTORIES : list string :=
  ["mapquest.com"; "angi.com"; "thumbtack.com"; "nextdoor.com";
   "homeadvisor.com"; "angieslist.com"; "superpages.com"; "dexknows.com";
   "manta.com"; "yellowpages.com"; "whitepages.com"; "citysearch.com";
   "local.com"; "insiderpages.com"; "kudzu.com"; "merchantcircle.com"].

Definition COMPETITOR_PATTERNS : list string := [].

(** [if key not in c_lower: BAD.extend(items)] *)
Definition unless_in (key c_lower : string) (items : list string)
  : list string :=
  if negb (Py.contains key c_lower) then items else [].

Definition unless_in2 (key1 key2 c_lower : string) (items : list string)
  : list string :=
  if negb (Py.contains key1 c_lower) && negb (Py.contains key2 c_lower)
  then items else [].

(** The exclusion list of top-level domains, built from the country. *)
Definition BAD_TLDS (c_lower : string) : list string :=
  (unless_in "australia" c_lower [".au"; ".com.au"]
   ++ unless_in2 "united kingdom" "uk" c_lower [".uk"; ".co.uk"]
   ++ unless_in "canada" c_lower [".ca"]
   ++ unless_in "germany" c_lower [".de"]
   ++ unless_in "france" c_lower [".fr"]
   ++ unless_in "india" c_lower [".in"; ".co.in"])%list.

Definition BAD_COUNTRY_TERMS (c_lower : string) : list string :=
  (unless_in2 "united states" "usa" c_lower
     ["usa"; "united states"; "america"; "american"; "us"]
   ++ unless_in2 "united kingdom" "uk" c_lower
        ["uk"; "united kingdom"; "britain"; "british"]
   ++ unless_in "australia" c_lower
        ["australia"; "australian"; "sydney"; "melbourne"]
   ++ unless_in "canada" c_lower ["canada"; "canadian"])%list.

(** The test of the step "Skip international TLDs". *)
Definition foreign_tld (country url : string) : bool :=
  let c_lower := Py.lower country in
  existsb
    (fun tld => Py.endswith tld (Py.lower url)
                || Py.contains (tld ++ "/") (Py.lower url))
    (BAD_TLDS c_lower).

(** [d[key] = v] on a dictionary. *)
Fixpoint dict_set (k : string) (v : value) (d : dict) : dict :=
  match d with
  | [] => [(k, v)]
  | (k', v') :: d' =>
      if String.eqb k k' then (k, v) :: d' else (k', v') :: dict_set k v d'
  end.

(** [d.get(key, '').strip()]: [d] must be a dictionary and the value a
    string, otherwise the attribute lookup raises. *)
Definition get_stripped {R} (d : value) (key : string) : stmt R string :=
  match d with
  | VDict kv =>
      match dict_get key kv with
      | None => ret ""
      | Some (VStr s) => ret (Py.strip s)
      | Some _ => raise "AttributeError: object has no attribute 'strip'"
      end
  | _ => raise "AttributeError: object has no attribute 'get'"
  end.

(** The values a [for] loop over [v] visits. *)
Definition iterate {R} (v : value) : stmt R (list value) :=
  match v with
  | VList l => ret l
  | VDict kv => ret (List.map (fun p => VStr (fst p)) kv)
  | VStr s =>
      ret (List.map (fun c => VStr (String c "")) (list_ascii_of_string s))
  | _ => raise "TypeError: object is not iterable"
  end.

(** [len(v)] *)
Definition len {R} (v : value) : stmt R nat :=
  match v with
  | VList l => ret (List.length l)
  | VDict kv => ret (List.length kv)
  | VStr s => ret (String.length s)
  | _ => raise "TypeError: object has no len()"
  end.

(** A function call inside a body: the callee runs on the caller's
    trace, its [return] gives the value of the call and its exception
    propagates. *)
Definition invoke {R R'} (dflt : R') (body : stmt R' unit) : stmt R R' :=
  fun t =>
    match body t with
    | (Next _, t') => (Next dflt, t')
    | (Return r, t') => (Next r, t')
    | (Raise e, t') => (Raise e, t')
    end.

(** The values that fill the prompt sent to the research service. *)
Record research_request : Type := mkRequest {
  rq_business_name : string;
  rq_city : string;
  rq_state : string;
  rq_country : string;
  rq_service_type : string;
  rq_localized_service : string
}.

Definition SERVICE_LOCALIZATION : list (string * string * string) :=
  [("mover", "australia", "Removalist");
   ("moving", "australia", "Removalists");
   ("mover", "united kingdom", "Removals");
   ("moving", "united kingdom", "Removals");
   ("mover", "uk", "Removals");
   ("moving", "uk", "Removals");
   ("mover", "new zealand", "Removalist");
   ("moving", "new zealand", "Removalists");
   ("mover", "ireland", "Removals");
   ("moving", "ireland", "Removals");
   ("mover", "india", "Packers and Movers");
   ("moving", "india", "Packers and Movers");
   ("lawyer", "australia", "Solicitor");
   ("attorney", "australia", "Solicitor");
   ("law firm", "australia", "Solicitors");
   ("lawyer", "uk", "Solicitor");
   ("attorney", "uk", "Solicitor");
   ("law firm", "uk", "Solicitors");
   ("lawyer", "new zealand", "Barrister and Solicitor");
   ("attorney", "new zealand", "Barrister and Solicitor");
   ("lawyer", "ireland", "Solicitor");
   ("attorney", "ireland", "Solicitor");
   ("lawyer", "india", "Advocate");
   ("attorney", "india", "Advocate");
   ("real estate", "uk", "Estate Agents");
   ("realtor", "uk", "Estate Agents");
   ("real estate", "ireland", "Estate Agents");
   ("realtor", "ireland", "Auctioneers");
   ("real estate", "australia", "Real Estate Agents");
   ("realtor", "australia", "Real Estate Agents");
   ("real estate", "india", "Property Dealers");
   ("hvac", "australia", "Air Conditioning");
   ("hvac", "uk", "Air Conditioning");
   ("hvac", "united kingdom", "Air Conditioning");
   ("hvac", "new zealand", "Heat Pumps");
   ("auto repair", "australia", "Mechanic");
   ("auto repair", "uk", "Garage");
   ("mechanic", "uk", "Garage");
   ("drug store", "australia", "Chemist");
   ("drug store", "uk", "Chemist");
   ("pharmacy", "australia", "Chemist");
   ("pharmacy", "uk", "Chemist");
   ("drug store", "new zealand", "Chemist");
   ("pharmacy", "new zealand", "Pharmacy");
   ("gym", "uk", "Fitness Centre");
   ("gym", "australia", "Fitness Centre");
   ("bar", "uk", "Pub");
   ("bar", "australia", "Pub");
   ("bar", "ireland", "Pub");
   ("liquor store", "australia", "Bottle Shop");
   ("liquor store", "uk", "Off Licence");
   ("liquor store", "ireland", "Off Licence");
   ("liquor store", "new zealand", "Bottle Store")].

Fixpoint localize (table : list (string * string * string))
  (service_type s_lower c_lower : string) : string :=
  match table with
  | [] => service_type
  | (svc_key, country_key, local_term) :: rest =>
      if Py.contains svc_key s_lower && Py.contains country_key c_lower
      then local_term
      else localize rest service_type s_lower c_lower
  end.

(** The request that [discover_directories] sends: the service type is
    replaced by the first local term of the table whose keys occur in
    the service type and in the country. *)
Definition request_of (business_name city state : string)
  (service_type country : option string) : research_request :=
  let s_lower := Py.lower (Py.str service_type) in
  let c_lower := Py.lower (Py.str country) in
  let localized_service :=
    localize SERVICE_LOCALIZATION (Py.str service_type) s_lower c_lower in
  mkRequest business_name city state (Py.str country)
            (Py.str service_type) localized_service.

(** [content.replace("```json", "").replace("```", "").strip()] *)
Definition strip_fences (content : string) : string :=
  Py.strip (Py.replace "```" "" (Py.replace "```json" "" content)).

(** The list under the wrapper object, or the value itself. *)
Definition directories_of (directories_data : value) : value :=
  match directories_data with
  | VDict kv =>
      match dict_get "directories" kv with
      | Some v => v
      | None => VList []
      end
  | other => other
  end.

(** [v[key]] and [v[0]] *)
Definition subscript {R} (v : value) (key : string) : stmt R value :=
  match v with
  | VDict kv =>
      match dict_get key kv with
      | Some x => ret x
      | None => raise ("KeyError: " ++ key)
      end
  | _ => raise "TypeError: indices must be integers"
  end.

Definition first_item {R} (v : value) : stmt R value :=
  match v with
  | VList (x :: _) => ret x
  | VList [] => raise "IndexError: list index out of range"
  | VStr (String c _) => ret (VStr (String c ""))
  | VStr EmptyString => raise "IndexError: string index out of range"
  | VDict _ => raise "KeyError: 0"
  | _ => raise "TypeError: object is not subscriptable"
  end.

(** [o.lower()] on a value that may be [None]. *)
Definition lower_of {R} (o : option string) : stmt R string :=
  match o with
  | Some s => ret (Py.lower s)
  | None => raise "AttributeError: 'NoneType' object has no attribute 'lower'"
  end.

Section DirectoryDiscoverer.

(** [urlparse(url).netloc], which may raise. *)
Variable urlparse_netloc : string -> outcome string.

(** [verify_url_exists(url)]: it catches every exception. *)
Variable url_reachable : string -> bool.

(** The search of [search_correct_domain]: whether both API keys are
    configured, and for a directory name the links of the result
    items, up to the first item that has none; [Returned None] when
    the answer has no items, [Raised] when the request or its decoding
    fails. *)
Variable cse_keys : bool.
Variable google_cse : string -> outcome (option (list string)).

(** The research service: the answer to the request. *)
Variable research_post : research_request -> http_result.

(** [json.loads] *)
Variable json_loads : string -> outcome value.

Definition get_domain (url : string) : string :=
  match urlparse_netloc url with
  | Returned domain =>
      Py.lower (if Py.startswith "www." domain then Py.drop 4 domain
                else domain)
  | Raised _ => ""
  end.

Definition verify_url_exists {R} (url : string) : stmt R bool :=
  emit (EvReachable url) ;; ret (url_reachable url).

(** The loop over the result items of [search_correct_domain]. *)
Fixpoint first_matching_domain (directory_name : string)
  (links : list string) : option string :=
  match links with
  | [] => None
  | link :: rest =>
      let domain_str := get_domain link in
      if domain_matches_name domain_str directory_name
      then Some ("https://" ++ domain_str)
      else first_matching_domain directory_name rest
  end.

Definition search_correct_domain {R} (directory_name : string)
  : stmt R (option string) :=
  if negb cse_keys then ret None
  else
    emit (EvCorrection directory_name) ;;
    match google_cse directory_name with
    | Returned (Some links) => ret (first_matching_domain directory_name links)
    | Returned None => ret None
    | Raised _ => ret None
    end.

(** One iteration of the loop of [clean_and_validate_directories] on
    the lists [cleaned] and [seen]; [return_] stands for [continue]
    and for reaching the end of the loop body. *)
Definition validate_candidate (country c_lower : string) (d : value)
  (cleaned : list value) (seen : list string)
  : stmt (list value * list string) unit :=
  name <- get_stripped d "name" ;;
  url <- get_stripped d "url" ;;
  when (String.eqb name "" || String.eqb url "")
    (return_ (cleaned, seen)) ;;
  let name_lower := Py.lower name in
  let tokens :=
    Py.split_char (fun c => negb (Py.islower c || Py.isdigit c)) ""
                  name_lower in
  when (existsb (fun term => mem term tokens) (BAD_COUNTRY_TERMS c_lower))
    (return_ (cleaned, seen)) ;;
  when (existsb (fun excl => Py.contains excl name_lower)
                EXCLUDED_DIRECTORIES)
    (return_ (cleaned, seen)) ;;
  let domain := Py.lower (get_domain url) in
  let is_whitelisted :=
    existsb (fun wd => Py.contains wd domain) KNOWN_DIRECTORIES in
  let is_competitor :=
    existsb (fun cp => Py.contains cp domain) COMPETITOR_PATTERNS in
  when (is_competitor && negb is_whitelisted)
    (return_ (cleaned, seen)) ;;
  when (existsb (fun bad => Py.contains bad domain) BAD_DOMAINS)
    (return_ (cleaned, seen)) ;;
  when (negb (Py.contains "united states" c_lower)
        && negb (Py.contains "usa" c_lower)
        && mem domain US_ONLY_DIRECTORIES)
    (return_ (cleaned, seen)) ;;
  (* skip international TLDs *)
  when (foreign_tld country url)
    (return_ (cleaned, seen)) ;;
  (* dedupe within the batch, by name and by domain *)
  let domain_for_dedup := get_domain url in
  when (mem name_lower seen || mem domain_for_dedup seen)
    (return_ (cleaned, seen)) ;;
  let seen := (seen ++ [name_lower; domain_for_dedup])%list in
  let domain := get_domain url in
  is_reachable <- verify_url_exists url ;;
  let is_semantic_match := domain_matches_name domain name in
  let kv := match d with VDict kv => kv | _ => [] end in
  if is_reachable && is_semantic_match then
    let final_url :=
      if negb (Py.startswith "http" url) then "https://" ++ url else url in
    return_ ((cleaned ++ [VDict (dict_set "url" (VStr final_url) kv)])%list,
             seen)
  else
    corrected_url <- search_correct_domain name ;;
    match corrected_url with
    | Some corrected =>
        if negb (String.eqb corrected "") then
          return_
            ((cleaned ++ [VDict (dict_set "url" (VStr corrected) kv)])%list,
             seen)
        else return_ (cleaned, seen)
    | None => return_ (cleaned, seen)
    end.

Fixpoint validate_all (country c_lower : string) (items : list value)
  (cleaned : list value) (seen : list string) : stmt (list value) unit :=
  match items with
  | [] => return_ cleaned
  | d :: rest =>
      acc <- invoke (cleaned, seen)
               (validate_candidate country c_lower d cleaned seen) ;;
      validate_all country c_lower rest (fst acc) (snd acc)
  end.

Definition clean_and_validate_directories (directories : value)
  (country : option string) : stmt (list value) unit :=
  c_lower <- lower_of country ;;
  items <- iterate directories ;;
  validate_all (Py.str country) c_lower items [] [].

Definition post {R} (url : string) (rq : research_request)
  : stmt R (Z * string) :=
  fun t =>
    let r := research_post rq in
    let t' := (t ++ [EvPost url r])%list in
    match r with
    | HttpError msg => (Raise msg, t')
    | HttpResponse status text => (Next (status, text), t')
    end.

(** The statements of the [try:] block that follow the request: the
    answer is decoded and the decoded list validated. *)
Definition read_response (country : option string) (response : Z * string)
  : stmt (list value) unit :=
  when (negb (fst response =? 200)) (return_ []) ;;
  data <- try_ (lift (json_loads (snd response))) (fun e => raise e) ;;
  choices <- subscript data "choices" ;;
  choice <- first_item choices ;;
  message <- subscript choice "message" ;;
  content <- subscript message "content" ;;
  content <-
    match content with
    | VStr s => ret (strip_fences s)
    | _ => raise "AttributeError: object has no attribute 'replace'"
    end ;;
  directories_data <- lift (json_loads content) ;;
  let directories := directories_of directories_data in
  _ <- len directories ;;
  verified_directories <-
    invoke [] (clean_and_validate_directories directories country) ;;
  return_ verified_directories.

(** The block under [try:] in [discover_directories]. *)
Definition discover_directories_try
  (business_name city state : string) (service_type country : option string)
  : stmt (list value) unit :=
  let url := "https://api.perplexity.ai/chat/completions" in
  country_lower <- lower_of country ;;
  s_lower <- lower_of service_type ;;
  c_lower <- lower_of country ;;
  response <-
    post url (request_of business_name city state service_type country) ;;
  read_response country response.

Definition discover_directories_body
  (business_name city state : string) (service_type country : option string)
  : stmt (list value) unit :=
  try_
    (discover_directories_try business_name city state service_type country)
    (fun e => return_ []).

Definition discover_directories
  (business_name city state : string) (service_type country : option string)
  : outcome (list value) * trace :=
  call [] (discover_directories_body business_name city state
             service_type country).

End DirectoryDiscoverer.

(* ================================================================== *)
(** * A reference model of [urlparse(url).netloc] *)
(* ================================================================== *)

(** The parameters of the sections above range over every behaviour of
    the library and of the network.  The concrete instances below are
    used to run the embedding on examples.  [netloc] follows
    [urllib.parse.urlsplit]: an optional scheme up to the first colon,
    then, after [//], the text up to the first of [/], [?] and [#];
    unbalanced square brackets raise [ValueError]. *)
Module UrlLib.

Definition scheme_char (c : ascii) : bool :=
  Py.isalpha c || Py.isdigit c
  || Ascii.eqb c "+" || Ascii.eqb c "-" || Ascii.eqb c ".".

(** The text after the scheme and its colon, when [url] starts with a
    scheme; [seen] counts the scheme characters read so far. *)
Fixpoint after_scheme (seen : nat) (url : string) : option string :=
  match url with
  | EmptyString => None
  | String c rest =>
      if Ascii.eqb c ":" then (if Nat.ltb 0 seen then Some rest else None)
      else if scheme_char c then after_scheme (S seen) rest
      else None
  end.

Definition without_scheme (url : string) : string :=
  match url with
  | String c _ =>
      if Py.isalpha c then
        match after_scheme 0 url with
        | Some rest => rest
        | None => url
        end
      else url
  | EmptyString => url
  end.

Fixpoint until_delimiter (s : string) : string :=
  match s with
  | EmptyString => EmptyString
  | String c rest =>
      if Ascii.eqb c "/" || Ascii.eqb c "?" || Ascii.eqb c "#"
      then EmptyString
      else String c (until_delimiter rest)
  end.

Definition netloc (url : string) : outcome string :=
  let rest := without_scheme url in
  if Py.startswith "//" rest then
    let n := until_delimiter (Py.drop 2 rest) in
    if xorb (Py.contains "[" n) (Py.contains "]" n)
    then Raised "ValueError: Invalid IPv6 URL"
    else Returned n
  else Returned "".

End UrlLib.

(** The fallback [fuzz] class of the module, used when neither fuzzy
    matching library is installed. *)
Definition fallback_partial_ratio (s1 s2 : string) : Q :=
  if String.eqb s1 "" || String.eqb s2 "" then 0%Q
  else
    let s1 := Py.lower s1 in
    let s2 := Py.lower s2 in
    if Py.contains s1 s2 || Py.contains s2 s1 then 85%Q else 0%Q.

(* ================================================================== *)
(** * Vocabulary of the statements, and the collaborators of the examples *)
(* ================================================================== *)

(** The value of the website flag, read off the three outcomes of the
    website block of [verify_nap]. *)
Definition website_flag (urlparse_netloc : string -> outcome string)
  (website_url : option string) (content_norm : string) : option bool :=
  if Py.truthy website_url then
    match urlparse_netloc (Py.str website_url) with
    | Returned netloc =>
        let website_domain := Py.replace "www." "" (Py.lower netloc) in
        Some (negb (String.eqb website_domain "")
              && Py.contains website_domain content_norm)
    | Raised _ => None
    end
  else None.

(** A call of [verify_nap] gets as far as scoring the page: the URL is
    accepted, the fetch gave content, and the content is not a block
    page. *)
Definition scored (scrape_content : string -> string) (url : option string)
  : bool :=
  negb (invalid_url url)
  && negb (String.eqb (scrape_content (Py.str url)) "")
  && negb (is_blocked (normalize_text (Some (scrape_content (Py.str url))))).

(** The text at [data['choices'][0]['message']['content']], when the
    answer of the research service has that shape. *)
Definition content_of (data : value) : option string :=
  match data with
  | VDict kv =>
      match dict_get "choices" kv with
      | Some (VList (VDict ckv :: _)) =>
          match dict_get "message" ckv with
          | Some (VDict mkv) =>
              match dict_get "content" mkv with
              | Some (VStr s) => Some s
              | _ => None
              end
          | _ => None
          end
      | _ => None
      end
  | _ => None
  end.

(** The value handed to the validation, when the answer decodes: the
    body is JSON of the expected shape and its text is JSON. *)
Definition decoded_directories (json_loads : string -> outcome value)
  (text : string) : option value :=
  match json_loads text with
  | Returned data =>
      match content_of data with
      | Some content =>
          match json_loads (strip_fences content) with
          | Returned decoded => Some (directories_of decoded)
          | Raised _ => None
          end
      | None => None
      end
  | Raised _ => None
  end.

(** An entry that the validation loop can read: an object whose [name]
    and [url], when present, are strings. *)
Definition text_or_absent (key : string) (kv : dict) : bool :=
  match dict_get key kv with
  | None | Some (VStr _) => true
  | Some _ => false
  end.

Definition is_candidate (d : value) : bool :=
  match d with
  | VDict kv => text_or_absent "name" kv && text_or_absent "url" kv
  | _ => false
  end.

(** The decoded list has the expected shape: a list of entries, or
    something that has a length and no element. *)
Definition candidate_list (directories : value) : bool :=
  match directories with
  | VList l => forallb is_candidate l
  | VDict kv => match kv with [] => true | _ => false end
  | VStr s => String.eqb s ""
  | _ => false
  end.

(** The fetchers of the examples: no browser and no evasive client
    are installed, and the reader service answers every request with
    one page. *)
Definition no_browser : string -> outcome string :=
  fun _ => Raised "ModuleNotFoundError: No module named 'camoufox'".

Definition no_cloudscraper : string -> http_result :=
  fun _ => HttpError "ModuleNotFoundError: No module named 'cloudscraper'".

Definition reader_serves (page : string) : nat -> string -> http_result :=
  fun _ _ => HttpResponse 200 page.

Definition served (page : string) : string -> string :=
  scrape_content no_browser no_cloudscraper (reader_serves page).

Definition acme_url : option string :=
  Some "https://www.yelp.com/biz/acme-dental-austin".

Definition acme_page : string :=
  "Acme Dental - Dentists - 100 Congress Ave, Austin, TX 78701 - Phone (512) 555-0100 - Reviews and opening hours of Acme Dental in downtown Austin.".

Definition phrase_page : string :=
  "Acme Dental - Dentists in Austin, TX. Visit our website for opening hours, services, insurance plans accepted and directions to the practice.".

Definition short_phone_page : string :=
  "Acme Dental - Dentists in Austin, TX. Call 555-0100 today to book an appointment, or walk in during opening hours on any weekday.".

Definition block_page : string :=
  "Access Denied. You do not have permission to access this page on this server. Reference 18.2d3e1702.1700000000.abcdef. Please contact the site owner.".

(** A network on which every request is answered 404. *)
Definition always_404 : nat -> string -> http_result :=
  fun _ _ => HttpResponse 404 "Not Found".

(** A network on which the first two requests time out and the third is
    answered [last]. *)
Definition third_answer (last : http_result) : nat -> string -> http_result :=
  fun n _ =>
    match n with
    | 0%nat | 1%nat => HttpError "timeout"
    | _ => last
    end.

Definition dead_profile : option string :=
  Some "https://www.healthgrades.com/dentist/acme-dental".

(** A search that finds one page of another business, a page check that
    would accept any page, and a directory search that finds nothing. *)
Definition other_place : result :=
  mkResult "https://www.yelp.com/biz/other-place-austin"
           "Other Place - Austin, TX" "Reviews of Other Place".

Definition one_uncertain : string -> string -> list result :=
  fun _ _ => [other_place].

Definition accept_page : string -> string -> string -> validation :=
  fun _ _ _ => mkValidation true None.

Definition no_direct : string -> string -> string -> string
                       -> option (string * string) :=
  fun _ _ _ _ => None.

(** A network on which every directory is reachable, a search for
    corrections that is not configured, and the candidate of the
    jurisdiction example. *)
Definition all_reachable : string -> bool := fun _ => true.

Definition no_cse : string -> outcome (option (list string)) :=
  fun _ => Returned None.

Definition best_removalists : value :=
  VDict [("name", VStr "Best Removalists");
         ("url", VStr "https://bestremovalists.com.au");
         ("category", VStr "specialty")].

(** A research service that answers with text that is not JSON, and a
    decoder that knows no text. *)
Definition garbled : research_request -> http_result :=
  fun _ => HttpResponse 200 "<html>Bad Gateway</html>".

Definition no_json : string -> outcome value :=
  fun _ => Raised "JSONDecodeError".

(** A research service that answers with a chat completion whose text
    is [listing], and a decoder that knows the answer and two listings:
    one with the candidate of the jurisdiction example, one in which an
    entry has no textual name. *)
Definition answer_with (listing : string) : research_request -> http_result :=
  fun _ => HttpResponse 200 ("completion:" ++ listing).

Definition completion (listing : string) : value :=
  VDict [("choices",
          VList [VDict [("message", VDict [("role", VStr "assistant");
                                           ("content", VStr listing)])]])].

Definition sample_json (text : string) : outcome value :=
  if String.eqb text "completion:good" then Returned (completion "good")
  else if String.eqb text "completion:bad" then Returned (completion "bad")
  else if String.eqb text "good" then
    Returned (VDict [("directories", VList [best_removalists])])
  else if String.eqb text "bad" then
    Returned (VList [best_removalists;
                     VDict [("name", VNone); ("url", VStr "https://x.com.au")]])
  else Raised "JSONDecodeError".

(* ================================================================== *)
(** * The entry point of the NapMatcher, the search, and the URL finder *)
(* ================================================================== *)

(** A row of the audit table or of the project: a field holds a text
    or [None]. *)
Definition row := list (string * option string).

(** [row.get(key)] *)
Fixpoint row_get (key : string) (r : row) : option string :=
  match r with
  | [] => None
  | (k, v) :: r' => if String.eqb key k then v else row_get key r'
  end.

(** [a or b] on optional texts. *)
Definition or_else (a b : option string) : option string :=
  if Py.truthy a then a else b.

Section NapEntryPoint.

Variable camoufox : string -> outcome string.
Variable cloudscraper_get : string -> http_result.
Variable reader_get : nat -> string -> http_result.
Variable partial_ratio : string -> string -> Q.
Variable urlparse_netloc : string -> outcome string.

(** [perform_nap_verification(audit_row, project_data)]: the wrapper
    called from the API; it passes no website URL. *)
Definition perform_nap_verification (audit_row project_data : row)
  : outcome dict * trace :=
  let url :=
    or_else (row_get "directory_profile_url" audit_row)
            (row_get "directory_website" audit_row) in
  let nap_name := row_get "business_name" project_data in
  let nap_phone := row_get "phone" project_data in
  let nap_address_parts :=
    [row_get "street_address" project_data;
     row_get "city" project_data;
     row_get "zip_code" project_data] in
  verify_nap camoufox cloudscraper_get reader_get partial_ratio
             urlparse_netloc url nap_name nap_phone nap_address_parts None.

End NapEntryPoint.

(** The truth value of a Python value. *)
Definition truth (v : value) : bool :=
  match v with
  | VNone => false
  | VBool b => b
  | VInt n => negb (n =? 0)
  | VFloat q => negb (Qeq_bool q 0)
  | VStr s => negb (String.eqb s "")
  | VList l => match l with [] => false | _ => true end
  | VDict d => match d with [] => false | _ => true end
  end.

(** [d.get(key, dflt)] *)
Definition get_or (d : dict) (key : string) (dflt : value) : value :=
  match dict_get key d with
  | Some v => v
  | None => dflt
  end.

(** ** [search_serper] of [discover_profile_url.py] *)
Module Serper.

Definition HOMEPAGE_PATHS : list string :=
  [""; "/"; "/index.html"; "/index.php"; "/home"].

Definition bad_patterns : list string := ["/webhp"; "/home/"; "/index"].

Definition ENDPOINT : string := "https://google.serper.dev/search".

Section Serper.

(** Whether [SERPER_API_KEY] is set, the answer of the search service
    to a query, [response.json()], and [urlparse(url).path]. *)
Variable api_key : bool.
Variable serper_post : string -> string -> http_result.
Variable json_loads : string -> outcome value.
Variable urlparse_path : string -> outcome string.

Definition post (query gl : string) : stmt (list value) (Z * string) :=
  fun t =>
    let r := serper_post query gl in
    let t' := (t ++ [EvPost ENDPOINT r])%list in
    match r with
    | HttpError msg => (Raise msg, t')
    | HttpResponse status text => (Next (status, text), t')
    end.

(** One iteration of the loop over the organic results; [return_]
    stands for [continue] and for the end of the loop body.  A link
    that is not a text makes [urlparse] or [lower] raise. *)
Definition keep_result (item : value) (results : list value)
  : stmt (list value) unit :=
  match item with
  | VDict kv =>
      match get_or kv "link" (VStr "") with
      | VStr result_url =>
          path <- lift (urlparse_path result_url) ;;
          when (mem path HOMEPAGE_PATHS) (return_ results) ;;
          when (Py.any_in bad_patterns (Py.lower result_url))
            (return_ results) ;;
          return_
            (results
             ++ [VDict [("url", VStr result_url);
                        ("title", get_or kv "title" (VStr ""));
                        ("snippet", get_or kv "snippet" (VStr ""))]])%list
      | _ => raise "AttributeError: object has no attribute 'lower'"
      end
  | _ => raise "AttributeError: object has no attribute 'get'"
  end.

Fixpoint keep_all (items : list value) (results : list value)
  : stmt (list value) unit :=
  match items with
  | [] => return_ results
  | item :: rest =>
      results <- invoke results (keep_result item results) ;;
      keep_all rest results
  end.

Definition search_serper_body (query gl : string) : stmt (list value) unit :=
  when (negb api_key) (return_ []) ;;
  try_
    (response <- post query gl ;;
     when (negb (fst response =? 200)) (return_ []) ;;
     data <- lift (json_loads (snd response)) ;;
     organic <-
       match data with
       | VDict kv => ret (get_or kv "organic" (VList []))
       | _ => raise "AttributeError: object has no attribute 'get'"
       end ;;
     when (negb (truth organic)) (return_ []) ;;
     items <- iterate organic ;;
     keep_all items [])
    (fun e => return_ []).

Definition search_serper (query gl : string)
  : outcome (list value) * trace :=
  call [] (search_serper_body query gl).

End Serper.

End Serper.

(** ** [find_urls] of [find_urls.py], the caller of [verify_url] *)
Module Finder.

Definition ENDPOINT : string := "https://api.perplexity.ai/chat/completions".

(** [clean[7:]], [clean[3:]] and [clean[:-3]] around the answer. *)
Definition strip_fences (content : string) : string :=
  let clean := Py.strip content in
  let clean := if Py.startswith "```json" clean then Py.drop 7 clean else clean in
  let clean := if Py.startswith "```" clean then Py.drop 3 clean else clean in
  let clean := if Py.endswith "```" clean then drop_last 3 clean else clean in
  Py.strip clean.




Section Finder.

(** Whether [PERPLEXITY_API_KEY] is set, the answer of the research
    service to the prompt made of the business, the doctor, the city
    and the directory lines, [json.loads], and the network that
    [verify_url] uses. *)
Variable perplexity_key : bool.
Variable perplexity_post : string -> option string -> string -> string
                           -> http_result.
Variable json_loads : string -> outcome value.
Variable http_get : nat -> string -> http_result.

Definition post (business_name : string) (doctor_name : option string)
  (city dir_list_str : string) : stmt dict (Z * string) :=
  fun t =>
    let r := perplexity_post business_name doctor_name city dir_list_str in
    let t' := (t ++ [EvPost ENDPOINT r])%list in
    match r with
    | HttpError msg => (Raise msg, t')
    | HttpResponse status text => (Next (status, text), t')
    end.





End Finder.

End Finder.

(* ================================================================== *)
(** * Vocabulary of the further statements, and more collaborators *)
(* ================================================================== *)

(** The requests of a trace, and the records that [verify_url]
    returns: verified by one of the four methods, or rejected for one
    of the four reasons. *)
Definition is_request (ev : event) : bool :=
  match ev with
  | EvGet _ _ | EvPost _ _ => true
  | _ => false
  end.

Definition requests (t : trace) : nat :=
  List.length (List.filter is_request t).

Definition verdict (r : dict) : Prop :=
  (dict_get "verified" r = Some (VBool true)
   /\ dict_get "reason" r = None
   /\ exists method,
        dict_get "method" r = Some (VStr method)
        /\ In method ["jina"; "requests"; "slug_match"; "slug_parts_match"])
  \/ (dict_get "verified" r = Some (VBool false)
      /\ dict_get "method" r = None
      /\ exists reason,
           dict_get "reason" r = Some (VStr reason)
           /\ In reason ["Missing input"; "Dead Link (404/410)";
                         "Text not found (Jina)"; "Verification failed"]).


(** A network on which the target answers 403 and the reader serves
    [page]. *)
Definition through_reader (page : string) : nat -> string -> http_result :=
  fun _ url =>
    if Py.startswith "https://r.jina.ai/" url then HttpResponse 200 page
    else HttpResponse 403 "Forbidden".

(** A search that finds the page of a doctor and then the profile of
    the practice. *)
Definition smith_page : result :=
  mkResult "https://www.yelp.com/biz/john-smith-dds-austin"
           "Dr. John Smith - Dentist in Austin, TX"
           "Reviews of Dr. John Smith".

Definition acme_profile : result :=
  mkResult "https://www.yelp.com/biz/acme-dental-austin"
           "Dentist in Austin, TX" "Opening hours and reviews".

Definition doctor_then_profile : string -> string -> list result :=
  fun _ _ => [smith_page; acme_profile].

(** The text of a field of an entry as the validation reads it:
    stripped, and empty when the field is absent. *)
Definition entry_text (key : string) (d : value) : string :=
  match d with
  | VDict kv =>
      match dict_get key kv with
      | Some (VStr s) => Py.strip s
      | _ => ""
      end
  | _ => ""
  end.

(** The URL of an entry of the result. *)
Definition entry_url (d : value) : option string :=
  match d with
  | VDict kv =>
      match dict_get "url" kv with
      | Some (VStr s) => Some s
      | _ => None
      end
  | _ => None
  end.

(** A correction search that finds one link, and a list of candidates:
    a directory, an excluded one, the first again under another
    spelling, and one whose URL is misspelt. *)
Definition cse_finds (link : string)
  : string -> outcome (option (list string)) :=
  fun _ => Returned (Some [link]).

Definition sample_directories : value :=
  VList [VDict [("name", VStr "Yelp"); ("url", VStr "https://www.yelp.com")];
         VDict [("name", VStr "Facebook Business");
                ("url", VStr "https://www.facebook.com")];
         VDict [("name", VStr " YELP "); ("url", VStr "https://yelp.com/biz")];
         VDict [("name", VStr "Healthgrades");
                ("url", VStr "https://www.healthgrade.co");
                ("category", VStr "healthcare")]].

(** [urlparse(url).path] on the URLs of the examples: the text after
    the host, up to the query or the fragment. *)
Fixpoint until_query (s : string) : string :=
  match s with
  | EmptyString => EmptyString
  | String c rest =>
      if Ascii.eqb c "?" || Ascii.eqb c "#" then EmptyString
      else String c (until_query rest)
  end.

Definition url_path (url : string) : outcome string :=
  let rest := UrlLib.without_scheme url in
  if Py.startswith "//" rest then
    let host := UrlLib.until_delimiter (Py.drop 2 rest) in
    Returned (until_query (Py.drop (2 + String.length host) rest))
  else Returned (until_query rest).

(** A search service that answers every query with one page of
    results, and the decoded answer: a profile, the homepage of the
    directory, and an item whose link is null. *)
Definition serper_answers : string -> string -> http_result :=
  fun _ _ => HttpResponse 200 "organic".

Definition organic_with (items : list value) : string -> outcome value :=
  fun _ => Returned (VDict [("organic", VList items)]).

Definition profile_item : value :=
  VDict [("title", VStr "Acme Dental - Austin, TX");
         ("link", VStr "https://www.yelp.com/biz/acme-dental-austin");
         ("snippet", VStr "Reviews of Acme Dental")].

Definition homepage_item : value :=
  VDict [("title", VStr "Yelp"); ("link", VStr "https://www.yelp.com/")].

Definition null_link_item : value :=
  VDict [("title", VStr "Acme Dental"); ("link", VNone)].




(* ================================================================== *)
(** * Properties of the NapMatcher *)
(* ================================================================== *)

Section NapMatcherFacts.

Variable camoufox : string -> outcome string.
Variable cloudscraper_get : string -> http_result.
Variable reader_get : nat -> string -> http_result.
Variable partial_ratio : string -> string -> Q.
Variable urlparse_netloc : string -> outcome string.

Lemma website_ok_run website_url content_norm t :
  website_ok urlparse_netloc website_url content_norm t
  = (Next (website_flag urlparse_netloc website_url content_norm), t).
Proof.
  unfold website_ok, website_flag.
  destruct (Py.truthy website_url); [|reflexivity].
  unfold try_, bind, lift.
  destruct (urlparse_netloc (Py.str website_url)) as [netloc|e];
    [|reflexivity].
  unfold ret.
  destruct (negb _ && _); reflexivity.
Qed.

(** The four exits of [verify_nap], and the exception of the blocked
    branch, in the order the guards are tested. *)
Lemma verify_nap_unfold url business_name phone address_parts website_url :
  let u := Py.str url in
  let content := scrape_content camoufox cloudscraper_get reader_get u in
  let content_norm := normalize_text (Some content) in
  verify_nap camoufox cloudscraper_get reader_get partial_ratio
             urlparse_netloc
             url business_name phone address_parts website_url
  = if invalid_url url then (Returned invalid_url_result, [])
    else if String.eqb content "" then
      (Returned scrape_error_result, [EvScrape u])
    else if is_blocked content_norm then
      match urlparse_netloc u with
      | Returned netloc =>
          (Returned (blocked_result (Py.lower netloc)), [EvScrape u])
      | Raised e => (Raised e, [EvScrape u])
      end
    else
      (Returned
         (nap_result (phone_score phone content)
            (partial_ratio (normalize_text business_name) content_norm)
            (calc_address_score address_parts content_norm)
            (website_flag urlparse_netloc website_url content_norm)),
       [EvScrape u]).
Proof.
  intros u content content_norm.
  unfold verify_nap, call, verify_nap_body, bind at 1, when.
  destruct (invalid_url url); [reflexivity|].
  unfold ret at 1, bind at 1, scrape, bind at 1, emit, ret at 1.
  cbv beta iota. fold u. fold content.
  unfold bind at 1.
  destruct (String.eqb content ""); [reflexivity|].
  unfold ret at 1. cbv beta iota. fold content_norm.
  unfold bind at 1.
  destruct (is_blocked content_norm).
  - unfold bind, lift.
    destruct (urlparse_netloc u); reflexivity.
  - unfold ret at 1. cbv beta iota.
    unfold bind. rewrite website_ok_run. reflexivity.
Qed.

End NapMatcherFacts.

Lemma int_floor_90 (q : Q) : Qle_bool 90 q = true -> 90 <= Py.int q.
Proof.
  intro H. apply Qle_bool_iff in H.
  unfold Py.int.
  assert (H0 : Qle_bool 0 q = true).
  { apply Qle_bool_iff. apply Qle_trans with (y := 90%Q); [|exact H].
    unfold Qle; simpl; lia. }
  rewrite H0.
  change 90 with (Qfloor (inject_Z 90)).
  apply Qfloor_resp_le. exact H.
Qed.

Lemma final_score_floor (name_score : Q) (calc_address_score : Z) :
  90 <= Py.int (final_score 100 name_score calc_address_score).
Proof.
  unfold final_score.
  change (100 =? 100) with true. cbv iota.
  destruct (Qle_bool 90 _) eqn:E.
  - apply int_floor_90. exact E.
  - vm_compute. discriminate.
Qed.

(** C1.  Whenever [verify_nap] returns a record whose [nap_phone_ok]
    flag is true, the confidence of that record is at least 90. *)
Theorem verify_nap_phone_floor
  (camoufox : string -> outcome string)
  (cloudscraper_get : string -> http_result)
  (reader_get : nat -> string -> http_result)
  (partial_ratio : string -> string -> Q)
  (urlparse_netloc : string -> outcome string)
  (url business_name phone : option string)
  (address_parts : list (option string)) (website_url : option string)
  (r : dict) (t : trace) :
  verify_nap camoufox cloudscraper_get reader_get partial_ratio
             urlparse_netloc
             url business_name phone address_parts website_url
  = (Returned r, t) ->
  dict_get "nap_phone_ok" r = Some (VBool true) ->
  exists c, dict_get "confidence" r = Some (VInt c) /\ 90 <= c.
Proof.
  rewrite verify_nap_unfold.
  destruct (invalid_url url).
  { intros H; inversion H; subst; discriminate. }
  destruct (String.eqb _ "").
  { intros H; inversion H; subst; discriminate. }
  destruct (is_blocked _).
  { destruct (urlparse_netloc _); intros H; inversion H; subst; discriminate. }
  intros H; inversion H; subst; clear H.
  unfold nap_result. cbn [dict_get String.eqb Ascii.eqb Bool.eqb].
  intros Hp. injection Hp as Hp. apply Z.eqb_eq in Hp.
  eexists; split; [reflexivity|].
  rewrite Hp. apply final_score_floor.
Qed.

Lemma verify_nap_phone_floor_witness :
  exists r t,
    verify_nap no_browser no_cloudscraper (reader_serves acme_page)
               fallback_partial_ratio UrlLib.netloc
               acme_url (Some "Acme Dental") (Some "512-555-0100")
               [Some "100 Congress Ave"; Some "Austin"; Some "78701"] None
    = (Returned r, t)
    /\ dict_get "nap_phone_ok" r = Some (VBool true)
    /\ exists c, dict_get "confidence" r = Some (VInt c) /\ 90 <= c.
Proof.
  eexists; eexists.
  split; [vm_compute; reflexivity|].
  split; [vm_compute; reflexivity|].
  eapply (verify_nap_phone_floor no_browser no_cloudscraper
            (reader_serves acme_page) fallback_partial_ratio
            UrlLib.netloc acme_url (Some "Acme Dental") (Some "512-555-0100")
            [Some "100 Congress Ave"; Some "Austin"; Some "78701"] None);
    vm_compute; reflexivity.
Defined.

(** C10.  A call whose [url] is [None], empty, or does not begin with
    [http] returns status [not_found], confidence 0 and details
    [Invalid URL], and its trace of collaborator calls is empty: no
    page is fetched. *)
Theorem verify_nap_invalid_url
  (camoufox : string -> outcome string)
  (cloudscraper_get : string -> http_result)
  (reader_get : nat -> string -> http_result)
  (partial_ratio : string -> string -> Q)
  (urlparse_netloc : string -> outcome string)
  (url business_name phone : option string)
  (address_parts : list (option string)) (website_url : option string) :
  url = None \/ url = Some ""
  \/ (exists u, url = Some u /\ Py.startswith "http" u = false) ->
  exists r,
    verify_nap camoufox cloudscraper_get reader_get partial_ratio
             urlparse_netloc
               url business_name phone address_parts website_url
    = (Returned r, [])
    /\ dict_get "status" r = Some (VStr "not_found")
    /\ dict_get "confidence" r = Some (VInt 0)
    /\ dict_get "details" r = Some (VStr "Invalid URL").
Proof.
  intros H.
  assert (Hinv : invalid_url url = true).
  { destruct H as [-> | [-> | [u [-> Hu]]]]; try reflexivity.
    unfold invalid_url, Py.str. rewrite Hu.
    apply orb_true_r. }
  rewrite verify_nap_unfold, Hinv.
  exists invalid_url_result. repeat split; reflexivity.
Qed.

Lemma verify_nap_invalid_url_witness :
  (exists u, Some "ftp://yelp.com/biz/acme" = Some u
             /\ Py.startswith "http" u = false)
  /\ exists r,
       verify_nap no_browser no_cloudscraper (reader_serves acme_page)
               fallback_partial_ratio UrlLib.netloc
                  (Some "ftp://yelp.com/biz/acme") (Some "Acme Dental")
                  (Some "512-555-0100") [] None
       = (Returned r, [])
       /\ dict_get "status" r = Some (VStr "not_found")
       /\ dict_get "confidence" r = Some (VInt 0)
       /\ dict_get "details" r = Some (VStr "Invalid URL").
Proof.
  split.
  - eexists; split; [reflexivity | vm_compute; reflexivity].
  - apply (verify_nap_invalid_url no_browser no_cloudscraper
             (reader_serves acme_page) fallback_partial_ratio
             UrlLib.netloc (Some "ftp://yelp.com/biz/acme")).
    right; right. eexists; split; [reflexivity | vm_compute; reflexivity].
Defined.

(** C3, as amended.  When the fetched content is detected as blocked
    and the URL parses, [verify_nap] returns a record whose status is
    [found] (the code keeps it as found), whose confidence is 0, whose
    four field flags are [None], and whose details name the directory
    taken from the URL's host. *)
Theorem verify_nap_blocked
  (camoufox : string -> outcome string)
  (cloudscraper_get : string -> http_result)
  (reader_get : nat -> string -> http_result)
  (partial_ratio : string -> string -> Q)
  (urlparse_netloc : string -> outcome string)
  (url business_name phone : option string)
  (address_parts : list (option string)) (website_url : option string)
  (netloc : string) :
  invalid_url url = false ->
  scrape_content camoufox cloudscraper_get reader_get (Py.str url) <> "" ->
  is_blocked (normalize_text (Some (scrape_content camoufox cloudscraper_get reader_get (Py.str url)))) = true ->
  urlparse_netloc (Py.str url) = Returned netloc ->
  exists r,
    verify_nap camoufox cloudscraper_get reader_get partial_ratio
             urlparse_netloc
               url business_name phone address_parts website_url
    = (Returned r, [EvScrape (Py.str url)])
    /\ dict_get "status" r = Some (VStr "found")
    /\ dict_get "confidence" r = Some (VInt 0)
    /\ dict_get "nap_name_ok" r = Some VNone
    /\ dict_get "nap_address_ok" r = Some VNone
    /\ dict_get "nap_phone_ok" r = Some VNone
    /\ dict_get "nap_website_ok" r = Some VNone
    /\ dict_get "details" r
       = Some (VStr ("Scraper blocked by "
                     ++ directory_label (Py.lower netloc)
                     ++ ". NAP checks require manual verification.")).
Proof.
  intros Hurl Hcontent Hblocked Hparse.
  rewrite verify_nap_unfold, Hurl, Hblocked, Hparse.
  apply String.eqb_neq in Hcontent. rewrite Hcontent.
  exists (blocked_result (Py.lower netloc)).
  repeat split; reflexivity.
Qed.

Lemma verify_nap_blocked_witness :
  exists r,
    verify_nap no_browser no_cloudscraper (reader_serves block_page)
               fallback_partial_ratio UrlLib.netloc
               (Some "https://yelp.com/biz/acme-dental") (Some "Acme Dental")
               (Some "512-555-0100") [] None
    = (Returned r, [EvScrape "https://yelp.com/biz/acme-dental"])
    /\ dict_get "status" r = Some (VStr "found")
    /\ dict_get "confidence" r = Some (VInt 0)
    /\ dict_get "nap_name_ok" r = Some VNone
    /\ dict_get "nap_address_ok" r = Some VNone
    /\ dict_get "nap_phone_ok" r = Some VNone
    /\ dict_get "nap_website_ok" r = Some VNone
    /\ dict_get "details" r
       = Some (VStr "Scraper blocked by Yelp. NAP checks require manual verification.").
Proof.
  apply (verify_nap_blocked no_browser no_cloudscraper
           (reader_serves block_page) fallback_partial_ratio
           UrlLib.netloc (Some "https://yelp.com/biz/acme-dental")
           (Some "Acme Dental") (Some "512-555-0100") [] None "yelp.com").
  - vm_compute; reflexivity.
  - vm_compute; discriminate.
  - vm_compute; reflexivity.
  - vm_compute; reflexivity.
Defined.

(** C3 as stated fails: on a blocked page the returned status is
    [found], not [blocked]. *)
Lemma verify_nap_blocked_counterexample :
  served block_page "https://yelp.com/biz/acme-dental" = block_page
  /\ is_blocked (normalize_text (Some block_page)) = true
  /\ exists r,
       fst (verify_nap no_browser no_cloudscraper (reader_serves block_page)
              fallback_partial_ratio UrlLib.netloc
              (Some "https://yelp.com/biz/acme-dental") (Some "Acme Dental")
              (Some "512-555-0100") [] None)
       = Returned r
       /\ dict_get "status" r = Some (VStr "found")
       /\ dict_get "status" r <> Some (VStr "blocked").
Proof.
  split; [vm_compute; reflexivity|].
  split; [vm_compute; reflexivity|].
  eexists. split; [vm_compute; reflexivity|].
  split; [reflexivity | discriminate].
Qed.

(** What a scored call returns. *)
Lemma verify_nap_scored
  (camoufox : string -> outcome string)
  (cloudscraper_get : string -> http_result)
  (reader_get : nat -> string -> http_result)
  (partial_ratio : string -> string -> Q)
  (urlparse_netloc : string -> outcome string)
  (url business_name phone : option string)
  (address_parts : list (option string)) (website_url : option string) :
  scored (scrape_content camoufox cloudscraper_get reader_get) url = true ->
  let content := scrape_content camoufox cloudscraper_get reader_get (Py.str url) in
  let content_norm := normalize_text (Some content) in
  verify_nap camoufox cloudscraper_get reader_get partial_ratio
             urlparse_netloc
             url business_name phone address_parts website_url
  = (Returned
       (nap_result (phone_score phone content)
          (partial_ratio (normalize_text business_name) content_norm)
          (calc_address_score address_parts content_norm)
          (website_flag urlparse_netloc website_url content_norm)),
     [EvScrape (Py.str url)]).
Proof.
  unfold scored. intros H.
  apply andb_prop in H. destruct H as [H Hb].
  apply andb_prop in H. destruct H as [Hu Hc].
  apply negb_true_iff in Hu, Hc, Hb.
  cbv zeta.
  rewrite verify_nap_unfold, Hu, Hc, Hb. reflexivity.
Qed.

(** C5, as amended.  On a scored call the website flag is [None] when
    no website URL is supplied or when the website URL does not parse;
    otherwise it is true exactly when the website's domain (host in
    lower case, without [www.]) is not empty and occurs in the
    normalised content, and false in every other case, whatever
    phrases the page has. *)
Theorem verify_nap_website
  (camoufox : string -> outcome string)
  (cloudscraper_get : string -> http_result)
  (reader_get : nat -> string -> http_result)
  (partial_ratio : string -> string -> Q)
  (urlparse_netloc : string -> outcome string)
  (url business_name phone : option string)
  (address_parts : list (option string)) (website_url : option string) :
  scored (scrape_content camoufox cloudscraper_get reader_get) url = true ->
  let content_norm := normalize_text (Some (scrape_content camoufox cloudscraper_get reader_get (Py.str url))) in
  exists r,
    verify_nap camoufox cloudscraper_get reader_get partial_ratio
             urlparse_netloc
               url business_name phone address_parts website_url
    = (Returned r, [EvScrape (Py.str url)])
    /\ (Py.truthy website_url = false ->
        dict_get "nap_website_ok" r = Some VNone)
    /\ (forall e,
          Py.truthy website_url = true ->
          urlparse_netloc (Py.str website_url) = Raised e ->
          dict_get "nap_website_ok" r = Some VNone)
    /\ (forall netloc,
          Py.truthy website_url = true ->
          urlparse_netloc (Py.str website_url) = Returned netloc ->
          let website_domain := Py.replace "www." "" (Py.lower netloc) in
          dict_get "nap_website_ok" r
          = Some (VBool (negb (String.eqb website_domain "")
                         && Py.contains website_domain content_norm))).
Proof.
  intros Hs content_norm.
  eexists. split.
  - apply verify_nap_scored. exact Hs.
  - unfold nap_result. cbn [dict_get String.eqb Ascii.eqb Bool.eqb].
    fold content_norm. unfold website_flag.
    repeat split.
    + intros ->. reflexivity.
    + intros e -> ->. reflexivity.
    + intros netloc -> ->. reflexivity.
Qed.

Lemma verify_nap_website_witness :
  scored (served acme_page) acme_url = true
  /\ exists r,
       verify_nap no_browser no_cloudscraper (reader_serves acme_page)
               fallback_partial_ratio UrlLib.netloc
                  acme_url (Some "Acme Dental") (Some "512-555-0100") []
                  (Some "https://www.acmedental.com")
       = (Returned r, [EvScrape (Py.str acme_url)])
       /\ dict_get "nap_website_ok" r = Some (VBool false).
Proof.
  split; [vm_compute; reflexivity|].
  destruct (verify_nap_website no_browser no_cloudscraper
              (reader_serves acme_page) fallback_partial_ratio
              UrlLib.netloc acme_url (Some "Acme Dental")
              (Some "512-555-0100") [] (Some "https://www.acmedental.com"))
    as [r [Hrun [_ [_ Hflag]]]].
  - vm_compute; reflexivity.
  - exists r. split; [exact Hrun|].
    rewrite (Hflag "www.acmedental.com");
      [vm_compute; reflexivity | reflexivity | vm_compute; reflexivity].
Defined.

(** C5 as stated fails: the page has the phrase "visit our website" and
    not the domain, and the flag is false. *)
Lemma verify_nap_website_counterexample :
  served phrase_page (Py.str acme_url) = phrase_page
  /\ Py.contains "acmedental.com" (normalize_text (Some phrase_page)) = false
  /\ Py.contains "visit our website" (normalize_text (Some phrase_page)) = true
  /\ In "visit our website" website_phrases
  /\ exists r,
       fst (verify_nap no_browser no_cloudscraper (reader_serves phrase_page)
              fallback_partial_ratio UrlLib.netloc
              acme_url (Some "Acme Dental") (Some "512-555-0100") []
              (Some "https://www.acmedental.com"))
       = Returned r
       /\ dict_get "nap_website_ok" r = Some (VBool false).
Proof.
  split; [vm_compute; reflexivity|].
  split; [vm_compute; reflexivity|].
  split; [vm_compute; reflexivity|].
  split; [unfold website_phrases; simpl; tauto|].
  eexists. split; vm_compute; reflexivity.
Qed.

(** C6, as amended.  On a scored call [nap_phone_ok] is true exactly
    when the digits of the stored phone number are at least ten and
    occur as a contiguous run in the digits of the page content. *)
Theorem verify_nap_phone
  (camoufox : string -> outcome string)
  (cloudscraper_get : string -> http_result)
  (reader_get : nat -> string -> http_result)
  (partial_ratio : string -> string -> Q)
  (urlparse_netloc : string -> outcome string)
  (url business_name phone : option string)
  (address_parts : list (option string)) (website_url : option string) :
  scored (scrape_content camoufox cloudscraper_get reader_get) url = true ->
  let content := scrape_content camoufox cloudscraper_get reader_get (Py.str url) in
  exists r b,
    verify_nap camoufox cloudscraper_get reader_get partial_ratio
             urlparse_netloc
               url business_name phone address_parts website_url
    = (Returned r, [EvScrape (Py.str url)])
    /\ dict_get "nap_phone_ok" r = Some (VBool b)
    /\ (b = true <->
        (10 <= String.length (normalize_phone phone))%nat
        /\ Py.contains (normalize_phone phone) (Py.filter Py.isdigit content)
           = true).
Proof.
  intros Hs content.
  eexists. eexists. split; [apply verify_nap_scored; exact Hs|].
  unfold nap_result. cbn [dict_get String.eqb Ascii.eqb Bool.eqb].
  split; [reflexivity|].
  fold content. unfold phone_score.
  destruct (String.eqb (normalize_phone phone) "") eqn:Hempty.
  - apply String.eqb_eq in Hempty. rewrite Hempty. cbn.
    split; [discriminate | intros [H _]; lia].
  - cbn [negb andb].
    destruct (10 <=? Z.of_nat (String.length (normalize_phone phone))) eqn:Hlen.
    + apply Z.leb_le in Hlen.
      destruct (Py.contains _ _).
      * split; [intros _; split; [lia | reflexivity] | reflexivity].
      * split; [discriminate | intros [_ H]; discriminate].
    + apply Z.leb_gt in Hlen.
      split; [discriminate | intros [H _]; lia].
Qed.

Lemma verify_nap_phone_witness :
  scored (served acme_page) acme_url = true
  /\ exists r b,
       verify_nap no_browser no_cloudscraper (reader_serves acme_page)
               fallback_partial_ratio UrlLib.netloc
                  acme_url (Some "Acme Dental") (Some "512-555-0100") [] None
       = (Returned r, [EvScrape (Py.str acme_url)])
       /\ dict_get "nap_phone_ok" r = Some (VBool b)
       /\ (b = true <->
           (10 <= String.length (normalize_phone (Some "512-555-0100")))%nat
           /\ Py.contains (normalize_phone (Some "512-555-0100"))
                (Py.filter Py.isdigit (served acme_page (Py.str acme_url)))
              = true).
Proof.
  split; [vm_compute; reflexivity|].
  apply (verify_nap_phone no_browser no_cloudscraper
           (reader_serves acme_page) fallback_partial_ratio
           UrlLib.netloc acme_url (Some "Acme Dental") (Some "512-555-0100")
           [] None).
  vm_compute; reflexivity.
Defined.

(** C6 as stated fails: the stored phone is not empty, its seven digits
    occur in the digits of the page, and the flag is false. *)
Lemma verify_nap_phone_counterexample :
  served short_phone_page (Py.str acme_url) = short_phone_page
  /\ normalize_phone (Some "555-0100") = "5550100"
  /\ Py.contains "5550100" (Py.filter Py.isdigit short_phone_page) = true
  /\ exists r,
       fst (verify_nap no_browser no_cloudscraper
              (reader_serves short_phone_page) fallback_partial_ratio
              UrlLib.netloc acme_url (Some "Acme Dental") (Some "555-0100")
              [] None)
       = Returned r
       /\ dict_get "nap_phone_ok" r = Some (VBool false).
Proof.
  split; [vm_compute; reflexivity|].
  split; [vm_compute; reflexivity|].
  split; [vm_compute; reflexivity|].
  eexists. split; vm_compute; reflexivity.
Qed.

(* ================================================================== *)
(** * Properties of the URL verifier *)
(* ================================================================== *)

Lemma length_append (a b : string) :
  String.length (a ++ b) = (String.length a + String.length b)%nat.
Proof. induction a as [|c a IH]; simpl; [reflexivity | now rewrite IH]. Qed.

(** The reader request never goes to the target URL itself. *)
Lemma jina_url_differs (u : string) : "https://r.jina.ai/" ++ u <> u.
Proof.
  intro H. apply (f_equal String.length) in H.
  rewrite length_append in H. simpl in H. lia.
Qed.

Lemma is_dead_iff (s : Z) : is_dead s = true <-> s = 404 \/ s = 410.
Proof.
  unfold is_dead. rewrite orb_true_iff, !Z.eqb_eq. tauto.
Qed.

(** Discharges a leaf of the execution of [verify_url] in which the
    request answered 404 or 410 cannot be the one of the hypothesis. *)
Ltac impossible_request Hdead :=
  repeat match goal with
    | H : _ \/ _ |- _ => destruct H
    | H : False |- _ => destruct H
    | H : EvSlugMatch = EvGet _ _ |- _ => discriminate H
    | H : EvGet _ (HttpError _) = EvGet _ (HttpResponse _ _) |- _ =>
        discriminate H
    | H : EvGet _ _ = EvGet ?v _ |- _ =>
        solve [exfalso; injection H as H _; exact (jina_url_differs v H)]
    | H : EvGet _ (HttpResponse ?s _) = EvGet _ (HttpResponse _ _),
      E : is_dead ?s = false |- _ =>
        exfalso; injection H as H _; rewrite H in E; congruence
    | H : EvGet _ (HttpResponse ?s _) = EvGet _ (HttpResponse _ _),
      E : (?s =? 200) = true |- _ =>
        exfalso; injection H as H _; apply Z.eqb_eq in E;
        rewrite <- H, E in Hdead; discriminate Hdead
    end.

(** C2.  In every run of [verify_url], if a request for the target URL
    is answered with status 404 or 410, the run returns the dead-link
    record (not verified), that request is the last thing the run does,
    and the slug comparison is not reached. *)
Theorem verify_url_dead_link
  (http_get : nat -> string -> http_result)
  (url required_text : option string) (r : outcome dict) (t : trace)
  (status : Z) (body : string) :
  verify_url http_get url required_text = (r, t) ->
  In (EvGet (Py.str url) (HttpResponse status body)) t ->
  status = 404 \/ status = 410 ->
  (exists log, r = Returned (dead_link_result log))
  /\ (exists t0,
        t = (t0 ++ [EvGet (Py.str url) (HttpResponse status body)])%list)
  /\ ~ In EvSlugMatch t.
Proof.
  intros Hrun Hin Hdead.
  apply is_dead_iff in Hdead.
  revert Hrun.
  unfold verify_url, call, verify_url_body.
  cbv beta iota zeta
      delta [bind try_ when get ret return_ emit fst snd List.length List.app].
  destruct (negb (Py.truthy url) || negb (Py.truthy required_text)).
  { intros [= <- <-]. destruct Hin. }
  set (u := Py.str url) in *.
  set (clean_req := Py.strip _).
  set (name_parts := Py.split _).
  repeat
    (match goal with
     | |- context [match http_get ?n ?x with _ => _ end] =>
         let E := fresh "Eget" in
         destruct (http_get n x) eqn:E
     | |- context [if ?b then _ else _] =>
         let E := fresh "Eif" in
         destruct b eqn:E
     end; cbv beta iota).
  all: intros [= <- <-].
  all: cbn [In] in Hin.
  all: impossible_request Hdead.
  all: match goal with
       | H : EvGet _ _ = EvGet _ _ |- _ => rewrite <- H
       end.
  all: split; [eexists; reflexivity|].
  all: split;
         [first [exists []; reflexivity
                | eexists [_]; reflexivity
                | eexists [_; _]; reflexivity]
         | cbn [In]; intuition discriminate].
Qed.

(** The regression case: the slug of the dead link has the business
    name, the pre-check fails, and the second request is answered 404. *)
Lemma verify_url_dead_link_witness :
  let run :=
    verify_url (third_answer (HttpResponse 404 "Not Found"))
               dead_profile (Some "Acme Dental") in
  In (EvGet (Py.str dead_profile) (HttpResponse 404 "Not Found")) (snd run)
  /\ Py.contains "acme-dental" (Py.str dead_profile) = true
  /\ (exists log, fst run = Returned (dead_link_result log))
  /\ (exists t0,
        snd run
        = (t0 ++ [EvGet (Py.str dead_profile)
                        (HttpResponse 404 "Not Found")])%list)
  /\ ~ In EvSlugMatch (snd run).
Proof.
  intros run.
  split; [vm_compute; tauto|].
  split; [vm_compute; reflexivity|].
  apply (verify_url_dead_link (third_answer (HttpResponse 404 "Not Found"))
           dead_profile (Some "Acme Dental") (fst run) (snd run)
           404 "Not Found").
  - apply surjective_pairing.
  - vm_compute; tauto.
  - left; reflexivity.
Defined.

(** The same link answered 403 instead is accepted by its slug: the
    slug comparison is live on the other statuses. *)
Example verify_url_slug_on_403 :
  verify_url (third_answer (HttpResponse 403 "Forbidden"))
             dead_profile (Some "Acme Dental")
  = (Returned [("verified", VBool true); ("method", VStr "slug_match");
               ("log", log_value ["Pre-check Warning: timeout";
                                  "Jina Error: timeout";
                                  "Requests: Status 403"])],
     [EvGet (Py.str dead_profile) (HttpError "timeout");
      EvGet ("https://r.jina.ai/" ++ Py.str dead_profile) (HttpError "timeout");
      EvGet (Py.str dead_profile) (HttpResponse 403 "Forbidden");
      EvSlugMatch]).
Proof. vm_compute. reflexivity. Qed.

(** A dead link met by the pre-check ends the run after one request. *)
Example verify_url_dead_on_precheck :
  verify_url always_404 dead_profile (Some "Acme Dental")
  = (Returned (dead_link_result ["Pre-check: Status 404 (Dead Link)"]),
     [EvGet (Py.str dead_profile) (HttpResponse 404 "Not Found")]).
Proof. vm_compute. reflexivity. Qed.

(* ================================================================== *)
(** * Properties of the DirectoryValidator *)
(* ================================================================== *)

(** C7.  [domain_matches_name] accepts [ada.org] for "American Dental
    Association": the acronym of the three significant words is a token
    of the domain without its TLD.  It rejects [randomblog.com] for the
    same name: the acronym does not match, none of the three words
    occurs in the domain, and a name of three significant words needs
    two hits. *)
Theorem domain_matches_name_ada :
  domain_matches_name "ada.org" "American Dental Association" = true
  /\ domain_matches_name "randomblog.com" "American Dental Association" = false
  /\ significant_words "American Dental Association"
     = ["american"; "dental"; "association"]
  /\ acronym (significant_words "American Dental Association") = "ada"
  /\ tokens (target_domain "ada.org") = ["ada"]
  /\ tokens (target_domain "randomblog.com") = ["randomblog"]
  /\ matches (significant_words "American Dental Association")
             (target_domain "randomblog.com") = 0%nat.
Proof.
  assert (Hw : significant_words "American Dental Association"
               = ["american"; "dental"; "association"])
    by (vm_compute; reflexivity).
  assert (Ha : target_domain "ada.org" = "ada") by (vm_compute; reflexivity).
  assert (Hr : target_domain "randomblog.com" = "randomblog")
    by (vm_compute; reflexivity).
  unfold domain_matches_name.
  rewrite Hw, Ha, Hr.
  repeat split; vm_compute; reflexivity.
Qed.

(** With three or more significant words and no acronym match, a
    domain is accepted only on two keyword hits. *)
Lemma domain_matches_name_long (domain name : string) :
  (3 <= List.length (significant_words name))%nat ->
  mem (acronym (significant_words name)) (tokens (target_domain domain))
  = false ->
  Py.startswith (acronym (significant_words name)) (target_domain domain)
  = false ->
  domain_matches_name domain name = true ->
  (2 <= matches (significant_words name) (target_domain domain))%nat.
Proof.
  intros Hlen Htok Hpre.
  unfold domain_matches_name.
  destruct (String.eqb domain "" || String.eqb name ""); [discriminate|].
  rewrite Htok, Hpre, andb_false_r.
  destruct (Nat.leb (List.length (significant_words name)) 2) eqn:E.
  - apply Nat.leb_le in E. lia.
  - intros H. apply Nat.leb_le in H. exact H.
Qed.

Lemma contains_unfold (sub : string) (c : ascii) (s : string) :
  Py.contains sub (String c s)
  = String.prefix sub (String c s) || Py.contains sub s.
Proof. reflexivity. Qed.

Lemma contains_shorter (c : ascii) (p s : string) :
  Py.contains (String c p) s = true -> Py.contains p s = true.
Proof.
  induction s as [|d s IH].
  - simpl. discriminate.
  - rewrite !contains_unfold. intros H.
    apply orb_true_iff in H. apply orb_true_iff. right.
    destruct H as [H|H].
    + cbn [String.prefix] in H. destruct (ascii_dec c d); [|discriminate].
      destruct s; cbn [Py.contains]; rewrite H; reflexivity.
    + apply IH. exact H.
Qed.

(** A text without a slash has no [x/]. *)
Lemma no_char_slash (x : ascii) (host : string) :
  Py.contains "/" host = false -> Py.contains (String x "/") host = false.
Proof.
  intros H. destruct (Py.contains (String x "/") host) eqn:E; [|reflexivity].
  apply contains_shorter in E. congruence.
Qed.

Lemma BAD_TLDS_united_states :
  BAD_TLDS (Py.lower "United States")
  = [".au"; ".com.au"; ".uk"; ".co.uk"; ".ca"; ".de"; ".fr"; ".in"; ".co.in"].
Proof. vm_compute. reflexivity. Qed.

Lemma BAD_TLDS_australia :
  BAD_TLDS (Py.lower "Australia")
  = [".uk"; ".co.uk"; ".ca"; ".de"; ".fr"; ".in"; ".co.in"].
Proof. vm_compute. reflexivity. Qed.

Lemma prefix_cons_ne (c d : ascii) (p s : string) :
  c <> d -> String.prefix (String c p) (String d s) = false.
Proof.
  intros H. cbn [String.prefix].
  destruct (ascii_dec c d); [contradiction | reflexivity].
Qed.

Lemma prefix_cons_same (c : ascii) (p s : string) :
  String.prefix (String c p) (String c s) = String.prefix p s.
Proof.
  cbn [String.prefix].
  destruct (ascii_dec c c); [reflexivity | contradiction].
Qed.

(** A text that ends in [.com.au] ends in [u]. *)
Lemma endswith_com_au (s : string) :
  Py.endswith ".com.au" s = true ->
  exists r, Py.rev s = String "u" (String "a" (String "." r)).
Proof.
  unfold Py.endswith.
  change (Py.rev ".com.au") with "ua.moc.".
  destruct (Py.rev s) as [|a [|b [|c r]]]; cbn [String.prefix];
    try discriminate.
  - destruct (ascii_dec "u" a); discriminate.
  - destruct (ascii_dec "u" a); [|discriminate].
    destruct (ascii_dec "a" b); discriminate.
  - destruct (ascii_dec "u" a) as [<-|]; [|discriminate].
    destruct (ascii_dec "a" b) as [<-|]; [|discriminate].
    destruct (ascii_dec "." c) as [<-|]; [|discriminate].
    intros _. exists r. reflexivity.
Qed.

Ltac strip_pattern E :=
  repeat match type of E with
    | Py.contains (String _ (String _ (String _ _))) _ = true =>
        apply contains_shorter in E
    end.

(** C8.  A candidate whose URL ends in [.com.au] is excluded by the
    foreign-TLD test when the target country is "United States".  When
    the target country is "Australia" the list of excluded TLDs has
    neither [.au] nor [.com.au], and a candidate whose URL is a scheme
    and a host that ends in [.com.au] is not excluded by the test. *)
Theorem foreign_tld_com_au :
  (forall url,
      Py.endswith ".com.au" (Py.lower url) = true ->
      foreign_tld "United States" url = true)
  /\ BAD_TLDS (Py.lower "Australia")
     = [".uk"; ".co.uk"; ".ca"; ".de"; ".fr"; ".in"; ".co.in"]
  /\ (forall url scheme host,
        Py.lower url = scheme ++ host ->
        In scheme [""; "http://"; "https://"] ->
        Py.contains "/" host = false ->
        Py.endswith ".com.au" (Py.lower url) = true ->
        foreign_tld "Australia" url = false).
Proof.
  split; [|split].
  - intros url H.
    unfold foreign_tld. rewrite BAD_TLDS_united_states.
    destruct (endswith_com_au _ H) as [r Hr].
    cbn [existsb]. unfold Py.endswith at 1. rewrite Hr.
    change (Py.rev ".au") with "ua.".
    rewrite !prefix_cons_same. destruct r; reflexivity.
  - apply BAD_TLDS_australia.
  - intros url scheme host Hsplit Hscheme Hhost H.
    unfold foreign_tld. rewrite BAD_TLDS_australia.
    destruct (endswith_com_au _ H) as [r Hr].
    unfold Py.endswith. rewrite Hr, Hsplit.
    cbn [existsb].
    change (Py.rev ".uk") with "ku.". change (Py.rev ".co.uk") with "ku.oc.".
    change (Py.rev ".ca") with "ac.". change (Py.rev ".de") with "ed.".
    change (Py.rev ".fr") with "rf.". change (Py.rev ".in") with "ni.".
    change (Py.rev ".co.in") with "ni.oc.".
    rewrite !prefix_cons_ne by discriminate.
    cbn [orb].
    assert (Hno : forall x p,
               Py.contains (String x "/") (scheme ++ host) = false ->
               Py.contains (String p (String x "/")) (scheme ++ host) = false).
    { intros x p Hx.
      destruct (Py.contains (String p (String x "/")) (scheme ++ host)) eqn:E;
        [|reflexivity].
      apply contains_shorter in E. congruence. }
    assert (Hx : forall x, In x ["k"; "a"; "e"; "r"; "n"]%char ->
                 Py.contains (String x "/") (scheme ++ host) = false).
    { intros x Hin.
      destruct Hscheme as [<-|[<-|[<-|[]]]];
        destruct Hin as [<-|[<-|[<-|[<-|[<-|[]]]]]];
        cbn; apply no_char_slash; exact Hhost. }
    assert (Hp : forall p, In p [".uk/"; ".co.uk/"; ".ca/"; ".de/"; ".fr/";
                                 ".in/"; ".co.in/"] ->
                 Py.contains p (scheme ++ host) = false).
    { intros p Hin.
      destruct (Py.contains p (scheme ++ host)) eqn:E; [|reflexivity].
      destruct Hin as [<-|[<-|[<-|[<-|[<-|[<-|[<-|[]]]]]]]];
        strip_pattern E;
        rewrite Hx in E; try discriminate; simpl; tauto. }
    rewrite !Hp by (simpl; tauto).
    reflexivity.
Qed.

Lemma foreign_tld_com_au_witness :
  Py.endswith ".com.au" (Py.lower "https://bestremovalists.com.au") = true
  /\ foreign_tld "United States" "https://bestremovalists.com.au" = true
  /\ foreign_tld "Australia" "https://bestremovalists.com.au" = false
  /\ foreign_tld "Australia" "bestremovalists.com.au" = false.
Proof.
  destruct foreign_tld_com_au as [Hus [_ Hau]].
  split; [vm_compute; reflexivity|].
  split; [apply Hus; vm_compute; reflexivity|].
  split.
  - apply (Hau _ "https://" "bestremovalists.com.au").
    + vm_compute; reflexivity.
    + simpl; tauto.
    + vm_compute; reflexivity.
    + vm_compute; reflexivity.
  - apply (Hau _ "" "bestremovalists.com.au").
    + vm_compute; reflexivity.
    + simpl; tauto.
    + vm_compute; reflexivity.
    + vm_compute; reflexivity.
Defined.

(** The whole validation on the candidate of the example: kept for an
    Australian business, dropped before the reachability check for a
    business in the United States. *)
Example clean_and_validate_australia :
  call [] (clean_and_validate_directories UrlLib.netloc all_reachable
             false no_cse (VList [best_removalists]) (Some "Australia"))
  = (Returned [best_removalists],
     [EvReachable "https://bestremovalists.com.au"]).
Proof. vm_compute. reflexivity. Qed.

Example clean_and_validate_united_states :
  call [] (clean_and_validate_directories UrlLib.netloc all_reachable
             false no_cse (VList [best_removalists]) (Some "United States"))
  = (Returned [], []).
Proof. vm_compute. reflexivity. Qed.

(* ================================================================== *)
(** * Properties of the ProfileResolver *)
(* ================================================================== *)

Lemma filter_none {A} (f : A -> bool) (l : list A) :
  (forall x, In x l -> f x = false) -> List.filter f l = [].
Proof.
  induction l as [|a l IH]; intros H; [reflexivity|].
  simpl. rewrite (H a (or_introl eq_refl)).
  apply IH. intros x Hx. apply H. right. exact Hx.
Qed.

Lemma matches_of_uncertain (c : category) (business_name doctor_name : string)
  (results : list result) :
  c <> Uncertain ->
  (forall x, In x results -> classify business_name doctor_name x = Uncertain) ->
  matches_of c business_name doctor_name results = [].
Proof.
  intros Hc H. unfold matches_of. apply filter_none.
  intros x Hx. rewrite (H x Hx). destruct c; try reflexivity. contradiction.
Qed.

Section ProfileResolverFacts.

Variable search_serper_results : string -> string -> list result.
Variable validate_page : string -> string -> string -> validation.
Variable direct_search : string -> string -> string -> string
                         -> option (string * string).

(** With no result classified, [prioritize] returns the raw results as
    candidates and ends there, on the trace it was given. *)
Lemma prioritize_uncertain
  (directory_domain business_name doctor_name city country : string)
  (results : list result) (t : trace) :
  results <> [] ->
  (forall x, In x results -> classify business_name doctor_name x = Uncertain) ->
  prioritize validate_page direct_search
             directory_domain business_name doctor_name city country results t
  = (Return (not_found "uncertain_results"
                       [("candidates", results_value results)]), t).
Proof.
  intros Hne Hall.
  unfold prioritize. cbv zeta.
  rewrite !matches_of_uncertain by (discriminate || exact Hall).
  destruct results as [|x xs]; [contradiction|].
  reflexivity.
Qed.

Lemma prioritize_empty
  (directory_domain business_name doctor_name city country : string)
  (t : trace) :
  prioritize validate_page direct_search
             directory_domain business_name doctor_name city country [] t
  = (Return (not_found "no_results" []), t).
Proof. reflexivity. Qed.

End ProfileResolverFacts.

(** C4, as amended.  In a run of [discover_profile_url] on a searchable
    directory in which the search returned results and none of them is
    classified as a profile, doctor or list match, the resolver returns
    [not_found] with reason [uncertain_results] and the raw results as
    candidates; the searches are the only collaborator calls of the
    run: no uncertain result is fetched and the directory's own search
    is not queried. *)
Theorem discover_profile_url_uncertain
  (search_serper_results : string -> string -> list result)
  (validate_page : string -> string -> string -> validation)
  (direct_search : string -> string -> string -> string
                   -> option (string * string))
  (directory_name directory_domain business_name doctor_name
     city state country : string)
  (r : outcome dict) (t : trace) :
  discover_profile_url search_serper_results validate_page direct_search
    directory_name directory_domain business_name doctor_name
    city state country = (r, t) ->
  mem directory_domain skip_domains = false ->
  (forall query gl x,
      In x (search_serper_results query gl) ->
      classify business_name doctor_name x = Uncertain) ->
  (exists query gl,
      In (EvSerper query gl) t /\ search_serper_results query gl <> []) ->
  exists query gl,
    search_serper_results query gl <> []
    /\ r = Returned
             (not_found "uncertain_results"
                [("candidates",
                  results_value (search_serper_results query gl))])
    /\ (forall ev, In ev t -> exists q g, ev = EvSerper q g).
Proof.
  intros Hrun Hskip Hall Hsome. revert Hrun.
  unfold discover_profile_url, call, discover_profile_url_body.
  rewrite Hskip.
  cbv beta iota zeta delta [when bind ret search_serper emit List.app].
  set (q1 := query _ _ _ _ _ _ _).
  set (q2 := fallback_query _ _).
  set (gl := gl_of_country country).
  destruct (search_serper_results q1 gl) as [|x xs] eqn:E1.
  - destruct (negb (String.eqb (location_term city state country) "")).
    + cbv beta iota.
      destruct (search_serper_results q2 gl) as [|y ys] eqn:E2.
      * rewrite prioritize_empty. intros [= <- <-].
        destruct Hsome as [q [g [Hin Hne]]].
        cbn [In] in Hin.
        destruct Hin as [H|[H|[]]]; injection H as <- <-; congruence.
      * rewrite prioritize_uncertain;
          [| discriminate
           | intros z Hz; apply (Hall q2 gl); rewrite E2; exact Hz].
        intros [= <- <-].
        exists q2, gl. rewrite E2.
        split; [discriminate|]. split; [reflexivity|].
        intros ev [<-|[<-|[]]]; eexists; eexists; reflexivity.
    + rewrite prioritize_empty. intros [= <- <-].
      destruct Hsome as [q [g [Hin Hne]]].
      cbn [In] in Hin.
      destruct Hin as [H|[]]; injection H as <- <-; congruence.
  - rewrite prioritize_uncertain;
      [| discriminate
       | intros z Hz; apply (Hall q1 gl); rewrite E1; exact Hz].
    intros [= <- <-].
    exists q1, gl. rewrite E1.
    split; [discriminate|]. split; [reflexivity|].
    intros ev [<-|[]]; eexists; eexists; reflexivity.
Qed.

Lemma discover_profile_url_uncertain_witness :
  let run :=
    discover_profile_url one_uncertain accept_page no_direct
      "Yelp" "yelp.com" "Acme Dental" "" "Austin" "TX" "" in
  classify "Acme Dental" "" other_place = Uncertain
  /\ exists query gl,
       one_uncertain query gl <> []
       /\ fst run
          = Returned
              (not_found "uncertain_results"
                 [("candidates", results_value (one_uncertain query gl))])
       /\ (forall ev, In ev (snd run) -> exists q g, ev = EvSerper q g).
Proof.
  intros run.
  split; [vm_compute; reflexivity|].
  apply (discover_profile_url_uncertain one_uncertain accept_page no_direct
           "Yelp" "yelp.com" "Acme Dental" "" "Austin" "TX" ""
           (fst run) (snd run)).
  - apply surjective_pairing.
  - vm_compute; reflexivity.
  - intros query gl x [<-|[]]. vm_compute; reflexivity.
  - eexists; eexists. split; [vm_compute; left; reflexivity | discriminate].
Defined.

(** C4 as stated fails: the only result is uncertain and the page check
    would accept it, yet the resolver answers [not_found] without
    fetching the page or querying the directory's search. *)
Lemma discover_profile_url_uncertain_counterexample :
  let run :=
    discover_profile_url one_uncertain accept_page no_direct
      "Yelp" "yelp.com" "Acme Dental" "" "Austin" "TX" "" in
  classify "Acme Dental" "" other_place = Uncertain
  /\ valid (accept_page (r_url other_place) "Acme Dental" "yelp.com") = true
  /\ (exists r, fst run = Returned r
                /\ dict_get "status" r = Some (VStr "not_found")
                /\ dict_get "match_reason" r = Some (VStr "uncertain_results"))
  /\ ~ In (EvValidate (r_url other_place)) (snd run)
  /\ ~ In (EvDirectSearch "yelp.com") (snd run)
  /\ snd run = [EvSerper (String.concat "" ["site:yelp.com ";
                                           quoted "Acme Dental";
                                           " Austin TX"]) "us"].
Proof.
  intros run.
  split; [vm_compute; reflexivity|].
  split; [reflexivity|].
  split; [eexists; split; [vm_compute; reflexivity|split; reflexivity]|].
  assert (Ht : snd run
               = [EvSerper (String.concat "" ["site:yelp.com ";
                                              quoted "Acme Dental";
                                              " Austin TX"]) "us"])
    by (vm_compute; reflexivity).
  rewrite Ht.
  split; [intros [H|[]]; discriminate H|].
  split; [intros [H|[]]; discriminate H|].
  reflexivity.
Qed.

(* ================================================================== *)
(** * Properties of the DirectoryDiscoverer *)
(* ================================================================== *)

(** Reading the text of the answer: it is there exactly when the
    answer has the shape [{"choices": [{"message": {"content": text}}]}],
    and the statements raise otherwise. *)
Lemma content_steps {B : Type} (data : value)
  (k : string -> stmt (list value) B) (t : trace) :
  let steps :=
    (choices <- subscript data "choices" ;;
     choice <- first_item choices ;;
     message <- subscript choice "message" ;;
     content <- subscript message "content" ;;
     content <-
       match content with
       | VStr s => ret (strip_fences s)
       | _ => raise "AttributeError: object has no attribute 'replace'"
       end ;;
     k content) in
  match content_of data with
  | Some s => steps t = k (strip_fences s) t
  | None => exists e, steps t = (Raise e, t)
  end.
Proof.
  cbv zeta. unfold content_of, subscript, first_item, bind, ret, raise.
  destruct data as [| | | | | |kv]; try (eexists; reflexivity).
  destruct (dict_get "choices" kv) as [[| | | | [|c] |[|[] l]|]|];
    try (eexists; reflexivity).
  all: try (destruct (dict_get "message" d) as [[| | | | | |mkv]|];
            try (eexists; reflexivity);
            destruct (dict_get "content" mkv) as [[]|];
            try (eexists; reflexivity); reflexivity).
Qed.

Section DirectoryDiscovererFacts.

Variable urlparse_netloc : string -> outcome string.
Variable url_reachable : string -> bool.
Variable cse_keys : bool.
Variable google_cse : string -> outcome (option (list string)).
Variable research_post : research_request -> http_result.
Variable json_loads : string -> outcome value.

(** An entry that is not an object with textual [name] and [url] makes
    the loop body raise at once. *)
Lemma malformed_raises country c_lower d cleaned seen t :
  is_candidate d = false ->
  exists e,
    validate_candidate urlparse_netloc url_reachable cse_keys google_cse
      country c_lower d cleaned seen t = (Raise e, t).
Proof.
  intros H. unfold validate_candidate, bind at 1, get_stripped.
  destruct d as [| | | | | |kv]; try (eexists; reflexivity).
  unfold is_candidate, text_or_absent in H.
  destruct (dict_get "name" kv) as [[]|] eqn:En; try (eexists; reflexivity).
  - unfold ret at 1. cbv beta iota. unfold bind at 1.
    destruct (dict_get "url" kv) as [[]|] eqn:Eu;
      try (eexists; reflexivity); discriminate.
  - unfold ret at 1. cbv beta iota. unfold bind at 1.
    destruct (dict_get "url" kv) as [[]|] eqn:Eu;
      try (eexists; reflexivity); discriminate.
Qed.

Lemma validate_all_raises country c_lower items :
  forallb is_candidate items = false ->
  forall cleaned seen t,
  exists e t',
    validate_all urlparse_netloc url_reachable cse_keys google_cse
      country c_lower items cleaned seen t = (Raise e, t').
Proof.
  induction items as [|d items IH]; [discriminate|].
  intros H cleaned seen t. cbn [forallb] in H.
  cbn [validate_all]. unfold bind, invoke.
  destruct (is_candidate d) eqn:Ed.
  - cbn [andb] in H.
    destruct (validate_candidate urlparse_netloc url_reachable cse_keys
                google_cse country c_lower d cleaned seen t) as [[a|r|e] t'].
    + apply IH; exact H.
    + apply IH; exact H.
    + eexists; eexists; reflexivity.
  - destruct (malformed_raises country c_lower d cleaned seen t Ed) as [e He].
    rewrite He. eexists; eexists; reflexivity.
Qed.

(** The last statements of the block: a decoded value of the wrong
    shape makes them raise. *)
Lemma validation_raises (directories : value) (country : string)
  (k : list value -> stmt (list value) unit) (t : trace) :
  candidate_list directories = false ->
  exists e t',
    (_ <- len directories ;;
     verified_directories <-
       invoke [] (clean_and_validate_directories urlparse_netloc
                    url_reachable cse_keys google_cse
                    directories (Some country)) ;;
     k verified_directories) t
    = (Raise e, t').
Proof.
  intros H.
  unfold len, clean_and_validate_directories, lower_of, iterate.
  destruct directories as [| | | | s | l | kv];
    try (eexists; eexists; reflexivity).
  - (* a text: its characters are not entries *)
    destruct s as [|c s]; [discriminate|].
    unfold bind, ret, invoke. cbn [List.map list_ascii_of_string].
    destruct (validate_all_raises country (Py.lower country)
                (VStr (String c "")
                 :: List.map (fun c => VStr (String c ""))
                             (list_ascii_of_string s))
                eq_refl [] [] t) as [e [t' He]].
    cbn [Py.str]. rewrite He. eexists; eexists; reflexivity.
  - unfold bind, ret, invoke.
    destruct (validate_all_raises country (Py.lower country) l H [] [] t)
      as [e [t' He]].
    cbn [Py.str]. rewrite He. eexists; eexists; reflexivity.
  - (* an object: its keys are not entries *)
    destruct kv as [|[key v] kv]; [discriminate|].
    unfold bind, ret, invoke. cbn [List.map fst].
    destruct (validate_all_raises country (Py.lower country)
                (VStr key :: List.map (fun p => VStr (fst p)) kv)
                eq_refl [] [] t) as [e [t' He]].
    cbn [Py.str]. rewrite He. eexists; eexists; reflexivity.
Qed.

(** The block up to the request. *)
Lemma try_unfold business_name city state service_type country :
  discover_directories_try urlparse_netloc url_reachable cse_keys google_cse
    research_post json_loads business_name city state service_type country []
  = match country, service_type with
    | Some _, Some _ =>
        let rq := request_of business_name city state service_type country in
        let ev := EvPost "https://api.perplexity.ai/chat/completions"
                         (research_post rq) in
        match research_post rq with
        | HttpError msg => (Raise msg, [ev])
        | HttpResponse status text =>
            read_response urlparse_netloc url_reachable cse_keys google_cse
              json_loads country (status, text) [ev]
        end
    | None, _ =>
        (Raise "AttributeError: 'NoneType' object has no attribute 'lower'",
         [])
    | Some _, None =>
        (Raise "AttributeError: 'NoneType' object has no attribute 'lower'",
         [])
    end.
Proof.
  unfold discover_directories_try.
  destruct country as [c|]; [|reflexivity].
  destruct service_type as [s|]; [|reflexivity].
  cbv zeta.
  unfold lower_of, bind at 1, ret at 1. cbv beta iota.
  unfold bind at 1, ret at 1. cbv beta iota.
  unfold bind at 1, ret at 1. cbv beta iota.
  unfold bind at 1, post. cbn [List.app].
  destruct (research_post _); reflexivity.
Qed.

(** The function returns what the block returns, and the empty list
    when the block raises. *)
Lemma discover_directories_run business_name city state service_type country :
  discover_directories urlparse_netloc url_reachable cse_keys google_cse
    research_post json_loads business_name city state service_type country
  = let run :=
      discover_directories_try urlparse_netloc url_reachable cse_keys
        google_cse research_post json_loads
        business_name city state service_type country [] in
    (Returned match fst run with Return r => r | _ => [] end, snd run).
Proof.
  unfold discover_directories, call, discover_directories_body, try_.
  destruct (discover_directories_try _ _ _ _ _ _ _ _ _ _ _ _)
    as [[a|r|e] t]; reflexivity.
Qed.

(** An answer with a status other than 200 ends the function with the
    empty list. *)
Lemma read_response_other country status text t :
  status <> 200 ->
  read_response urlparse_netloc url_reachable cse_keys google_cse json_loads
    country (status, text) t
  = (Return [], t).
Proof.
  intros H. unfold read_response, bind at 1, when. cbn [fst].
  apply Z.eqb_neq in H. rewrite H. reflexivity.
Qed.

(** An answer with status 200: the block raises unless the answer
    decodes, and then goes on to the validation. *)
Lemma read_response_200 c text t :
  match decoded_directories json_loads text with
  | None =>
      exists e,
        read_response urlparse_netloc url_reachable cse_keys google_cse
          json_loads (Some c) (200, text) t
        = (Raise e, t)
  | Some directories =>
      read_response urlparse_netloc url_reachable cse_keys google_cse
        json_loads (Some c) (200, text) t
      = (_ <- len directories ;;
         verified_directories <-
           invoke [] (clean_and_validate_directories urlparse_netloc
                        url_reachable cse_keys google_cse
                        directories (Some c)) ;;
         return_ verified_directories) t
  end.
Proof.
  assert (Hstart :
    read_response urlparse_netloc url_reachable cse_keys google_cse
      json_loads (Some c) (200, text) t
    = match json_loads text with
      | Returned data =>
          (choices <- subscript data "choices" ;;
           choice <- first_item choices ;;
           message <- subscript choice "message" ;;
           content <- subscript message "content" ;;
           content <-
             match content with
             | VStr s => ret (strip_fences s)
             | _ => raise "AttributeError: object has no attribute 'replace'"
             end ;;
           directories_data <- lift (json_loads content) ;;
           let directories := directories_of directories_data in
           _ <- len directories ;;
           verified_directories <-
             invoke [] (clean_and_validate_directories urlparse_netloc
                          url_reachable cse_keys google_cse
                          directories (Some c)) ;;
           return_ verified_directories) t
      | Raised e => (Raise e, t)
      end).
  { unfold read_response, bind at 1, when.
    cbn [fst snd]. change (negb (200 =? 200)) with false. cbv iota.
    unfold ret at 1. cbv beta iota.
    unfold bind at 1, try_, lift.
    destruct (json_loads text) as [data|e]; reflexivity. }
  rewrite Hstart. clear Hstart.
  unfold decoded_directories.
  destruct (json_loads text) as [data|e]; [|eexists; reflexivity].
  epose proof (content_steps (B := unit) data _ t) as Hsteps.
  cbv zeta in Hsteps.
  destruct (content_of data) as [content|].
  2:{ destruct Hsteps as [e Hsteps]. exists e. exact Hsteps. }
  destruct (json_loads (strip_fences content)) as [decoded|e] eqn:Edecoded.
  - rewrite Hsteps. unfold bind at 1, lift. rewrite Edecoded.
    reflexivity.
  - exists e. rewrite Hsteps. unfold bind at 1, lift. rewrite Edecoded.
    reflexivity.
Qed.

End DirectoryDiscovererFacts.

(** C9.  [discover_directories] never raises: it always returns a
    list.  The list is empty whenever the block under [try:] raises,
    and so whenever an argument is missing, the request fails or is
    answered with a status other than 200, the answer is not JSON or
    lacks the text, the text is not JSON, or the decoded value is not a
    list of entries; it is empty as well for an empty list. *)
Theorem discover_directories_degrades
  (urlparse_netloc : string -> outcome string)
  (url_reachable : string -> bool) (cse_keys : bool)
  (google_cse : string -> outcome (option (list string)))
  (research_post : research_request -> http_result)
  (json_loads : string -> outcome value)
  (business_name city state : string) (service_type country : option string) :
  let rq := request_of business_name city state service_type country in
  exists l t,
    discover_directories urlparse_netloc url_reachable cse_keys google_cse
      research_post json_loads business_name city state service_type country
    = (Returned l, t)
    /\ (forall e t',
          discover_directories_try urlparse_netloc url_reachable cse_keys
            google_cse research_post json_loads
            business_name city state service_type country []
          = (Raise e, t') -> l = [])
    /\ (service_type = None \/ country = None -> l = [])
    /\ (forall msg, research_post rq = HttpError msg -> l = [])
    /\ (forall status text,
          research_post rq = HttpResponse status text ->
          status <> 200 -> l = [])
    /\ (forall text,
          research_post rq = HttpResponse 200 text ->
          (forall e, json_loads text = Raised e -> l = [])
          /\ (forall data,
                json_loads text = Returned data ->
                (content_of data = None -> l = [])
                /\ (forall content,
                      content_of data = Some content ->
                      (forall e,
                          json_loads (strip_fences content) = Raised e ->
                          l = [])
                      /\ (forall decoded,
                            json_loads (strip_fences content)
                            = Returned decoded ->
                            (candidate_list (directories_of decoded) = false
                             -> l = [])
                            /\ (directories_of decoded = VList []
                                -> l = []))))).
Proof.
  intros rq.
  rewrite discover_directories_run. cbv zeta.
  set (run := discover_directories_try _ _ _ _ _ _ _ _ _ _ _ _).
  exists (match fst run with Return r => r | _ => [] end), (snd run).
  split; [reflexivity|].
  split; [intros e t' ->; reflexivity|].
  assert (Hrun := try_unfold urlparse_netloc url_reachable cse_keys google_cse
                    research_post json_loads
                    business_name city state service_type country).
  fold run in Hrun. fold rq in Hrun.
  destruct country as [c|], service_type as [s|];
    try (rewrite Hrun; repeat split; intros; reflexivity).
  cbv zeta in Hrun.
  split; [intros [H|H]; discriminate H|].
  destruct (research_post rq) as [msg|status text] eqn:Epost;
    [rewrite Hrun; repeat split; intros; reflexivity|].
  split; [intros msg H; discriminate H|].
  set (t0 := [EvPost "https://api.perplexity.ai/chat/completions"
                     (HttpResponse status text)]) in Hrun.
  destruct (Z.eq_dec status 200) as [->|Hne].
  2:{ rewrite Hrun, read_response_other by exact Hne.
      repeat split; intros; reflexivity. }
  split.
  { intros status' text' [= <- <-] Hne. exfalso. apply Hne. reflexivity. }
  intros text' [= <-].
  assert (H200 := read_response_200 urlparse_netloc url_reachable cse_keys
                    google_cse json_loads c text t0).
  unfold decoded_directories in H200.
  rewrite Hrun. clear Hrun run.
  split.
  { intros e He. rewrite He in H200. destruct H200 as [e' ->]. reflexivity. }
  intros data Hdata. rewrite Hdata in H200.
  split.
  { intros Hc. rewrite Hc in H200. destruct H200 as [e' ->]. reflexivity. }
  intros content Hcontent. rewrite Hcontent in H200.
  split.
  { intros e He. rewrite He in H200. destruct H200 as [e' ->]. reflexivity. }
  intros decoded Hdecoded. rewrite Hdecoded in H200.
  rewrite H200. clear H200.
  split.
  - intros Hshape.
    destruct (validation_raises urlparse_netloc url_reachable cse_keys
                google_cse (directories_of decoded) c
                (fun verified_directories => return_ verified_directories)
                t0 Hshape) as [e [t' ->]].
    reflexivity.
  - intros ->. reflexivity.
Qed.

Lemma discover_directories_degrades_witness :
  exists l t,
    discover_directories UrlLib.netloc all_reachable false no_cse
      garbled no_json "Acme Dental" "Austin" "TX"
      (Some "dentist") (Some "United States")
    = (Returned l, t)
    /\ l = [].
Proof.
  destruct (discover_directories_degrades UrlLib.netloc all_reachable false
              no_cse garbled no_json "Acme Dental" "Austin" "TX"
              (Some "dentist") (Some "United States"))
    as [l [t [Hrun [_ [_ [_ [_ Hanswer]]]]]]].
  exists l, t. split; [exact Hrun|].
  destruct (Hanswer "<html>Bad Gateway</html>" eq_refl) as [Hjson _].
  apply (Hjson "JSONDecodeError"). reflexivity.
Defined.

(** The function at work: a well-formed answer gives the validated
    candidate, and the same answer with one entry that has no textual
    name gives the empty list, the candidate validated before it
    included. *)
Example discover_directories_good :
  discover_directories UrlLib.netloc all_reachable false no_cse
    (answer_with "good") sample_json "Acme Removals" "Sydney" "NSW"
    (Some "moving company") (Some "Australia")
  = (Returned [best_removalists],
     [EvPost "https://api.perplexity.ai/chat/completions"
             (HttpResponse 200 "completion:good");
      EvReachable "https://bestremovalists.com.au"]).
Proof. vm_compute. reflexivity. Qed.

Example discover_directories_bad_entry :
  discover_directories UrlLib.netloc all_reachable false no_cse
    (answer_with "bad") sample_json "Acme Removals" "Sydney" "NSW"
    (Some "moving company") (Some "Australia")
  = (Returned [],
     [EvPost "https://api.perplexity.ai/chat/completions"
             (HttpResponse 200 "completion:bad");
      EvReachable "https://bestremovalists.com.au"]).
Proof. vm_compute. reflexivity. Qed.

Example request_of_localizes :
  rq_localized_service
    (request_of "Acme Removals" "Sydney" "NSW"
                (Some "moving company") (Some "Australia"))
  = "Removalists".
Proof. vm_compute. reflexivity. Qed.

(* ================================================================== *)
(** * Further properties of the NapMatcher *)
(* ================================================================== *)














(* ================================================================== *)
(** * Properties of the cascading fetch *)
(* ================================================================== *)

Lemma any_in_member (key s : string) (keys : list string) :
  In key keys -> Py.contains key s = true -> Py.any_in keys s = true.
Proof.
  intros Hin Hc. unfold Py.any_in. apply existsb_exists.
  exists key. split; assumption.
Qed.

Lemma stealth_render_accepts
  (camoufox : string -> outcome string) (url content : string) :
  stealth_render camoufox url = Some content ->
  (500 < String.length content)%nat
  /\ (Py.contains "verify you are human" (Py.lower content) = true ->
      (5000 <= String.length content)%nat).
Proof.
  unfold stealth_render.
  destruct (camoufox url) as [page|e]; [|discriminate].
  destruct (Nat.ltb 500 (String.length page)) eqn:Elen; [|discriminate].
  destruct (Nat.ltb (String.length page) 5000
            && Py.any_in CAMOUFOX_BLOCK_INDICATORS (Py.lower page))
    eqn:Eblock; cbn [negb]; [discriminate|].
  intros [= <-]. apply Nat.ltb_lt in Elen. split; [exact Elen|].
  intros Hhuman.
  rewrite (any_in_member "verify you are human" _ CAMOUFOX_BLOCK_INDICATORS)
    in Eblock; [|simpl; tauto|exact Hhuman].
  rewrite andb_true_r in Eblock. apply Nat.ltb_ge in Eblock. exact Eblock.
Qed.

Lemma evasive_http_accepts
  (cloudscraper_get : string -> http_result) (url content : string) :
  evasive_http cloudscraper_get url = Some content ->
  (200 < String.length content)%nat
  /\ Py.contains "verify you are human" (Py.lower content) = false.
Proof.
  unfold evasive_http.
  destruct (cloudscraper_get url) as [e|status text]; [discriminate|].
  destruct ((status =? 200) && Nat.ltb 200 (String.length text)) eqn:E;
    [|discriminate].
  destruct (Py.any_in CLOUDSCRAPER_BLOCK_INDICATORS (Py.lower text)) eqn:Eind;
    cbn [negb]; [discriminate|].
  intros [= <-]. apply andb_prop in E. destruct E as [_ E].
  apply Nat.ltb_lt in E. split; [exact E|].
  destruct (Py.contains "verify you are human" (Py.lower text)) eqn:Ec;
    [|reflexivity].
  rewrite (any_in_member "verify you are human" _
             CLOUDSCRAPER_BLOCK_INDICATORS) in Eind;
    [discriminate|simpl; tauto|exact Ec].
Qed.

Lemma reader_accepts
  (reader_get : nat -> string -> http_result) (left attempt : nat)
  (url : string) :
  reader reader_get left attempt url = ""
  \/ ((100 < String.length (reader reader_get left attempt url))%nat
      /\ Py.contains "verify you are human"
           (Py.lower (reader reader_get left attempt url)) = false).
Proof.
  revert attempt. induction left as [|left IH]; intros attempt.
  - left. reflexivity.
  - cbn [reader].
    destruct (reader_get attempt _) as [e|status text]; [apply IH|].
    destruct (_ && _ && _ && _) eqn:E; [|apply IH].
    right. apply andb_prop in E. destruct E as [E _].
    apply andb_prop in E. destruct E as [E E3].
    apply andb_prop in E. destruct E as [_ E2].
    apply Nat.ltb_lt in E2. apply negb_true_iff in E3.
    split; assumption.
Qed.

(** X3.  What [scrape_content] returns is either empty or longer than
    100 characters, and content that has the phrase "verify you are
    human" is returned only when it has 5000 characters or more (a page
    rendered by the browser). *)
Theorem scrape_content_accepts
  (camoufox : string -> outcome string)
  (cloudscraper_get : string -> http_result)
  (reader_get : nat -> string -> http_result) (url : string) :
  let content := scrape_content camoufox cloudscraper_get reader_get url in
  content = ""
  \/ ((100 < String.length content)%nat
      /\ (Py.contains "verify you are human" (Py.lower content) = true ->
          (5000 <= String.length content)%nat)).
Proof.
  cbv zeta. unfold scrape_content.
  destruct (stealth_render camoufox url) as [c1|] eqn:E1.
  - right. destruct (stealth_render_accepts _ _ _ E1) as [Hlen Hhuman].
    split; [lia | exact Hhuman].
  - destruct (evasive_http cloudscraper_get url) as [c2|] eqn:E2.
    + right. destruct (evasive_http_accepts _ _ _ E2) as [Hlen Hhuman].
      split; [lia | congruence].
    + destruct (reader_accepts reader_get 2 0 url) as [H|[Hlen Hhuman]];
        [left; exact H | right].
      split; [exact Hlen | congruence].
Qed.

(** X4.  When the browser raises, the evasive request raises and both
    requests to the reader service raise, [verify_nap] on a valid URL
    returns the record of a failed fetch: status [error], confidence 0,
    details "Could not scrape page", and a null website flag. *)
Theorem verify_nap_fetch_failure
  (camoufox : string -> outcome string)
  (cloudscraper_get : string -> http_result)
  (reader_get : nat -> string -> http_result)
  (partial_ratio : string -> string -> Q)
  (urlparse_netloc : string -> outcome string)
  (url business_name phone : option string)
  (address_parts : list (option string)) (website_url : option string) :
  invalid_url url = false ->
  (exists e, camoufox (Py.str url) = Raised e) ->
  (exists e, cloudscraper_get (Py.str url) = HttpError e) ->
  (forall attempt,
      exists e,
        reader_get attempt ("https://r.jina.ai/" ++ Py.str url)
        = HttpError e) ->
  exists r,
    verify_nap camoufox cloudscraper_get reader_get partial_ratio
               urlparse_netloc url business_name phone address_parts
               website_url
    = (Returned r, [EvScrape (Py.str url)])
    /\ dict_get "status" r = Some (VStr "error")
    /\ dict_get "confidence" r = Some (VInt 0)
    /\ dict_get "details" r = Some (VStr "Could not scrape page")
    /\ dict_get "nap_website_ok" r = Some VNone
    /\ dict_get "nap_phone_ok" r = None.
Proof.
  intros Hurl [e1 H1] [e2 H2] H3.
  assert (Hempty : scrape_content camoufox cloudscraper_get reader_get
                     (Py.str url) = "").
  { unfold scrape_content, stealth_render, evasive_http.
    rewrite H1, H2. cbn [reader].
    destruct (H3 0%nat) as [e3 ->]. destruct (H3 1%nat) as [e4 ->].
    reflexivity. }
  rewrite verify_nap_unfold, Hurl, Hempty.
  exists scrape_error_result. repeat split; reflexivity.
Qed.

Lemma verify_nap_fetch_failure_witness :
  exists r,
    verify_nap no_browser no_cloudscraper (fun _ _ => HttpError "timeout")
               fallback_partial_ratio UrlLib.netloc
               acme_url (Some "Acme Dental") (Some "512-555-0100") [] None
    = (Returned r, [EvScrape (Py.str acme_url)])
    /\ dict_get "status" r = Some (VStr "error")
    /\ dict_get "confidence" r = Some (VInt 0)
    /\ dict_get "details" r = Some (VStr "Could not scrape page")
    /\ dict_get "nap_website_ok" r = Some VNone
    /\ dict_get "nap_phone_ok" r = None.
Proof.
  apply (verify_nap_fetch_failure no_browser no_cloudscraper
           (fun _ _ => HttpError "timeout") fallback_partial_ratio
           UrlLib.netloc acme_url).
  - vm_compute; reflexivity.
  - eexists; reflexivity.
  - eexists; reflexivity.
  - intros attempt. eexists; reflexivity.
Defined.

(** X5.  The status of a record returned by [verify_nap] is
    [not_found], [error] or [found], never [blocked]: [not_found]
    exactly when the URL is rejected, [error] exactly when the fetch
    gave nothing, and [found] for every page that was fetched, also
    when nothing on it matches.  The page is fetched at most once, and
    when [verify_nap] raises it is because [urlparse] raised on the URL
    of a blocked page. *)
Theorem verify_nap_statuses
  (camoufox : string -> outcome string)
  (cloudscraper_get : string -> http_result)
  (reader_get : nat -> string -> http_result)
  (partial_ratio : string -> string -> Q)
  (urlparse_netloc : string -> outcome string)
  (url business_name phone : option string)
  (address_parts : list (option string)) (website_url : option string) :
  let run :=
    verify_nap camoufox cloudscraper_get reader_get partial_ratio
               urlparse_netloc url business_name phone address_parts
               website_url in
  let content :=
    scrape_content camoufox cloudscraper_get reader_get (Py.str url) in
  (snd run = [] \/ snd run = [EvScrape (Py.str url)])
  /\ match fst run with
     | Returned r =>
         (dict_get "status" r = Some (VStr "not_found")
          /\ invalid_url url = true /\ snd run = [])
         \/ (dict_get "status" r = Some (VStr "error")
             /\ invalid_url url = false /\ content = "")
         \/ (dict_get "status" r = Some (VStr "found")
             /\ invalid_url url = false /\ content <> "")
     | Raised e =>
         urlparse_netloc (Py.str url) = Raised e
         /\ is_blocked (normalize_text (Some content)) = true
     end.
Proof.
  cbv zeta. rewrite verify_nap_unfold.
  destruct (invalid_url url).
  { split; [left; reflexivity|]. left. repeat split. }
  destruct (String.eqb _ "") eqn:Econtent.
  { split; [right; reflexivity|]. right. left.
    apply String.eqb_eq in Econtent. repeat split. exact Econtent. }
  apply String.eqb_neq in Econtent.
  destruct (is_blocked _) eqn:Eb.
  { destruct (urlparse_netloc _) eqn:Ep.
    - split; [right; reflexivity|]. right. right.
      repeat split. exact Econtent.
    - split; [right; reflexivity|]. split; reflexivity. }
  split; [right; reflexivity|]. right. right.
  repeat split. exact Econtent.
Qed.

(** X6.  [perform_nap_verification] never checks the website: the
    website flag of its record is never a boolean, whatever the
    project holds.  It verifies the profile URL of the row, and the
    directory's website only when the row has no profile URL. *)
Theorem perform_nap_verification_website
  (camoufox : string -> outcome string)
  (cloudscraper_get : string -> http_result)
  (reader_get : nat -> string -> http_result)
  (partial_ratio : string -> string -> Q)
  (urlparse_netloc : string -> outcome string)
  (audit_row project_data : row) (r : dict) (t : trace) :
  perform_nap_verification camoufox cloudscraper_get reader_get
    partial_ratio urlparse_netloc audit_row project_data = (Returned r, t) ->
  (forall b, dict_get "nap_website_ok" r <> Some (VBool b))
  /\ (forall u, In (EvScrape u) t ->
        (Py.truthy (row_get "directory_profile_url" audit_row) = true
         /\ row_get "directory_profile_url" audit_row = Some u)
        \/ (Py.truthy (row_get "directory_profile_url" audit_row) = false
            /\ row_get "directory_website" audit_row = Some u)).
Proof.
  unfold perform_nap_verification. rewrite verify_nap_unfold.
  set (url := or_else _ _).
  assert (Hurl : forall u, invalid_url url = false -> Py.str url = u ->
            (Py.truthy (row_get "directory_profile_url" audit_row) = true
             /\ row_get "directory_profile_url" audit_row = Some u)
            \/ (Py.truthy (row_get "directory_profile_url" audit_row) = false
                /\ row_get "directory_website" audit_row = Some u)).
  { intros u Hv Hu. unfold url, or_else in *.
    destruct (Py.truthy (row_get "directory_profile_url" audit_row)) eqn:E.
    - left. split; [reflexivity|].
      destruct (row_get "directory_profile_url" audit_row); [|discriminate].
      simpl in Hu. congruence.
    - right. split; [reflexivity|].
      destruct (row_get "directory_website" audit_row); [|discriminate].
      simpl in Hu. congruence. }
  destruct (invalid_url url) eqn:Ev.
  { intros [= <- <-]. split; [intros b; discriminate|intros u []]. }
  destruct (String.eqb _ "").
  { intros [= <- <-]. split; [intros b; discriminate|].
    intros u [[= <-]|[]]. apply Hurl; reflexivity. }
  destruct (is_blocked _).
  { destruct (urlparse_netloc _); intros [= <- <-].
    split; [intros b; discriminate|].
    intros u [[= <-]|[]]. apply Hurl; reflexivity. }
  intros [= <- <-]. split; [intros b; discriminate|].
  intros u [[= <-]|[]]. apply Hurl; reflexivity.
Qed.

Lemma perform_nap_verification_website_witness :
  exists r t,
    perform_nap_verification no_browser no_cloudscraper
      (reader_serves acme_page) fallback_partial_ratio UrlLib.netloc
      [("directory_profile_url", None);
       ("directory_website", Some "https://www.yelp.com")]
      [("business_name", Some "Acme Dental");
       ("phone", Some "512-555-0100");
       ("website", Some "https://www.acmedental.com")]
    = (Returned r, t)
    /\ (forall b, dict_get "nap_website_ok" r <> Some (VBool b))
    /\ (forall u, In (EvScrape u) t -> u = "https://www.yelp.com").
Proof.
  set (run := perform_nap_verification _ _ _ _ _ _ _).
  assert (E : run
              = (Returned match fst run with
                          | Returned r => r
                          | Raised _ => []
                          end, snd run)) by (vm_compute; reflexivity).
  eexists; eexists. split; [exact E|].
  destruct (perform_nap_verification_website _ _ _ _ _ _ _ _ _ E)
    as [Hflag Hurl].
  split; [exact Hflag|]. intros u Hu.
  destruct (Hurl u Hu) as [[Htruthy _]|[_ Hwebsite]].
  - vm_compute in Htruthy. discriminate.
  - vm_compute in Hwebsite. congruence.
Defined.

(* ================================================================== *)
(** * Further properties of the verification of a URL *)
(* ================================================================== *)

Lemma verdict_verified (log : list string) (method : string) :
  In method ["jina"; "requests"; "slug_match"; "slug_parts_match"] ->
  verdict [("verified", VBool true); ("method", VStr method);
           ("log", log_value log)].
Proof.
  intros Hin. left. cbn in Hin.
  destruct Hin as [<-|[<-|[<-|[<-|[]]]]];
    (split; [reflexivity|split; [reflexivity|]]);
    eexists; (split; [reflexivity|]); cbn; tauto.
Qed.

Lemma verdict_rejected (log : list string) (reason : string) :
  In reason ["Dead Link (404/410)"; "Text not found (Jina)";
             "Verification failed"] ->
  verdict [("verified", VBool false); ("reason", VStr reason);
           ("log", log_value log)].
Proof.
  intros Hin. right. cbn in Hin.
  destruct Hin as [<-|[<-|[<-|[]]]];
    (split; [reflexivity|split; [reflexivity|]]);
    eexists; (split; [reflexivity|]); cbn; tauto.
Qed.

(** From any trace, the body of [verify_url] ends in a [return] of a
    verdict, after at most three requests. *)
Lemma verify_url_body_returns
  (http_get : nat -> string -> http_result)
  (url required_text : option string) (t : trace) :
  exists r evs,
    verify_url_body http_get url required_text t
    = (Return r, (t ++ evs)%list)
    /\ verdict r
    /\ (requests evs <= 3)%nat
    /\ (forall ev, In ev evs ->
          ev = EvSlugMatch \/ exists u a, ev = EvGet u a).
Proof.
  unfold verify_url_body.
  cbv beta iota zeta delta [bind try_ when get ret return_ emit fst snd].
  destruct (negb (Py.truthy url) || negb (Py.truthy required_text)).
  { eexists. exists []. rewrite app_nil_r. split; [reflexivity|].
    split; [|split; [cbn; lia|intros ev []]].
    right. split; [reflexivity|split; [reflexivity|]].
    eexists. split; [reflexivity|]. cbn. tauto. }
  set (u := Py.str url) in *.
  set (clean_req := Py.strip _).
  set (name_parts := Py.split _).
  repeat
    (match goal with
     | |- context [match http_get ?n ?x with _ => _ end] =>
         let E := fresh "Eget" in
         destruct (http_get n x) eqn:E
     | |- context [if ?b then _ else _] =>
         let E := fresh "Eif" in
         destruct b eqn:E
     end; cbv beta iota).
  all: rewrite <- ?app_assoc; cbn [List.app].
  all: eexists; eexists; split; [reflexivity|].
  all: split;
         [first [apply verdict_verified; cbn; tauto
                | apply verdict_rejected; cbn; tauto]|].
  all: split; [cbn; lia|].
  all: cbn [In]; intros ev Hev;
       repeat match goal with
         | H : _ \/ _ |- _ => destruct H as [<-|H]
         | H : False |- _ => destruct H
         end;
       first [left; reflexivity | right; eexists; eexists; reflexivity].
Qed.

(** X7.  [verify_url] never raises, whatever the network does.  It
    returns a verdict: verified with one of the four methods, or not
    verified with one of the four reasons; it makes at most three
    requests, and only requests and the slug comparison. *)
Theorem verify_url_verdict
  (http_get : nat -> string -> http_result)
  (url required_text : option string) :
  exists r t,
    verify_url http_get url required_text = (Returned r, t)
    /\ verdict r
    /\ (requests t <= 3)%nat.
Proof.
  destruct (verify_url_body_returns http_get url required_text [])
    as (r & evs & Hrun & Hverdict & Hrequests & _).
  exists r, evs. unfold verify_url, call. rewrite Hrun.
  repeat split; assumption.
Qed.

(** Discharges a leaf of the execution of [verify_url] in which the
    answer 200 of the reader cannot be the request of the hypothesis. *)
Ltac not_the_reader :=
  repeat match goal with
    | H : _ \/ _ |- _ => destruct H
    | H : False |- _ => destruct H
    | H : EvSlugMatch = EvGet _ _ |- _ => discriminate H
    | H : EvGet _ (HttpError _) = EvGet _ (HttpResponse _ _) |- _ =>
        discriminate H
    | H : EvGet ?v _ = EvGet (_ ++ ?v) _ |- _ =>
        solve [exfalso; injection H as H _; symmetry in H;
               exact (jina_url_differs v H)]
    | H : EvGet _ (HttpResponse ?s _) = EvGet _ (HttpResponse 200 _),
      E : (?s =? 200) = false |- _ =>
        exfalso; injection H as H _; rewrite H in E; discriminate E
    end.

(** X8.  The reader's verdict is final.  When the reader service
    answers the request for the page with status 200, [verify_url]
    returns at once: verified exactly when [check_text] accepts the
    reader's text.  The target is not requested again and the slug of
    the URL is not compared, also when the text is rejected. *)
Theorem verify_url_reader_final
  (http_get : nat -> string -> http_result)
  (url required_text : option string) (r : outcome dict) (t : trace)
  (body : string) :
  let reader_request :=
    EvGet ("https://r.jina.ai/" ++ Py.str url) (HttpResponse 200 body) in
  let clean_req :=
    Py.strip (Py.replace "dr " ""
                (Py.replace "dr." "" (Py.lower (Py.str required_text)))) in
  verify_url http_get url required_text = (r, t) ->
  In reader_request t ->
  (exists record,
      r = Returned record
      /\ dict_get "verified" record
         = Some (VBool (check_text body clean_req (Py.split clean_req))))
  /\ (exists t0, t = (t0 ++ [reader_request])%list)
  /\ ~ In EvSlugMatch t
  /\ (requests t <= 2)%nat.
Proof.
  cbv zeta. intros Hrun Hin.
  revert Hrun.
  unfold verify_url, call, verify_url_body.
  cbv beta iota zeta
      delta [bind try_ when get ret return_ emit fst snd List.length List.app].
  destruct (negb (Py.truthy url) || negb (Py.truthy required_text)).
  { intros [= <- <-]. destruct Hin. }
  set (u := Py.str url) in *.
  set (clean_req := Py.strip _) in *.
  set (name_parts := Py.split _) in *.
  repeat
    (match goal with
     | |- context [match http_get ?n ?x with _ => _ end] =>
         let E := fresh "Eget" in
         destruct (http_get n x) eqn:E
     | |- context [if ?b then _ else _] =>
         let E := fresh "Eif" in
         destruct b eqn:E
     end; cbv beta iota).
  all: intros [= <- <-].
  all: cbn [In] in Hin.
  all: not_the_reader.
  all: match goal with
       | H : EvGet _ (HttpResponse _ ?text) = EvGet _ (HttpResponse _ _),
         E : check_text ?text _ _ = _ |- _ =>
           injection H as Hstatus Hbody; rewrite <- Hbody, <- ?Hstatus, E
       end.
  all: split; [eexists; split; reflexivity|].
  all: split;
         [first [exists []; reflexivity
                | eexists [_]; reflexivity
                | eexists [_; _]; reflexivity]|].
  all: split; [cbn [In]; intuition discriminate | cbn; lia].
Qed.

(** The slug of the page has the name and the target answers 403, but
    the reader served a page that says the profile was not found. *)
Lemma verify_url_reader_final_witness :
  let run :=
    verify_url (through_reader "Sorry, profile not found.")
               dead_profile (Some "Acme Dental") in
  Py.contains "acme-dental" (Py.str dead_profile) = true
  /\ (exists record,
         fst run = Returned record
         /\ dict_get "verified" record = Some (VBool false))
  /\ (exists t0,
         snd run
         = (t0 ++ [EvGet ("https://r.jina.ai/" ++ Py.str dead_profile)
                         (HttpResponse 200 "Sorry, profile not found.")])%list)
  /\ ~ In EvSlugMatch (snd run)
  /\ (requests (snd run) <= 2)%nat.
Proof.
  intros run.
  split; [vm_compute; reflexivity|].
  apply (verify_url_reader_final (through_reader "Sorry, profile not found.")
           dead_profile (Some "Acme Dental") (fst run) (snd run)
           "Sorry, profile not found.").
  - apply surjective_pairing.
  - vm_compute; tauto.
Defined.

(* ================================================================== *)
(** * Lines of a page *)
(* ================================================================== *)

Lemma rev_onto_rev_onto (a b c : string) :
  Py.rev_onto (Py.rev_onto a b) c = Py.rev_onto b (a ++ c).
Proof.
  revert b c. induction a as [|x a IH]; intros b c; [reflexivity|].
  cbn [Py.rev_onto]. rewrite IH. reflexivity.
Qed.

Lemma append_empty (s : string) : s ++ "" = s.
Proof. induction s as [|c s IH]; [reflexivity|]. cbn. rewrite IH. reflexivity. Qed.

Lemma append_assoc (a b c : string) : (a ++ b) ++ c = a ++ (b ++ c).
Proof.
  induction a as [|x a IH]; [reflexivity|]. cbn. rewrite IH. reflexivity.
Qed.

Lemma rev_rev_onto (cur a : string) :
  Py.rev (Py.rev_onto a cur) = Py.rev cur ++ a.
Proof.
  unfold Py.rev. rewrite rev_onto_rev_onto, append_empty.
  revert a. induction cur as [|x cur IH]; intros a; [reflexivity|].
  cbn [Py.rev_onto]. rewrite (IH (String x "")), (IH (String x a)).
  rewrite append_assoc. reflexivity.
Qed.

(** The first line of a text: [first] has no separator and a separator
    follows it. *)
Lemma split_char_first_line (sep : ascii -> bool) (c : ascii)
  (cur first rest : string) :
  Py.filter sep first = "" ->
  sep c = true ->
  Py.split_char sep cur (first ++ String c rest)
  = (Py.rev cur ++ first) :: Py.split_char sep "" rest.
Proof.
  revert cur. induction first as [|x first IH]; intros cur Hfirst Hc.
  - cbn. rewrite Hc, append_empty. reflexivity.
  - cbn in Hfirst |- *. destruct (sep x); [discriminate|].
    rewrite (IH (String x cur) Hfirst Hc).
    change (Py.rev (String x cur)) with (Py.rev (Py.rev_onto (String x "") cur)).
    rewrite rev_rev_onto, append_assoc. reflexivity.
Qed.

Lemma lower_append (a b : string) :
  Py.lower (a ++ b) = Py.lower a ++ Py.lower b.
Proof.
  unfold Py.lower. induction a as [|x a IH]; [reflexivity|].
  cbn. rewrite IH. reflexivity.
Qed.

Lemma lower_char_newline (c : ascii) :
  Ascii.eqb newline (Py.lower_char c) = Ascii.eqb newline c.
Proof.
  destruct c as [[] [] [] [] [] [] [] []]; vm_compute; reflexivity.
Qed.

Lemma lower_one_line (s : string) :
  Py.filter (Ascii.eqb newline) s = "" ->
  Py.filter (Ascii.eqb newline) (Py.lower s) = "".
Proof.
  unfold Py.lower. induction s as [|x s IH]; [reflexivity|].
  cbn [Py.filter Py.map]. rewrite lower_char_newline.
  destruct (Ascii.eqb newline x); [discriminate|exact IH].
Qed.

(** X9.  [is_soft_404] does not look at the metadata of the reader: a
    first line that starts with "URL Source:" or "Title:" (in any
    letter case) is dropped, whatever error phrase it has. *)
Theorem is_soft_404_skips_metadata (meta rest : string) :
  Py.filter (Ascii.eqb newline) meta = "" ->
  Py.startswith "url source:" (Py.lower meta) = true
  \/ Py.startswith "title:" (Py.lower meta) = true ->
  is_soft_404 (meta ++ String newline rest) = is_soft_404 rest.
Proof.
  intros Hline Hmeta. unfold is_soft_404.
  rewrite lower_append.
  change (Py.lower (String newline rest))
    with (String newline (Py.lower rest)).
  rewrite split_char_first_line;
    [|apply lower_one_line; exact Hline|reflexivity].
  change (Py.rev "" ++ Py.lower meta) with (Py.lower meta).
  cbn [List.filter].
  destruct Hmeta as [-> | ->]; [cbn [negb andb]; reflexivity|].
  cbn [negb]. rewrite andb_false_r. reflexivity.
Qed.

Lemma is_soft_404_skips_metadata_witness :
  Py.contains "page not found"
    (Py.lower "Title: Page Not Found Dental - Austin") = true
  /\ is_soft_404
       ("Title: Page Not Found Dental - Austin"
        ++ String newline "Acme Dental, Austin")
     = is_soft_404 "Acme Dental, Austin"
  /\ is_soft_404 "Acme Dental, Austin" = false.
Proof.
  split; [vm_compute; reflexivity|].
  split; [|vm_compute; reflexivity].
  apply (is_soft_404_skips_metadata
           "Title: Page Not Found Dental - Austin"
           "Acme Dental, Austin").
  - vm_compute; reflexivity.
  - right; vm_compute; reflexivity.
Defined.

(* ================================================================== *)
(** * Further properties of the ProfileResolver *)
(* ================================================================== *)

(** The first element that a filter keeps. *)
Lemma filter_first {A} (f : A -> bool) (l : list A) (best : A)
  (rest : list A) :
  List.filter f l = best :: rest ->
  exists before after,
    l = (before ++ best :: after)%list
    /\ f best = true
    /\ (forall x, In x before -> f x = false).
Proof.
  induction l as [|a l IH]; [discriminate|].
  cbn [List.filter]. destruct (f a) eqn:Ea.
  - intros [= -> _]. exists [], l.
    split; [reflexivity|]. split; [exact Ea|]. intros x [].
  - intros H. destruct (IH H) as (before & after & -> & Hbest & Hbefore).
    exists (a :: before), after.
    split; [reflexivity|]. split; [exact Hbest|].
    intros x [<-|Hx]; [exact Ea|apply Hbefore; exact Hx].
Qed.

Lemma filter_nil {A} (f : A -> bool) (l : list A) :
  List.filter f l = [] -> forall x, In x l -> f x = false.
Proof.
  induction l as [|a l IH]; [intros _ x []|].
  cbn [List.filter]. destruct (f a) eqn:Ea; [discriminate|].
  intros H x [<-|Hx]; [exact Ea|apply IH; assumption].
Qed.

Lemma category_eqb_eq (a b : category) : category_eqb a b = true <-> a = b.
Proof. destruct a, b; cbn; split; congruence. Qed.

Lemma category_eqb_neq (a b : category) : category_eqb a b = false <-> a <> b.
Proof. destruct a, b; cbn; split; congruence. Qed.

(** A list page that mentions the business is upgraded to a profile, so
    no result is filed as a list match. *)
Lemma classify_never_list (business_name doctor_name : string) (r : result) :
  classify business_name doctor_name r <> ListPage.
Proof.
  unfold classify. cbv zeta.
  destruct (Nat.leb 2 _ && Py.contains _ _);
    destruct (name_in_text business_name (r_title r));
    destruct (name_in_text business_name (r_snippet r));
    destruct (Py.any_in list_patterns _);
    destruct (negb (String.eqb doctor_name "") && _);
    cbn; discriminate.
Qed.

Lemma list_matches_empty (business_name doctor_name : string)
  (results : list result) :
  matches_of ListPage business_name doctor_name results = [].
Proof.
  unfold matches_of. apply filter_none. intros x _.
  apply category_eqb_neq. apply classify_never_list.
Qed.

(** The verdicts of the resolver. *)
Lemma prioritize_returns
  (validate_page : string -> string -> string -> validation)
  (direct_search : string -> string -> string -> string
                   -> option (string * string))
  (directory_domain business_name doctor_name city country : string)
  (results : list result) (t : trace) :
  let profile_matches := matches_of Profile business_name doctor_name results in
  let doctor_matches := matches_of Doctor business_name doctor_name results in
  prioritize validate_page direct_search
             directory_domain business_name doctor_name city country results t
  = (Return
       match results, profile_matches, doctor_matches with
       | [], _, _ => not_found "no_results" []
       | _, best :: _, _ =>
           found (r_url best) (r_title best) "profile_match"
                 [("candidates",
                   results_value (profile_matches ++ doctor_matches))]
       | _, [], best :: _ =>
           found (r_url best) (r_title best) "doctor_match"
                 [("candidates", results_value doctor_matches)]
       | _, [], [] =>
           not_found "uncertain_results"
                     [("candidates", results_value results)]
       end, t).
Proof.
  cbv zeta. unfold prioritize. cbv zeta.
  rewrite list_matches_empty, app_nil_r.
  destruct results as [|x xs]; [reflexivity|].
  set (results := x :: xs).
  cbv beta iota delta [when bind ret return_].
  destruct (matches_of Profile business_name doctor_name results);
    [|reflexivity].
  destruct (matches_of Doctor business_name doctor_name results);
    reflexivity.
Qed.

(** The searches of a run and the results it works on. *)
Lemma discover_profile_url_search
  (search_serper_results : string -> string -> list result)
  (validate_page : string -> string -> string -> validation)
  (direct_search : string -> string -> string -> string
                   -> option (string * string))
  (directory_name directory_domain business_name doctor_name
     city state country : string) :
  mem directory_domain skip_domains = false ->
  exists results t,
    discover_profile_url search_serper_results validate_page direct_search
      directory_name directory_domain business_name doctor_name
      city state country
    = (match
         prioritize validate_page direct_search
           (corrected_domain directory_name directory_domain)
           business_name doctor_name city country results t
       with
       | (Return r, t') => (Returned r, t')
       | (Next _, t') => (Returned [], t')
       | (Raise e, t') => (Raised e, t')
       end)
    /\ (results = []
        \/ exists q, In (EvSerper q (gl_of_country country)) t
                     /\ search_serper_results q (gl_of_country country)
                        = results)
    /\ (1 <= List.length t <= 2)%nat
    /\ (forall ev, In ev t ->
          exists q, ev = EvSerper q (gl_of_country country)).
Proof.
  intros Hskip.
  unfold discover_profile_url, call, discover_profile_url_body.
  rewrite Hskip.
  cbv beta iota zeta delta [when bind ret search_serper emit List.app].
  set (q1 := query _ _ _ _ _ _ _).
  set (q2 := fallback_query _ _).
  set (gl := gl_of_country country).
  destruct (search_serper_results q1 gl) as [|x xs] eqn:E1.
  - destruct (negb (String.eqb (location_term city state country) "")).
    + cbv beta iota.
      exists (search_serper_results q2 gl), [EvSerper q1 gl; EvSerper q2 gl].
      split; [reflexivity|].
      split; [right; exists q2; split; [cbn; tauto|reflexivity]|].
      split; [cbn; lia|].
      intros ev [<-|[<-|[]]]; eexists; reflexivity.
    + exists [], [EvSerper q1 gl].
      split; [reflexivity|]. split; [left; reflexivity|].
      split; [cbn; lia|].
      intros ev [<-|[]]; eexists; reflexivity.
  - exists (x :: xs), [EvSerper q1 gl].
    split; [reflexivity|].
    split; [right; exists q1; split; [cbn; tauto|exact E1]|].
    split; [cbn; lia|].
    intros ev [<-|[]]; eexists; reflexivity.
Qed.

(** X10.  [discover_profile_url] always returns one of five verdicts:
    not searchable, no results, a profile match, a doctor match, or
    uncertain results.  It never answers [list_match], [validated],
    [direct_search] or [no_validated_results].  It makes at most two
    searches, with the country code of the country, and no other call;
    a directory of the skip list is not searched at all. *)
Theorem discover_profile_url_verdicts
  (search_serper_results : string -> string -> list result)
  (validate_page : string -> string -> string -> validation)
  (direct_search : string -> string -> string -> string
                   -> option (string * string))
  (directory_name directory_domain business_name doctor_name
     city state country : string) :
  exists r t,
    discover_profile_url search_serper_results validate_page direct_search
      directory_name directory_domain business_name doctor_name
      city state country = (Returned r, t)
    /\ (exists status reason,
          dict_get "status" r = Some (VStr status)
          /\ dict_get "match_reason" r = Some (VStr reason)
          /\ In (status, reason)
                [("not_searchable", "gbp_not_searchable");
                 ("not_found", "no_results");
                 ("found", "profile_match");
                 ("found", "doctor_match");
                 ("not_found", "uncertain_results")])
    /\ (List.length t <= 2)%nat
    /\ (forall ev, In ev t ->
          exists q, ev = EvSerper q (gl_of_country country))
    /\ (mem directory_domain skip_domains = true <-> t = []).
Proof.
  destruct (mem directory_domain skip_domains) eqn:Hskip.
  - unfold discover_profile_url, call, discover_profile_url_body.
    rewrite Hskip. eexists; eexists. split; [reflexivity|].
    split; [eexists; eexists; split; [reflexivity|split; [reflexivity|]];
            cbn; tauto|].
    split; [cbn; lia|]. split; [intros ev []|]. split; reflexivity.
  - destruct (discover_profile_url_search search_serper_results validate_page
                direct_search directory_name directory_domain business_name
                doctor_name city state country Hskip)
      as (results & t & -> & _ & Hlen & Hev).
    rewrite prioritize_returns.
    eexists; eexists. split; [reflexivity|].
    split.
    { destruct results as [|x xs];
        [|destruct (matches_of Profile _ _ _);
          [destruct (matches_of Doctor _ _ _)|]];
        eexists; eexists; (split; [reflexivity|split; [reflexivity|]]);
        cbn; tauto. }
    split; [lia|]. split; [exact Hev|].
    split; [discriminate|]. intros ->. cbn in Hlen. lia.
Qed.

(** X11.  A URL that [discover_profile_url] reports as found is the
    URL of a result of its last search: the first result filed as a
    profile, or, when no result is a profile, the first result filed as
    a doctor page. *)
Theorem discover_profile_url_found
  (search_serper_results : string -> string -> list result)
  (validate_page : string -> string -> string -> validation)
  (direct_search : string -> string -> string -> string
                   -> option (string * string))
  (directory_name directory_domain business_name doctor_name
     city state country : string) (r : dict) (t : trace) :
  discover_profile_url search_serper_results validate_page direct_search
    directory_name directory_domain business_name doctor_name
    city state country = (Returned r, t) ->
  dict_get "status" r = Some (VStr "found") ->
  exists q before best after,
    In (EvSerper q (gl_of_country country)) t
    /\ search_serper_results q (gl_of_country country)
       = (before ++ best :: after)%list
    /\ dict_get "url" r = Some (VStr (r_url best))
    /\ dict_get "title" r = Some (VStr (r_title best))
    /\ (forall x, In x before ->
          classify business_name doctor_name x <> Profile)
    /\ ((classify business_name doctor_name best = Profile
         /\ dict_get "match_reason" r = Some (VStr "profile_match"))
        \/ (classify business_name doctor_name best = Doctor
            /\ dict_get "match_reason" r = Some (VStr "doctor_match")
            /\ (forall x, In x before ->
                  classify business_name doctor_name x <> Doctor)
            /\ (forall x, In x after ->
                  classify business_name doctor_name x <> Profile))).
Proof.
  destruct (mem directory_domain skip_domains) eqn:Hskip.
  { unfold discover_profile_url, call, discover_profile_url_body.
    rewrite Hskip. intros [= <- <-]. discriminate. }
  destruct (discover_profile_url_search search_serper_results validate_page
              direct_search directory_name directory_domain business_name
              doctor_name city state country Hskip)
    as (results & t' & -> & Hresults & _ & _).
  rewrite prioritize_returns.
  destruct Hresults as [->|(q & Hq & Hresults)].
  { intros [= <- <-]. discriminate. }
  destruct results as [|x xs]; [intros [= <- <-]; discriminate|].
  set (results := x :: xs) in *.
  remember (matches_of Profile business_name doctor_name results)
    as profile_matches eqn:Eprofile.
  remember (matches_of Doctor business_name doctor_name results)
    as doctor_matches eqn:Edoctor.
  symmetry in Eprofile, Edoctor. unfold matches_of in Eprofile, Edoctor.
  destruct profile_matches as [|best rest].
  - destruct doctor_matches as [|best rest].
    { intros [= <- <-]. discriminate. }
    intros [= <- <-] _.
    destruct (filter_first _ _ _ _ Edoctor)
      as (before & after & Hsplit & Hbest & Hbefore).
    pose proof (filter_nil _ _ Eprofile) as Hnone.
    exists q, before, best, after.
    split; [exact Hq|]. split; [rewrite Hresults; exact Hsplit|].
    split; [reflexivity|]. split; [reflexivity|].
    split.
    { intros y Hy. apply category_eqb_neq. apply Hnone.
      rewrite Hsplit. apply in_or_app. left. exact Hy. }
    right. split; [apply category_eqb_eq; exact Hbest|].
    split; [reflexivity|]. split.
    + intros y Hy. apply category_eqb_neq. apply Hbefore. exact Hy.
    + intros y Hy. apply category_eqb_neq. apply Hnone.
      rewrite Hsplit. apply in_or_app. right. right. exact Hy.
  - intros [= <- <-] _.
    destruct (filter_first _ _ _ _ Eprofile)
      as (before & after & Hsplit & Hbest & Hbefore).
    exists q, before, best, after.
    split; [exact Hq|]. split; [rewrite Hresults; exact Hsplit|].
    split; [reflexivity|]. split; [reflexivity|].
    split.
    { intros y Hy. apply category_eqb_neq. apply Hbefore. exact Hy. }
    left. split; [apply category_eqb_eq; exact Hbest|reflexivity].
Qed.

(** The doctor's page comes first in the results, and the profile of
    the practice is the one reported. *)
Lemma discover_profile_url_found_witness :
  classify "Acme Dental" "Dr. John Smith" smith_page = Doctor
  /\ exists r t,
       discover_profile_url doctor_then_profile accept_page no_direct
         "Yelp" "yelp.com" "Acme Dental" "Dr. John Smith" "Austin" "TX" ""
       = (Returned r, t)
       /\ dict_get "url" r = Some (VStr (r_url acme_profile))
       /\ exists q before best after,
            In (EvSerper q (gl_of_country "")) t
            /\ doctor_then_profile q (gl_of_country "")
               = (before ++ best :: after)%list
            /\ dict_get "url" r = Some (VStr (r_url best))
            /\ dict_get "title" r = Some (VStr (r_title best))
            /\ (forall x, In x before ->
                  classify "Acme Dental" "Dr. John Smith" x <> Profile)
            /\ ((classify "Acme Dental" "Dr. John Smith" best = Profile
                 /\ dict_get "match_reason" r
                    = Some (VStr "profile_match"))
                \/ (classify "Acme Dental" "Dr. John Smith" best = Doctor
                    /\ dict_get "match_reason" r
                       = Some (VStr "doctor_match")
                    /\ (forall x, In x before ->
                          classify "Acme Dental" "Dr. John Smith" x
                          <> Doctor)
                    /\ (forall x, In x after ->
                          classify "Acme Dental" "Dr. John Smith" x
                          <> Profile))).
Proof.
  split; [vm_compute; reflexivity|].
  set (run := discover_profile_url _ _ _ _ _ _ _ _ _ _).
  assert (E : run
              = (Returned match fst run with
                          | Returned r => r
                          | Raised _ => []
                          end, snd run)) by (vm_compute; reflexivity).
  eexists; eexists. split; [exact E|].
  split; [vm_compute; reflexivity|].
  apply (discover_profile_url_found doctor_then_profile accept_page no_direct
           "Yelp" "yelp.com" "Acme Dental" "Dr. John Smith" "Austin" "TX" ""
           _ _ E).
  vm_compute; reflexivity.
Defined.

(* ================================================================== *)
(** * Properties of the validation of candidates *)
(* ================================================================== *)

Lemma dict_get_set (k k' : string) (v : value) (d : dict) :
  dict_get k (dict_set k' v d)
  = if String.eqb k k' then Some v else dict_get k d.
Proof.
  induction d as [|[k0 v0] d IH]; cbn [dict_set dict_get].
  - destruct (String.eqb k k'); reflexivity.
  - destruct (String.eqb k' k0) eqn:E0; cbn [dict_get].
    + apply String.eqb_eq in E0. subst k0.
      destruct (String.eqb k k'); reflexivity.
    + rewrite IH. destruct (String.eqb k k') eqn:E.
      * apply String.eqb_eq in E. subst k'. rewrite E0. reflexivity.
      * reflexivity.
Qed.

Lemma existsb_none {A} (f : A -> bool) (l : list A) :
  existsb f l = false -> forall x, In x l -> f x = false.
Proof.
  induction l as [|a l IH]; [intros _ x []|].
  cbn [existsb]. intros H. apply orb_false_elim in H. destruct H as [Ha Hl].
  intros x [<-|Hx]; [exact Ha|apply IH; assumption].
Qed.

Lemma mem_false (s : string) (l : list string) :
  mem s l = false -> ~ In s l.
Proof.
  intros H Hin. unfold mem in H.
  pose proof (existsb_none _ _ H s Hin) as Hs. cbv beta in Hs.
  rewrite String.eqb_refl in Hs. discriminate.
Qed.

Lemma NoDup_snoc {A} (l : list A) (x : A) :
  NoDup l -> ~ In x l -> NoDup (l ++ [x]).
Proof.
  induction l as [|a l IH]; intros Hl Hx.
  - constructor; [intros []|constructor].
  - inversion Hl as [|? ? Ha Hl']; subst. cbn. constructor.
    + intros Hin. apply in_app_or in Hin. destruct Hin as [Hin|[<-|[]]].
      * exact (Ha Hin).
      * apply Hx. left. reflexivity.
    + apply IH; [exact Hl'|]. intros Hin. apply Hx. right. exact Hin.
Qed.


Lemma entry_text_set_url (kv : dict) (u : string) :
  entry_text "name" (VDict (dict_set "url" (VStr u) kv))
  = entry_text "name" (VDict kv).
Proof. unfold entry_text. rewrite dict_get_set. reflexivity. Qed.

Lemma entry_url_set_url (kv : dict) (u : string) :
  entry_url (VDict (dict_set "url" (VStr u) kv)) = Some u.
Proof. unfold entry_url. rewrite dict_get_set. reflexivity. Qed.

Section DirectoryValidatorFacts.

Variable urlparse_netloc : string -> outcome string.
Variable url_reachable : string -> bool.
Variable cse_keys : bool.
Variable google_cse : string -> outcome (option (list string)).

(** The link that the correction search accepts. *)
Lemma first_matching_domain_found directory_name links u :
  first_matching_domain urlparse_netloc directory_name links = Some u ->
  exists link,
    In link links
    /\ u = "https://" ++ get_domain urlparse_netloc link
    /\ domain_matches_name (get_domain urlparse_netloc link) directory_name
       = true.
Proof.
  induction links as [|link links IH]; [discriminate|].
  cbn [first_matching_domain].
  destruct (domain_matches_name (get_domain urlparse_netloc link)
              directory_name) eqn:E.
  - intros [= <-]. exists link. split; [left; reflexivity|].
    split; [reflexivity|exact E].
  - intros H. destruct (IH H) as (l & Hin & Hu & Hm).
    exists l. split; [right; exact Hin|]. split; assumption.
Qed.

(** What an iteration of the loop does to the two lists: nothing to
    [cleaned], or one entry more; [seen] only grows. *)
Lemma validate_candidate_returns country c_lower d cleaned seen t
  cleaned' seen' t' :
  validate_candidate urlparse_netloc url_reachable cse_keys google_cse
    country c_lower d cleaned seen t = (Return (cleaned', seen'), t') ->
  let name := entry_text "name" d in
  let url := entry_text "url" d in
  (cleaned' = cleaned /\ (forall x, In x seen -> In x seen'))
  \/ (exists kv u,
        d = VDict kv
        /\ cleaned' = (cleaned ++ [VDict (dict_set "url" (VStr u) kv)])%list
        /\ seen' = (seen ++ [Py.lower name;
                             get_domain urlparse_netloc url])%list
        /\ name <> ""
        /\ mem (Py.lower name) seen = false
        /\ existsb (fun term =>
                      mem term
                        (Py.split_char
                           (fun c => negb (Py.islower c || Py.isdigit c))
                           "" (Py.lower name)))
                   (BAD_COUNTRY_TERMS c_lower) = false
        /\ existsb (fun excl => Py.contains excl (Py.lower name))
                   EXCLUDED_DIRECTORIES = false
        /\ existsb (fun bad =>
                      Py.contains bad
                        (Py.lower (get_domain urlparse_netloc url)))
                   BAD_DOMAINS = false
        /\ foreign_tld country url = false
        /\ ((url_reachable url = true
             /\ domain_matches_name (get_domain urlparse_netloc url) name
                = true
             /\ u = (if Py.startswith "http" url then url
                     else "https://" ++ url))
            \/ (url_reachable url
                && domain_matches_name (get_domain urlparse_netloc url) name
                = false
                /\ cse_keys = true
                /\ exists links,
                     google_cse name = Returned (Some links)
                     /\ first_matching_domain urlparse_netloc name links
                        = Some u))).
Proof.
  cbv zeta. unfold validate_candidate, get_stripped, entry_text.
  destruct d as [| | | | | |kv]; try discriminate.
  unfold bind at 1.
  destruct (dict_get "name" kv) as [[| | | |name| |]|];
    try discriminate; unfold raise, ret at 1; cbv beta iota.
  2:{ unfold bind at 1.
      destruct (dict_get "url" kv) as [[| | | |url| |]|];
        try discriminate; unfold ret at 1; cbv beta iota.
      all: unfold bind at 1, when; cbn [String.eqb orb].
      all: intros [= <- <- <-]; left; split; [reflexivity|tauto]. }
  unfold bind at 1.
  destruct (dict_get "url" kv) as [[| | | |url| |]|];
    try discriminate; unfold ret at 1; cbv beta iota.
  2:{ unfold bind at 1, when. rewrite orb_true_r.
      intros [= <- <- <-]; left; split; [reflexivity|tauto]. }
  cbv beta iota zeta
      delta [bind when ret return_ emit verify_url_exists
             search_correct_domain].
  set (n := Py.strip name). set (u := Py.strip url).
  destruct (String.eqb n "" || String.eqb u "") eqn:Eempty.
  { intros [= <- <- <-]; left; split; [reflexivity|tauto]. }
  destruct (existsb _ (BAD_COUNTRY_TERMS c_lower)) eqn:Eterms.
  { intros [= <- <- <-]; left; split; [reflexivity|tauto]. }
  destruct (existsb _ EXCLUDED_DIRECTORIES) eqn:Eexcluded.
  { intros [= <- <- <-]; left; split; [reflexivity|tauto]. }
  destruct (existsb _ COMPETITOR_PATTERNS && _).
  { intros [= <- <- <-]; left; split; [reflexivity|tauto]. }
  destruct (existsb _ BAD_DOMAINS) eqn:Ebad.
  { intros [= <- <- <-]; left; split; [reflexivity|tauto]. }
  destruct (negb (Py.contains "united states" c_lower) && _ && _).
  { intros [= <- <- <-]; left; split; [reflexivity|tauto]. }
  destruct (foreign_tld country u) eqn:Etld.
  { intros [= <- <- <-]; left; split; [reflexivity|tauto]. }
  destruct (mem (Py.lower n) seen || _) eqn:Eseen.
  { intros [= <- <- <-]; left; split; [reflexivity|tauto]. }
  apply orb_false_elim in Eempty. destruct Eempty as [En _].
  apply orb_false_elim in Eseen. destruct Eseen as [Eseen _].
  assert (Hn : n <> "") by (apply String.eqb_neq; exact En).
  destruct (url_reachable u
            && domain_matches_name (get_domain urlparse_netloc u) n)
    eqn:Evalid.
  { intros [= <- <- <-]. right. exists kv. eexists.
    split; [reflexivity|]. split; [reflexivity|]. split; [reflexivity|].
    repeat (split; [first [assumption|reflexivity]|]).
    left. apply andb_prop in Evalid. destruct Evalid as [Hr Hm].
    split; [exact Hr|]. split; [exact Hm|].
    destruct (Py.startswith "http" u); reflexivity. }
  destruct cse_keys; cbn [negb];
    [|intros [= <- <- <-]; left; split;
      [reflexivity|intros x Hx; apply in_or_app; left; exact Hx]].
  destruct (google_cse n) as [[links|]|e] eqn:Ecse;
    try (intros [= <- <- <-]; left; split;
         [reflexivity|intros x Hx; apply in_or_app; left; exact Hx]).
  destruct (first_matching_domain urlparse_netloc n links)
    as [corrected|] eqn:Efirst;
    [|intros [= <- <- <-]; left; split;
      [reflexivity|intros x Hx; apply in_or_app; left; exact Hx]].
  destruct (negb (String.eqb corrected ""));
    [|intros [= <- <- <-]; left; split;
      [reflexivity|intros x Hx; apply in_or_app; left; exact Hx]].
  intros [= <- <- <-]. right. exists kv, corrected.
  split; [reflexivity|]. split; [reflexivity|]. split; [reflexivity|].
  repeat (split; [first [assumption|reflexivity]|]).
  right. split; [reflexivity|]. split; [reflexivity|].
  exists links. split; [reflexivity|exact Efirst].
Qed.

(** An invariant of the two lists holds of the result of the loop when
    every iteration on an entry of the list keeps it. *)
Lemma validate_all_invariant (P : list value -> list string -> Prop)
  country c_lower (all_items : list value) :
  (forall d cleaned seen t cleaned' seen' t',
      In d all_items -> P cleaned seen ->
      validate_candidate urlparse_netloc url_reachable cse_keys google_cse
        country c_lower d cleaned seen t = (Return (cleaned', seen'), t') ->
      P cleaned' seen') ->
  forall items cleaned seen t result t',
    incl items all_items -> P cleaned seen ->
    validate_all urlparse_netloc url_reachable cse_keys google_cse
      country c_lower items cleaned seen t = (Return result, t') ->
    exists seen', P result seen'.
Proof.
  intros Hstep. induction items as [|d items IH];
    intros cleaned seen t result t' Hincl HP.
  - cbn [validate_all]. intros [= <- <-]. exists seen. exact HP.
  - cbn [validate_all]. unfold bind, invoke.
    assert (Hd : In d all_items) by (apply Hincl; left; reflexivity).
    assert (Hrest : incl items all_items)
      by (intros x Hx; apply Hincl; right; exact Hx).
    destruct (validate_candidate urlparse_netloc url_reachable cse_keys
                google_cse country c_lower d cleaned seen t)
      as [[a|[cleaned1 seen1]|e] t1] eqn:E; cbn [fst snd].
    + apply IH; assumption.
    + apply IH; [exact Hrest|]. exact (Hstep _ _ _ _ _ _ _ Hd HP E).
    + discriminate.
Qed.

(** The loop started by [clean_and_validate_directories]. *)
Lemma clean_and_validate_directories_loop directories country cleaned t t' :
  clean_and_validate_directories urlparse_netloc url_reachable cse_keys
    google_cse directories country t = (Return cleaned, t') ->
  exists c items,
    country = Some c
    /\ (directories = VList items
        \/ forall d, In d items -> forall kv, d <> VDict kv)
    /\ validate_all urlparse_netloc url_reachable cse_keys google_cse
         c (Py.lower c) items [] [] t = (Return cleaned, t').
Proof.
  unfold clean_and_validate_directories, lower_of, iterate.
  destruct country as [c|]; [|discriminate].
  unfold bind at 1, ret at 1. cbv beta iota.
  destruct directories as [| | | |s|items|kv]; try discriminate;
    unfold bind at 1, ret at 1; cbv beta iota; cbn [Py.str]; intros H.
  - exists c. eexists. split; [reflexivity|]. split; [right|exact H].
    intros d Hd kv ->. apply in_map_iff in Hd.
    destruct Hd as (x & Hx & _). discriminate.
  - exists c, items. split; [reflexivity|]. split; [left; reflexivity|exact H].
  - exists c. eexists. split; [reflexivity|]. split; [right|exact H].
    intros d Hd kv' ->. apply in_map_iff in Hd.
    destruct Hd as (x & Hx & _). discriminate.
Qed.

(** The entries of the result of the loop, started on empty lists. *)
Lemma validate_all_entries c items cleaned t t' :
  validate_all urlparse_netloc url_reachable cse_keys google_cse
    c (Py.lower c) items [] [] t = (Return cleaned, t') ->
  forall e, In e cleaned ->
    exists kv u,
      In (VDict kv) items
      /\ e = VDict (dict_set "url" (VStr u) kv)
      /\ Py.startswith "http" u = true
      /\ ((url_reachable (entry_text "url" (VDict kv)) = true
           /\ domain_matches_name
                (get_domain urlparse_netloc (entry_text "url" (VDict kv)))
                (entry_text "name" (VDict kv)) = true
           /\ (u = entry_text "url" (VDict kv)
               \/ u = "https://" ++ entry_text "url" (VDict kv)))
          \/ (cse_keys = true
              /\ exists links link,
                   google_cse (entry_text "name" (VDict kv))
                   = Returned (Some links)
                   /\ In link links
                   /\ u = "https://" ++ get_domain urlparse_netloc link
                   /\ domain_matches_name (get_domain urlparse_netloc link)
                        (entry_text "name" (VDict kv)) = true)).
Proof.
  intros Hloop.
  set (Q := fun e : value =>
    exists kv u,
      In (VDict kv) items
      /\ e = VDict (dict_set "url" (VStr u) kv)
      /\ Py.startswith "http" u = true
      /\ ((url_reachable (entry_text "url" (VDict kv)) = true
           /\ domain_matches_name
                (get_domain urlparse_netloc (entry_text "url" (VDict kv)))
                (entry_text "name" (VDict kv)) = true
           /\ (u = entry_text "url" (VDict kv)
               \/ u = "https://" ++ entry_text "url" (VDict kv)))
          \/ (cse_keys = true
              /\ exists links link,
                   google_cse (entry_text "name" (VDict kv))
                   = Returned (Some links)
                   /\ In link links
                   /\ u = "https://" ++ get_domain urlparse_netloc link
                   /\ domain_matches_name (get_domain urlparse_netloc link)
                        (entry_text "name" (VDict kv)) = true))).
  assert (Hall : exists seen' : list string,
                   forall e, In e cleaned -> Q e).
  { eapply (validate_all_invariant
              (fun cleaned _ => forall e, In e cleaned -> Q e)
              c (Py.lower c) items).
    4: exact Hloop.
    2: apply incl_refl.
    2: intros e [].
    intros d cl seen t0 cl' seen' t0' Hd HP Hstep.
    destruct (validate_candidate_returns _ _ _ _ _ _ _ _ _ Hstep)
      as [[-> _]|(kv & u & -> & -> & _ & _ & _ & _ & _ & _ & _ & Hevidence)];
      [exact HP|].
    intros e He. apply in_app_or in He. destruct He as [He|[<-|[]]];
      [apply HP; exact He|].
    exists kv, u. split; [exact Hd|]. split; [reflexivity|].
    destruct Hevidence as [(Hr & Hm & ->)|(_ & Hkeys & links & Hcse & Hfirst)].
    + split.
      { destruct (Py.startswith "http" (entry_text "url" (VDict kv))) eqn:E;
          [exact E|reflexivity]. }
      left. split; [exact Hr|]. split; [exact Hm|].
      destruct (Py.startswith "http" (entry_text "url" (VDict kv)));
        [left|right]; reflexivity.
    + destruct (first_matching_domain_found _ _ _ Hfirst)
        as (link & Hin & -> & Hm).
      split; [reflexivity|]. right. split; [exact Hkeys|].
      exists links, link. repeat split; assumption. }
  destruct Hall as [_ Hall]. exact Hall.
Qed.

(** Every entry of the result passed the filters of the loop. *)
Lemma validate_all_filters c items cleaned t t' :
  validate_all urlparse_netloc url_reachable cse_keys google_cse
    c (Py.lower c) items [] [] t = (Return cleaned, t') ->
  forall e, In e cleaned ->
    entry_text "name" e <> ""
    /\ (forall excl, In excl EXCLUDED_DIRECTORIES ->
          Py.contains excl (Py.lower (entry_text "name" e)) = false)
    /\ (forall term, In term (BAD_COUNTRY_TERMS (Py.lower c)) ->
          mem term
            (Py.split_char (fun c => negb (Py.islower c || Py.isdigit c))
                           "" (Py.lower (entry_text "name" e))) = false)
    /\ exists kv,
         In (VDict kv) items
         /\ entry_text "name" (VDict kv) = entry_text "name" e
         /\ foreign_tld c (entry_text "url" (VDict kv)) = false
         /\ (forall bad, In bad BAD_DOMAINS ->
               Py.contains bad
                 (Py.lower (get_domain urlparse_netloc
                              (entry_text "url" (VDict kv)))) = false).
Proof.
  intros Hloop.
  set (Q := fun e : value =>
    entry_text "name" e <> ""
    /\ (forall excl, In excl EXCLUDED_DIRECTORIES ->
          Py.contains excl (Py.lower (entry_text "name" e)) = false)
    /\ (forall term, In term (BAD_COUNTRY_TERMS (Py.lower c)) ->
          mem term
            (Py.split_char (fun c => negb (Py.islower c || Py.isdigit c))
                           "" (Py.lower (entry_text "name" e))) = false)
    /\ exists kv,
         In (VDict kv) items
         /\ entry_text "name" (VDict kv) = entry_text "name" e
         /\ foreign_tld c (entry_text "url" (VDict kv)) = false
         /\ (forall bad, In bad BAD_DOMAINS ->
               Py.contains bad
                 (Py.lower (get_domain urlparse_netloc
                              (entry_text "url" (VDict kv)))) = false)).
  assert (Hall : exists seen' : list string,
                   forall e, In e cleaned -> Q e).
  { eapply (validate_all_invariant
              (fun cleaned _ => forall e, In e cleaned -> Q e)
              c (Py.lower c) items).
    4: exact Hloop.
    2: apply incl_refl.
    2: intros e [].
    intros d cl seen t0 cl' seen' t0' Hd HP Hstep.
    destruct (validate_candidate_returns _ _ _ _ _ _ _ _ _ Hstep)
      as [[-> _]|(kv & u & -> & -> & _ & Hname & _ & Hterms & Hexcl & Hbad
                  & Htld & _)];
      [exact HP|].
    intros e He. apply in_app_or in He. destruct He as [He|[<-|[]]];
      [apply HP; exact He|].
    unfold Q. rewrite entry_text_set_url.
    split; [exact Hname|].
    split; [exact (existsb_none _ _ Hexcl)|].
    split; [exact (existsb_none _ _ Hterms)|].
    exists kv. split; [exact Hd|]. split; [reflexivity|].
    split; [exact Htld|exact (existsb_none _ _ Hbad)]. }
  destruct Hall as [_ Hall]. exact Hall.
Qed.

(** The names of the result are pairwise distinct. *)
Lemma validate_all_distinct c items cleaned t t' :
  validate_all urlparse_netloc url_reachable cse_keys google_cse
    c (Py.lower c) items [] [] t = (Return cleaned, t') ->
  NoDup (List.map (fun e => Py.lower (entry_text "name" e)) cleaned).
Proof.
  intros Hloop.
  set (key := fun e : value => Py.lower (entry_text "name" e)).
  assert (Hall : exists seen' : list string,
                   NoDup (List.map key cleaned)
                   /\ forall e, In e cleaned -> In (key e) seen').
  { eapply (validate_all_invariant
              (fun cleaned seen =>
                 NoDup (List.map key cleaned)
                 /\ forall e, In e cleaned -> In (key e) seen)
              c (Py.lower c) items).
    4: exact Hloop.
    2: apply incl_refl.
    2: split; [constructor|intros e []].
    intros d cl seen t0 cl' seen' t0' Hd [Hnodup Hseen] Hstep.
    destruct (validate_candidate_returns _ _ _ _ _ _ _ _ _ Hstep)
      as [[-> Hgrow]|(kv & u & -> & -> & -> & _ & Hnew & _)].
    - split; [exact Hnodup|]. intros e He. apply Hgrow, Hseen, He.
    - split.
      + rewrite map_app. cbn [List.map]. apply NoDup_snoc; [exact Hnodup|].
        unfold key at 1. rewrite entry_text_set_url.
        intros Hin. apply in_map_iff in Hin.
        destruct Hin as (e & Hkey & He).
        apply (mem_false _ _ Hnew). rewrite <- Hkey. apply Hseen, He.
      + intros e He. apply in_or_app. apply in_app_or in He.
        destruct He as [He|[<-|[]]]; [left; apply Hseen, He|].
        right. left. unfold key. rewrite entry_text_set_url. reflexivity. }
  destruct Hall as [_ [Hnodup _]]. exact Hnodup.
Qed.

End DirectoryValidatorFacts.

(** X12.  Every entry that [clean_and_validate_directories] returns is
    an entry of the list it was given, with only the URL replaced.  The
    URL starts with "http", and its domain was matched against the name
    of the directory: either it is the URL that was given (with
    "https://" in front when it had no scheme), that URL was reachable
    and its domain matches the name, or it is the "https://" address
    of the domain of a link that the correction search returned, and
    that domain matches the name. *)
Theorem clean_and_validate_directories_entries
  (urlparse_netloc : string -> outcome string)
  (url_reachable : string -> bool) (cse_keys : bool)
  (google_cse : string -> outcome (option (list string)))
  (directories : value) (country : option string)
  (cleaned : list value) (t t' : trace) :
  clean_and_validate_directories urlparse_netloc url_reachable cse_keys
    google_cse directories country t = (Return cleaned, t') ->
  forall e, In e cleaned ->
    exists items kv u,
      directories = VList items
      /\ In (VDict kv) items
      /\ e = VDict (dict_set "url" (VStr u) kv)
      /\ Py.startswith "http" u = true
      /\ let name := entry_text "name" (VDict kv) in
         let url := entry_text "url" (VDict kv) in
         (url_reachable url = true
          /\ domain_matches_name (get_domain urlparse_netloc url) name = true
          /\ (u = url \/ u = "https://" ++ url))
         \/ (cse_keys = true
             /\ exists links link,
                  google_cse name = Returned (Some links)
                  /\ In link links
                  /\ u = "https://" ++ get_domain urlparse_netloc link
                  /\ domain_matches_name (get_domain urlparse_netloc link)
                       name = true).
Proof.
  intros Hrun.
  destruct (clean_and_validate_directories_loop _ _ _ _ _ _ _ _ _ Hrun)
    as (c & items & -> & Hitems & Hloop).
  intros e He.
  destruct (validate_all_entries _ _ _ _ _ _ _ _ _ Hloop e He)
    as (kv & u & Hin & -> & Hhttp & Hev).
  destruct Hitems as [->|Hnone];
    [|exfalso; exact (Hnone _ Hin kv eq_refl)].
  exists items, kv, u. repeat split; try assumption.
Qed.

(** X13.  No entry of the result of [clean_and_validate_directories]
    has an empty name, a name that contains an excluded directory
    (Facebook, Google Business Profile, CareDash), or a name with a
    word for a country other than the target.  The URL that was
    submitted for it is not on a domain of the bad list and not on a
    top-level domain of another country. *)
Theorem clean_and_validate_directories_filters
  (urlparse_netloc : string -> outcome string)
  (url_reachable : string -> bool) (cse_keys : bool)
  (google_cse : string -> outcome (option (list string)))
  (directories : value) (country : option string)
  (cleaned : list value) (t t' : trace) :
  clean_and_validate_directories urlparse_netloc url_reachable cse_keys
    google_cse directories country t = (Return cleaned, t') ->
  forall e, In e cleaned ->
    let name := entry_text "name" e in
    name <> ""
    /\ (forall excl, In excl EXCLUDED_DIRECTORIES ->
          Py.contains excl (Py.lower name) = false)
    /\ (forall term,
          In term (BAD_COUNTRY_TERMS (Py.lower (Py.str country))) ->
          mem term
            (Py.split_char (fun c => negb (Py.islower c || Py.isdigit c))
                           "" (Py.lower name)) = false)
    /\ exists submitted,
         In submitted (match directories with VList l => l | _ => [] end)
         /\ entry_text "name" submitted = name
         /\ foreign_tld (Py.str country) (entry_text "url" submitted) = false
         /\ (forall bad, In bad BAD_DOMAINS ->
               Py.contains bad
                 (Py.lower (get_domain urlparse_netloc
                              (entry_text "url" submitted))) = false).
Proof.
  intros Hrun.
  destruct (clean_and_validate_directories_loop _ _ _ _ _ _ _ _ _ Hrun)
    as (c & items & -> & Hitems & Hloop).
  cbn [Py.str]. intros e He.
  destruct (validate_all_filters _ _ _ _ _ _ _ _ _ Hloop e He)
    as (Hname & Hexcl & Hterms & kv & Hin & Hsame & Htld & Hbad).
  split; [exact Hname|]. split; [exact Hexcl|]. split; [exact Hterms|].
  destruct Hitems as [->|Hnone];
    [|exfalso; exact (Hnone _ Hin kv eq_refl)].
  exists (VDict kv). repeat split; assumption.
Qed.

(** X14.  The names of the entries that
    [clean_and_validate_directories] returns are pairwise distinct,
    letter case and surrounding white space apart. *)
Theorem clean_and_validate_directories_distinct
  (urlparse_netloc : string -> outcome string)
  (url_reachable : string -> bool) (cse_keys : bool)
  (google_cse : string -> outcome (option (list string)))
  (directories : value) (country : option string)
  (cleaned : list value) (t t' : trace) :
  clean_and_validate_directories urlparse_netloc url_reachable cse_keys
    google_cse directories country t = (Return cleaned, t') ->
  NoDup (List.map (fun e => Py.lower (entry_text "name" e)) cleaned).
Proof.
  intros Hrun.
  destruct (clean_and_validate_directories_loop _ _ _ _ _ _ _ _ _ Hrun)
    as (c & items & -> & _ & Hloop).
  exact (validate_all_distinct _ _ _ _ _ _ _ _ _ Hloop).
Qed.

Lemma clean_and_validate_directories_entries_witness :
  exists cleaned t',
    clean_and_validate_directories UrlLib.netloc all_reachable true
      (cse_finds "https://www.healthgrades.com/find-a-doctor")
      sample_directories (Some "United States") [] = (Return cleaned, t')
    /\ List.map entry_url cleaned
       = [Some "https://www.yelp.com"; Some "https://healthgrades.com"]
    /\ forall e, In e cleaned ->
         exists items kv u,
           sample_directories = VList items
           /\ In (VDict kv) items
           /\ e = VDict (dict_set "url" (VStr u) kv)
           /\ Py.startswith "http" u = true
           /\ let name := entry_text "name" (VDict kv) in
              let url := entry_text "url" (VDict kv) in
              (all_reachable url = true
               /\ domain_matches_name (get_domain UrlLib.netloc url) name
                  = true
               /\ (u = url \/ u = "https://" ++ url))
              \/ (true = true
                  /\ exists links link,
                       cse_finds "https://www.healthgrades.com/find-a-doctor"
                                 name = Returned (Some links)
                       /\ In link links
                       /\ u = "https://" ++ get_domain UrlLib.netloc link
                       /\ domain_matches_name
                            (get_domain UrlLib.netloc link) name = true).
Proof.
  eexists; eexists. split; [vm_compute; reflexivity|].
  split; [reflexivity|].
  eapply (clean_and_validate_directories_entries UrlLib.netloc all_reachable
           true (cse_finds "https://www.healthgrades.com/find-a-doctor")
           sample_directories (Some "United States") _ [] _).
  vm_compute; reflexivity.
Defined.

Lemma clean_and_validate_directories_filters_witness :
  exists cleaned t',
    clean_and_validate_directories UrlLib.netloc all_reachable true
      (cse_finds "https://www.healthgrades.com/find-a-doctor")
      sample_directories (Some "United States") [] = (Return cleaned, t')
    /\ List.length cleaned = 2%nat
    /\ forall e, In e cleaned ->
         let name := entry_text "name" e in
         name <> ""
         /\ (forall excl, In excl EXCLUDED_DIRECTORIES ->
               Py.contains excl (Py.lower name) = false)
         /\ (forall term,
               In term (BAD_COUNTRY_TERMS (Py.lower "United States")) ->
               mem term
                 (Py.split_char
                    (fun c => negb (Py.islower c || Py.isdigit c))
                    "" (Py.lower name)) = false)
         /\ exists submitted,
              In submitted
                 (match sample_directories with VList l => l | _ => [] end)
              /\ entry_text "name" submitted = name
              /\ foreign_tld "United States" (entry_text "url" submitted)
                 = false
              /\ (forall bad, In bad BAD_DOMAINS ->
                    Py.contains bad
                      (Py.lower (get_domain UrlLib.netloc
                                   (entry_text "url" submitted))) = false).
Proof.
  eexists; eexists. split; [vm_compute; reflexivity|].
  split; [reflexivity|].
  eapply (clean_and_validate_directories_filters UrlLib.netloc all_reachable
           true (cse_finds "https://www.healthgrades.com/find-a-doctor")
           sample_directories (Some "United States") _ [] _).
  vm_compute; reflexivity.
Defined.

Lemma clean_and_validate_directories_distinct_witness :
  exists cleaned t',
    clean_and_validate_directories UrlLib.netloc all_reachable true
      (cse_finds "https://www.healthgrades.com/find-a-doctor")
      sample_directories (Some "United States") [] = (Return cleaned, t')
    /\ List.length cleaned = 2%nat
    /\ NoDup (List.map (fun e => Py.lower (entry_text "name" e)) cleaned).
Proof.
  eexists; eexists. split; [vm_compute; reflexivity|].
  split; [reflexivity|].
  eapply (clean_and_validate_directories_distinct UrlLib.netloc all_reachable
           true (cse_finds "https://www.healthgrades.com/find-a-doctor")
           sample_directories (Some "United States") _ [] _).
  vm_compute; reflexivity.
Defined.

(** The list that [discover_directories] returns is empty or the
    result of the validation loop. *)
Lemma discover_directories_source
  (urlparse_netloc : string -> outcome string)
  (url_reachable : string -> bool) (cse_keys : bool)
  (google_cse : string -> outcome (option (list string)))
  (research_post : research_request -> http_result)
  (json_loads : string -> outcome value)
  (business_name city state : string) (service_type country : option string) :
  exists l t,
    discover_directories urlparse_netloc url_reachable cse_keys google_cse
      research_post json_loads business_name city state service_type country
    = (Returned l, t)
    /\ (l = []
        \/ exists c items t0,
             country = Some c
             /\ validate_all urlparse_netloc url_reachable cse_keys
                  google_cse c (Py.lower c) items [] [] t0
                = (Return l, t)).
Proof.
  rewrite discover_directories_run. cbv zeta.
  destruct (discover_directories_try urlparse_netloc url_reachable cse_keys
              google_cse research_post json_loads business_name city state
              service_type country []) as [[a|l|e] t] eqn:Etry;
    cbn [fst snd]; eexists; eexists; (split; [reflexivity|]);
    try (left; reflexivity).
  rewrite try_unfold in Etry.
  destruct country as [c|], service_type as [s|]; try discriminate.
  cbv zeta in Etry.
  destruct (research_post _) as [msg|status text]; [discriminate|].
  destruct (Z.eq_dec status 200) as [->|Hne].
  2:{ rewrite read_response_other in Etry by exact Hne.
      left. congruence. }
  set (t0 := [EvPost _ _]) in Etry.
  pose proof (read_response_200 urlparse_netloc url_reachable cse_keys
                google_cse json_loads c text t0) as H200.
  destruct (decoded_directories json_loads text) as [directories|];
    [|destruct H200 as [e H200]; congruence].
  rewrite H200 in Etry. clear H200.
  unfold bind at 1 in Etry.
  destruct (len directories t0) as [[n|r|e] t1] eqn:Elen;
    try (unfold len in Elen; destruct directories;
         unfold ret, raise in Elen; congruence).
  assert (Ht1 : t1 = t0).
  { unfold len in Elen.
    destruct directories; unfold ret, raise in Elen; congruence. }
  subst t1. unfold bind, invoke, return_ in Etry.
  destruct (clean_and_validate_directories urlparse_netloc url_reachable
              cse_keys google_cse directories (Some c) t0)
    as [[a|cleaned|e] t1] eqn:Erun; try discriminate.
  - left. congruence.
  - injection Etry as <- <-.
    destruct (clean_and_validate_directories_loop _ _ _ _ _ _ _ _ _ Erun)
      as (c' & items & [= <-] & _ & Hloop).
    right. exists c, items, t0. split; [reflexivity|exact Hloop].
Qed.

(** X15.  [discover_directories] returns a list of directories with
    pairwise distinct names; each has a name that is not empty and has
    no excluded directory in it, and a URL that starts with "http". *)
Theorem discover_directories_validated
  (urlparse_netloc : string -> outcome string)
  (url_reachable : string -> bool) (cse_keys : bool)
  (google_cse : string -> outcome (option (list string)))
  (research_post : research_request -> http_result)
  (json_loads : string -> outcome value)
  (business_name city state : string) (service_type country : option string) :
  exists l t,
    discover_directories urlparse_netloc url_reachable cse_keys google_cse
      research_post json_loads business_name city state service_type country
    = (Returned l, t)
    /\ NoDup (List.map (fun e => Py.lower (entry_text "name" e)) l)
    /\ forall e, In e l ->
         entry_text "name" e <> ""
         /\ (forall excl, In excl EXCLUDED_DIRECTORIES ->
               Py.contains excl (Py.lower (entry_text "name" e)) = false)
         /\ exists u,
              entry_url e = Some u /\ Py.startswith "http" u = true.
Proof.
  destruct (discover_directories_source urlparse_netloc url_reachable
              cse_keys google_cse research_post json_loads
              business_name city state service_type country)
    as (l & t & Hrun & [->|(c & items & t0 & _ & Hloop)]).
  - exists [], t. split; [exact Hrun|].
    split; [constructor|intros e []].
  - exists l, t. split; [exact Hrun|].
    split; [exact (validate_all_distinct _ _ _ _ _ _ _ _ _ Hloop)|].
    intros e He.
    destruct (validate_all_filters _ _ _ _ _ _ _ _ _ Hloop e He)
      as (Hname & Hexcl & _).
    split; [exact Hname|]. split; [exact Hexcl|].
    destruct (validate_all_entries _ _ _ _ _ _ _ _ _ Hloop e He)
      as (kv & u & _ & -> & Hhttp & _).
    exists u. split; [apply entry_url_set_url|exact Hhttp].
Qed.

(* ================================================================== *)
(** * Properties of the search *)
(* ================================================================== *)

Section SerperFacts.

Variable api_key : bool.
Variable serper_post : string -> string -> http_result.
Variable json_loads : string -> outcome value.
Variable urlparse_path : string -> outcome string.

(** An iteration of the loop keeps the list or adds one result that is
    not a homepage, or raises; it makes no call. *)
Lemma keep_result_cases (item : value) (results : list value) (t : trace) :
  (exists e, Serper.keep_result urlparse_path item results t = (Raise e, t))
  \/ Serper.keep_result urlparse_path item results t = (Return results, t)
  \/ (exists kv u path,
        item = VDict kv
        /\ get_or kv "link" (VStr "") = VStr u
        /\ urlparse_path u = Returned path
        /\ mem path Serper.HOMEPAGE_PATHS = false
        /\ Py.any_in Serper.bad_patterns (Py.lower u) = false
        /\ Serper.keep_result urlparse_path item results t
           = (Return
                (results
                 ++ [VDict [("url", VStr u);
                            ("title", get_or kv "title" (VStr ""));
                            ("snippet", get_or kv "snippet" (VStr ""))]])%list,
              t)).
Proof.
  unfold Serper.keep_result.
  destruct item as [| | | | | |kv]; try (left; eexists; reflexivity).
  destruct (get_or kv "link" (VStr "")) as [| | | |u| |] eqn:Elink;
    try (left; eexists; reflexivity).
  unfold bind, lift, when, ret, raise, return_.
  destruct (urlparse_path u) as [path|e] eqn:Epath;
    [|left; eexists; reflexivity].
  destruct (mem path Serper.HOMEPAGE_PATHS) eqn:Ehome;
    [right; left; reflexivity|].
  destruct (Py.any_in Serper.bad_patterns (Py.lower u)) eqn:Ebad;
    [right; left; reflexivity|].
  right. right. exists kv, u, path. repeat split; assumption.
Qed.

(** A result that the search keeps: a link that parses, with a path
    that is not the one of a homepage, and without a homepage pattern. *)
Lemma keep_all_cases (items results : list value) (t : trace)
  (good : value -> Prop) :
  (forall kv u path,
      In (VDict kv) items ->
      get_or kv "link" (VStr "") = VStr u ->
      urlparse_path u = Returned path ->
      mem path Serper.HOMEPAGE_PATHS = false ->
      Py.any_in Serper.bad_patterns (Py.lower u) = false ->
      good (VDict [("url", VStr u);
                   ("title", get_or kv "title" (VStr ""));
                   ("snippet", get_or kv "snippet" (VStr ""))])) ->
  Forall good results ->
  (exists e, Serper.keep_all urlparse_path items results t = (Raise e, t))
  \/ (exists results',
        Serper.keep_all urlparse_path items results t = (Return results', t)
        /\ Forall good results').
Proof.
  revert results. induction items as [|item items IH];
    intros results Hgood Hresults.
  - right. exists results. split; [reflexivity|exact Hresults].
  - cbn [Serper.keep_all]. unfold bind, invoke.
    assert (Hrest : forall kv u path,
               In (VDict kv) items ->
               get_or kv "link" (VStr "") = VStr u ->
               urlparse_path u = Returned path ->
               mem path Serper.HOMEPAGE_PATHS = false ->
               Py.any_in Serper.bad_patterns (Py.lower u) = false ->
               good (VDict [("url", VStr u);
                            ("title", get_or kv "title" (VStr ""));
                            ("snippet", get_or kv "snippet" (VStr ""))])).
    { intros kv u path Hin. apply Hgood. right. exact Hin. }
    destruct (keep_result_cases item results t)
      as [[e ->]|[->|(kv & u & path & -> & Hlink & Hpath & Hhome & Hbad & ->)]].
    + left. exists e. reflexivity.
    + apply IH; assumption.
    + apply IH; [exact Hrest|].
      apply Forall_app. split; [exact Hresults|].
      constructor; [|constructor].
      apply (Hgood kv u path); try assumption. left. reflexivity.
Qed.

(** An item that cannot be read makes the loop raise, whatever was
    kept before it. *)
Lemma keep_all_raises (items results : list value) (t : trace) :
  (exists item,
      In item items
      /\ forall rs t0, exists e,
           Serper.keep_result urlparse_path item rs t0 = (Raise e, t0)) ->
  exists e, Serper.keep_all urlparse_path items results t = (Raise e, t).
Proof.
  revert results. induction items as [|item items IH];
    intros results (bad & Hin & Hbad); [destruct Hin|].
  cbn [Serper.keep_all]. unfold bind, invoke.
  destruct Hin as [->|Hin].
  - destruct (Hbad results t) as [e ->]. exists e. reflexivity.
  - destruct (keep_result_cases item results t)
      as [[e ->]|[->|(kv & u & path & _ & _ & _ & _ & _ & ->)]].
    + exists e. reflexivity.
    + apply IH. exists bad. split; assumption.
    + apply IH. exists bad. split; assumption.
Qed.

End SerperFacts.

(** Closes a path on which the search ends with the empty list. *)
Ltac no_results :=
  eexists; eexists;
  split; [reflexivity|];
  split; [reflexivity|];
  split; [intros; reflexivity|constructor].

(** X16.  [search_serper] never raises.  Without an API key it returns
    the empty list and sends nothing; otherwise it sends one request.
    Every result it returns has a link whose path is not the path of a
    homepage and that has none of the homepage patterns. *)
Theorem search_serper_results
  (api_key : bool) (serper_post : string -> string -> http_result)
  (json_loads : string -> outcome value)
  (urlparse_path : string -> outcome string) (query gl : string) :
  exists results t,
    Serper.search_serper api_key serper_post json_loads urlparse_path
      query gl = (Returned results, t)
    /\ t = (if api_key
            then [EvPost Serper.ENDPOINT (serper_post query gl)] else [])
    /\ (api_key = false -> results = [])
    /\ Forall
         (fun r =>
            exists u title snippet path,
              r = VDict [("url", VStr u); ("title", title);
                         ("snippet", snippet)]
              /\ urlparse_path u = Returned path
              /\ ~ In path Serper.HOMEPAGE_PATHS
              /\ (forall pattern, In pattern Serper.bad_patterns ->
                    Py.contains pattern (Py.lower u) = false))
         results.
Proof.
  unfold Serper.search_serper, call, Serper.search_serper_body.
  destruct api_key; cbn [negb];
    [|no_results].
  unfold when, bind at 1, ret at 1. cbv beta iota.
  unfold try_, bind at 1, Serper.post. cbn [List.app].
  destruct (serper_post query gl) as [msg|status text];
    [no_results|].
  cbv beta iota. cbn [fst snd].
  unfold bind at 1, when.
  destruct (negb (status =? 200));
    [no_results|].
  unfold ret at 1. cbv beta iota.
  unfold bind at 1, lift.
  destruct (json_loads text) as [data|e];
    [|no_results].
  unfold ret at 1. cbv beta iota.
  unfold bind at 1.
  destruct data as [| | | | | |kv];
    try (no_results).
  unfold ret at 1. cbv beta iota.
  unfold bind at 1.
  destruct (negb (truth (get_or kv "organic" (VList []))));
    [no_results|].
  unfold ret at 1. cbv beta iota.
  unfold bind at 1, iterate.
  set (t := [EvPost _ _]).
  set (good := fun r : value =>
    exists u title snippet path,
      r = VDict [("url", VStr u); ("title", title); ("snippet", snippet)]
      /\ urlparse_path u = Returned path
      /\ ~ In path Serper.HOMEPAGE_PATHS
      /\ (forall pattern, In pattern Serper.bad_patterns ->
            Py.contains pattern (Py.lower u) = false)).
  assert (Hstep : forall ikv u path,
             get_or ikv "link" (VStr "") = VStr u ->
             urlparse_path u = Returned path ->
             mem path Serper.HOMEPAGE_PATHS = false ->
             Py.any_in Serper.bad_patterns (Py.lower u) = false ->
             good (VDict [("url", VStr u);
                          ("title", get_or ikv "title" (VStr ""));
                          ("snippet", get_or ikv "snippet" (VStr ""))])).
  { intros ikv u path _ Hpath Hhome Hbad.
    exists u, (get_or ikv "title" (VStr "")),
      (get_or ikv "snippet" (VStr "")), path.
    split; [reflexivity|]. split; [exact Hpath|].
    split; [apply mem_false; exact Hhome|].
    exact (existsb_none _ _ Hbad). }
  destruct (get_or kv "organic" (VList [])) as [| | | |s|l|okv];
    try no_results; unfold ret at 1; cbv beta iota.
  all: match goal with
       | |- context [Serper.keep_all _ ?items [] ?t0] =>
           destruct (keep_all_cases urlparse_path items [] t0 good
                       (fun ikv u path _ => Hstep ikv u path)
                       (Forall_nil _))
             as [[e ->]|(results & -> & Hgood)]
       end.
  all: eexists; eexists; (split; [reflexivity|]); (split; [reflexivity|]);
       (split; [discriminate|]); first [exact Hgood | constructor].
Qed.

(** X17.  One item that cannot be read loses every result.  When the
    answer lists an item that is not an object, or whose link is not a
    text, or whose link [urlparse] rejects, [search_serper] returns
    the empty list, also when other items of the answer are results. *)
Theorem search_serper_all_or_nothing
  (serper_post : string -> string -> http_result)
  (json_loads : string -> outcome value)
  (urlparse_path : string -> outcome string) (query gl : string)
  (text : string) (kv : dict) (items : list value) (item : value) :
  serper_post query gl = HttpResponse 200 text ->
  json_loads text = Returned (VDict kv) ->
  get_or kv "organic" (VList []) = VList items ->
  In item items ->
  match item with
  | VDict ikv =>
      match get_or ikv "link" (VStr "") with
      | VStr u => exists e, urlparse_path u = Raised e
      | _ => True
      end
  | _ => True
  end ->
  Serper.search_serper true serper_post json_loads urlparse_path query gl
  = (Returned [], [EvPost Serper.ENDPOINT (HttpResponse 200 text)]).
Proof.
  intros Hpost Hjson Horganic Hin Hitem.
  unfold Serper.search_serper, call, Serper.search_serper_body.
  cbn [negb]. unfold when, bind at 1, ret at 1. cbv beta iota.
  unfold try_, bind at 1, Serper.post. cbn [List.app].
  rewrite Hpost. cbv beta iota. cbn [fst snd].
  change (negb (200 =? 200)) with false.
  unfold bind at 1, ret at 1. cbv beta iota.
  unfold bind at 1, lift. rewrite Hjson.
  unfold ret at 1. cbv beta iota.
  unfold bind at 1, ret at 1. cbv beta iota.
  rewrite Horganic.
  unfold bind at 1.
  destruct items as [|first rest]; [destruct Hin|].
  cbn [truth negb]. unfold ret at 1. cbv beta iota.
  unfold bind at 1, iterate, ret at 1. cbv beta iota.
  destruct (keep_all_raises urlparse_path (first :: rest) []
              [EvPost Serper.ENDPOINT (HttpResponse 200 text)])
    as [e ->]; [|reflexivity].
  exists item. split; [exact Hin|].
  intros rs t0. unfold Serper.keep_result.
  destruct item as [| | | | | |ikv]; try (eexists; reflexivity).
  destruct (get_or ikv "link" (VStr "")) as [| | | |u| |];
    try (eexists; reflexivity).
  destruct Hitem as [e He]. unfold bind, lift. rewrite He.
  eexists; reflexivity.
Qed.

(** The profile comes first in the answer and is lost with the rest;
    without the item that has no link it is the result. *)
Lemma search_serper_all_or_nothing_witness :
  Serper.search_serper true serper_answers
    (organic_with [profile_item; homepage_item]) url_path
    "site:yelp.com Acme Dental" "us"
  = (Returned [VDict [("url",
                       VStr "https://www.yelp.com/biz/acme-dental-austin");
                      ("title", VStr "Acme Dental - Austin, TX");
                      ("snippet", VStr "Reviews of Acme Dental")]],
     [EvPost Serper.ENDPOINT (HttpResponse 200 "organic")])
  /\ Serper.search_serper true serper_answers
       (organic_with [profile_item; homepage_item; null_link_item]) url_path
       "site:yelp.com Acme Dental" "us"
     = (Returned [], [EvPost Serper.ENDPOINT (HttpResponse 200 "organic")]).
Proof.
  split; [vm_compute; reflexivity|].
  apply (search_serper_all_or_nothing serper_answers
           (organic_with [profile_item; homepage_item; null_link_item])
           url_path "site:yelp.com Acme Dental" "us" "organic"
           [("organic", VList [profile_item; homepage_item; null_link_item])]
           [profile_item; homepage_item; null_link_item] null_link_item).
  - reflexivity.
  - reflexivity.
  - reflexivity.
  - right; right; left; reflexivity.
  - exact I.
Defined.

(* ================================================================== *)
(** * Properties of the URL finder *)
(* ================================================================== *)






Section FinderFacts.

Variable http_get : nat -> string -> http_result.



End FinderFacts.


(* ================================================================== *)
(** * Properties of the matching of a domain and of the correction *)
(* ================================================================== *)

Lemma filter_length_pos {A} (f : A -> bool) (l : list A) :
  (1 <= List.length (List.filter f l))%nat ->
  exists x, In x l /\ f x = true.
Proof.
  induction l as [|a l IH]; cbn [List.filter]; [cbn; lia|].
  destruct (f a) eqn:E.
  - intros _. exists a. split; [left; reflexivity|exact E].
  - intros H. destruct (IH H) as (x & Hin & Hx).
    exists x. split; [right; exact Hin|exact Hx].
Qed.

Lemma mem_true (s : string) (l : list string) : mem s l = true -> In s l.
Proof.
  unfold mem. intros H. apply existsb_exists in H.
  destruct H as (x & Hin & Heq). apply String.eqb_eq in Heq. subst x.
  exact Hin.
Qed.

(** X19.  A domain that [domain_matches_name] accepts has evidence in
    the name.  Domain and name are not empty and the name has a
    significant word; and either the acronym of two or more
    significant words is a token of the domain or starts it, or a
    significant word of three letters or more occurs in the domain,
    and a name of three or more significant words has two such hits.
    A name made of stop words matches no domain. *)
Theorem domain_matches_name_evidence (domain name : string) :
  domain_matches_name domain name = true ->
  let words := significant_words name in
  let target := target_domain domain in
  domain <> "" /\ name <> "" /\ words <> []
  /\ ((2 <= List.length words)%nat
      /\ (2 <= String.length (acronym words))%nat
      /\ (In (acronym words) (tokens target)
          \/ Py.startswith (acronym words) target = true)
      \/ (exists word,
            In word words
            /\ (3 <= String.length word)%nat
            /\ Py.contains word target = true)
         /\ ((3 <= List.length words)%nat ->
             (2 <= matches words target)%nat)).
Proof.
  cbv zeta. unfold domain_matches_name.
  destruct (String.eqb domain "") eqn:Ed; [discriminate|].
  destruct (String.eqb name "") eqn:En; [discriminate|].
  cbn [orb]. apply String.eqb_neq in Ed. apply String.eqb_neq in En.
  set (words := significant_words name).
  set (target := target_domain domain).
  destruct (Nat.ltb 1 (List.length words)
            && Nat.leb 2 (String.length (acronym words))
            && (mem (acronym words) (tokens target)
                || Py.startswith (acronym words) target)) eqn:Eacronym.
  - intros _.
    apply andb_prop in Eacronym. destruct Eacronym as [Hlen Hhit].
    apply andb_prop in Hlen. destruct Hlen as [Hwords Hacr].
    apply Nat.ltb_lt in Hwords. apply Nat.leb_le in Hacr.
    split; [exact Ed|]. split; [exact En|].
    split; [intros H; rewrite H in Hwords; cbn in Hwords; lia|].
    left. split; [lia|]. split; [exact Hacr|].
    apply orb_prop in Hhit. destruct Hhit as [H|H];
      [left; apply mem_true; exact H|right; exact H].
  - intros H.
    assert (Hone : (1 <= matches words target)%nat).
    { destruct (Nat.leb (List.length words) 2);
        apply Nat.leb_le in H; lia. }
    split; [exact Ed|]. split; [exact En|].
    unfold matches in Hone.
    destruct (filter_length_pos _ _ Hone) as (word & Hin & Hword).
    apply andb_prop in Hword. destruct Hword as [Hlong Hoccurs].
    apply Nat.ltb_lt in Hlong.
    split; [intros Hnil; rewrite Hnil in Hin; destruct Hin|].
    right. split.
    + exists word. split; [exact Hin|]. split; [lia|exact Hoccurs].
    + intros Hthree.
      destruct (Nat.leb (List.length words) 2) eqn:E.
      * apply Nat.leb_le in E. lia.
      * apply Nat.leb_le in H. exact H.
Qed.

Lemma domain_matches_name_evidence_witness :
  let words := significant_words "Central Ohio Dental Society" in
  let target := target_domain "columbusohiodental.org" in
  words = ["central"; "ohio"; "dental"; "society"]
  /\ "columbusohiodental.org" <> "" /\ "Central Ohio Dental Society" <> ""
  /\ words <> []
  /\ ((2 <= List.length words)%nat
      /\ (2 <= String.length (acronym words))%nat
      /\ (In (acronym words) (tokens target)
          \/ Py.startswith (acronym words) target = true)
      \/ (exists word,
            In word words
            /\ (3 <= String.length word)%nat
            /\ Py.contains word target = true)
         /\ ((3 <= List.length words)%nat ->
             (2 <= matches words target)%nat)).
Proof.
  intros words target.
  split; [vm_compute; reflexivity|].
  apply (domain_matches_name_evidence "columbusohiodental.org"
           "Central Ohio Dental Society").
  vm_compute; reflexivity.
Defined.

(** X20.  [search_correct_domain] never raises.  Without the two API
    keys it makes no search and finds nothing.  A URL that it returns
    is "https://" and the domain of the first link of the answer whose
    domain matches the name of the directory. *)
Theorem search_correct_domain_result
  (urlparse_netloc : string -> outcome string) (cse_keys : bool)
  (google_cse : string -> outcome (option (list string)))
  (directory_name : string) (t : trace) :
  exists corrected t',
    search_correct_domain (R := unit) urlparse_netloc cse_keys google_cse
      directory_name t = (Next corrected, t')
    /\ t' = (if cse_keys then (t ++ [EvCorrection directory_name])%list
             else t)
    /\ (cse_keys = false -> corrected = None)
    /\ (forall e, google_cse directory_name = Raised e -> corrected = None)
    /\ (forall u, corrected = Some u ->
          exists before link after,
            google_cse directory_name
            = Returned (Some (before ++ link :: after)%list)
            /\ u = "https://" ++ get_domain urlparse_netloc link
            /\ domain_matches_name (get_domain urlparse_netloc link)
                 directory_name = true
            /\ forall other, In other before ->
                 domain_matches_name (get_domain urlparse_netloc other)
                   directory_name = false).
Proof.
  unfold search_correct_domain.
  destruct cse_keys; cbn [negb].
  2:{ exists None, t. repeat split; try reflexivity. intros u H.
      discriminate H. }
  unfold bind, emit, ret.
  assert (Hfirst : forall links u,
    first_matching_domain urlparse_netloc directory_name links = Some u ->
    exists before link after,
      links = (before ++ link :: after)%list
      /\ u = "https://" ++ get_domain urlparse_netloc link
      /\ domain_matches_name (get_domain urlparse_netloc link)
           directory_name = true
      /\ forall other, In other before ->
           domain_matches_name (get_domain urlparse_netloc other)
             directory_name = false).
  { induction links as [|link links IH]; intros u; [discriminate|].
    cbn [first_matching_domain].
    destruct (domain_matches_name (get_domain urlparse_netloc link)
                directory_name) eqn:E.
    - intros [= <-]. exists [], link, links.
      split; [reflexivity|]. split; [reflexivity|].
      split; [exact E|intros other []].
    - intros H.
      destruct (IH u H) as (before & l & after & -> & Hu & Hm & Hbefore).
      exists (link :: before), l, after.
      split; [reflexivity|]. split; [exact Hu|]. split; [exact Hm|].
      intros other [<-|Hin]; [exact E|apply Hbefore; exact Hin]. }
  destruct (google_cse directory_name) as [[links|]|e] eqn:Ecse.
  - eexists; eexists. split; [reflexivity|]. split; [reflexivity|].
    split; [discriminate|]. split; [discriminate|].
    intros u Hu. destruct (Hfirst links u Hu)
      as (before & link & after & -> & Hrest).
    exists before, link, after. split; [reflexivity|exact Hrest].
  - exists None. eexists. split; [reflexivity|]. split; [reflexivity|].
    split; [discriminate|]. split; [reflexivity|]. discriminate.
  - exists None. eexists. split; [reflexivity|]. split; [reflexivity|].
    split; [discriminate|]. split; [reflexivity|]. discriminate.
Qed.
